(** * AdvertisingApiV3: the request dispatcher, the token refresh and the
      artifact downloader of [amazon_advertising_api_v3/advertising_api.py]

    The client is a Python class whose methods read and write the fields of
    [self], install a process-wide urllib opener and talk to the network.
    The embedding threads a [World] (the client object, the installed opener
    and the log of requests put on the wire) through a state-and-exception
    monad.  What Python's standard library computes (JSON, URL quoting, gzip,
    UTF-8) is an interface, [Lib]; what the remote side answers is an oracle,
    [Net].  The methods are written once, over any [Lib] and [Net]; a
    reference instance of [Lib], executable, serves for concrete runs. *)

From Stdlib Require Import ZArith String Ascii List Lia Bool DecimalString DecimalN.
From stdpp Require Import base option gmap strings list.

Local Open Scope string_scope.
Local Open Scope Z_scope.

(** ** Python values

    The values that travel through the client are the JSON-shaped ones:
    [None], booleans, integers, text, lists and dicts with text keys.  A dict
    keeps its insertion order; it is a list of pairs. *)

Definition bytes := string.

Unset Elimination Schemes.
Inductive value : Type :=
| VNone
| VBool (b : bool)
| VInt (n : Z)
| VStr (s : string)
| VList (l : list value)
| VDict (d : list (string * value)).
Set Elimination Schemes.

(** [if v:] *)
Definition truthy (v : value) : bool :=
  match v with
  | VNone => false
  | VBool b => b
  | VInt n => negb (n =? 0)
  | VStr s => negb (String.eqb s "")
  | VList l => match l with [] => false | _ => true end
  | VDict d => match d with [] => false | _ => true end
  end.

(** [v is None] *)
Definition is_None (v : value) : bool :=
  match v with VNone => true | _ => false end.

(** [v == s] for a text literal [s] *)
Definition eq_str (v : value) (s : string) : bool :=
  match v with VStr t => String.eqb t s | _ => false end.

(** [needle in hay] on text *)
Fixpoint contains (needle hay : string) : bool :=
  if String.prefix needle hay then true
  else match hay with
       | EmptyString => false
       | String _ rest => contains needle rest
       end.

(** ** Exceptions and outcomes *)

Inductive exn : Type :=
| KeyError (m : string)
| ValueError (m : string)
| TypeError
| AttributeError
| JSONDecodeError
| UnicodeDecodeError
| BadGzipFile
| HTTPError (code : Z) (msg : string) (body : bytes)
| URLError (reason : string).

Inductive Outcome (A : Type) : Type :=
| Return (a : A)
| Raise (e : exn).
Arguments Return {A} a.
Arguments Raise {A} e.

(** ** The uniform result of every public operation:
    [{'success': .., 'code': .., 'response': ..}] *)

Record Result : Type := mkResult {
  success : bool;
  code : Z;
  response : value
}.

(** ** HTTP messages

    A request is what the client handed to [urllib.request.Request]: the
    [url=] text as composed, the header dict as written (urllib capitalizes
    the names and strips blanks around the URL on the way out), the body and
    the verb set on the request, if any. *)

Record Request : Type := mkRequest {
  req_url : string;
  req_headers : gmap string string;
  req_data : option bytes;
  req_method : option string
}.

(** [Request.get_method]: the verb set on the request, else POST when there
    is a body and GET when there is none. *)
Definition get_method (r : Request) : string :=
  match req_method r with
  | Some m => m
  | None => match req_data r with Some _ => "POST" | None => "GET" end
  end.

Record HTTPResponse : Type := mkResponse {
  h_code : Z;
  h_msg : string;
  h_headers : list (string * string);
  h_body : bytes
}.

(** ASCII lower-casing, for header names. *)
Definition lower_ascii (c : ascii) : ascii :=
  let n := nat_of_ascii c in
  if ((65 <=? n)%nat && (n <=? 90)%nat)%bool then ascii_of_nat (n + 32) else c.

Fixpoint lower (s : string) : string :=
  match s with
  | EmptyString => EmptyString
  | String c r => String (lower_ascii c) (lower r)
  end.

(** [name in message] and [message[name]] of [email.message.Message]: header
    names compare without case, a missing header reads as [None]. *)
Fixpoint header_get (name : string) (hs : list (string * string)) : option string :=
  match hs with
  | [] => None
  | (k, v) :: rest =>
      if String.eqb (lower k) (lower name) then Some v else header_get name rest
  end.

Definition header_mem (name : string) (hs : list (string * string)) : bool :=
  match header_get name hs with Some _ => true | None => false end.

(** What [urlopen] hands back: a response object, or the plain mapping
    [{'code': .., 'location': ..}] that [NoRedirectHandler] builds. *)
Inductive Opened : Type :=
| RespObj (r : HTTPResponse)
| RespDict (dcode : Z) (location : option string).

(** ** The standard library, as an interface *)

Class Lib : Type := {
  (** [str(v)], as ['{}'.format(v)] renders it *)
  str_of : value -> string;
  (** ['{}'.format(b)] for a bytes object [b] *)
  repr_bytes : bytes -> string;
  (** [urllib.parse.unquote] on text *)
  unquote : string -> string;
  (** [urllib.parse.urlencode]; [None] is [TypeError] *)
  urlencode : value -> option string;
  (** [json.dumps]; [None] is [TypeError] *)
  json_dumps : value -> option string;
  (** [json.loads] on text; [None] is [JSONDecodeError] *)
  json_loads : string -> option value;
  (** [gzip.GzipFile(fileobj=BytesIO(b)).read()]; [None] is [BadGzipFile] *)
  gunzip : bytes -> option bytes;
  (** [s.encode('utf-8')] *)
  utf8_encode : string -> bytes;
  (** [b.decode('utf-8')]; [None] is [UnicodeDecodeError] *)
  utf8_decode : bytes -> option string;
  (** whether [urllib.request.Request(url=u)] accepts [u]: it raises
      [ValueError] on a URL without a scheme *)
  url_ok : string -> bool;
  str_of_VStr : forall s, str_of (VStr s) = s;
  url_ok_https : forall s, url_ok ("https://" +:+ s) = true
}.

(** ** The openers

    The opener that [urlopen] uses: the stock one, or the one [_download]
    installs with [build_opener(NoRedirectHandler())].  Both keep
    [HTTPRedirectHandler] among their error handlers. *)

Inductive Opener : Type := StockOpener | NoRedirectOpener.

(** ** The remote side and the rest of [urllib]

    [wire hist req] is the reply to the request [req] that the client hands to
    [urlopen], after it handed over the requests [hist]; it is the response
    that reaches the opener's response processors.

    [parent_error parent hist req r] is [OpenerDirector.error] of the opener
    [parent] on a reply [r] outside 2xx: an [HTTPError], or whatever a
    redirect that [HTTPRedirectHandler] follows ends in.  Following a
    redirect happens inside the one call of [urlopen]: [urllib] builds and
    sends further requests of its own, with the headers of the first, and
    opens them with [parent] again, so the outcome depends on the opener.
    Those further requests are part of this oracle; they are not requests of
    the client and are in no log of this file. *)

Record Net : Type := {
  wire : list Request -> Request -> Outcome HTTPResponse;
  parent_error : Opener -> list Request -> Request -> HTTPResponse -> Outcome Opened
}.

(** ** Static configuration from [amazon_advertising_api.regions] and
    [amazon_advertising_api.versions]

    The two tables are not part of the client; they come in as parameters.  A
    region entry has the keys ['prod'], ['sandbox'] and ['token_url']; the
    version table has ['api_version'] and ['application_version']. *)

Record Region : Type := mkRegion {
  prod : string;
  sandbox_host : string;
  region_token_url : string
}.

Record Versions : Type := mkVersions {
  versions_api_version : string;
  versions_application_version : string
}.

(** ** The world *)

Record Client : Type := mkClient {
  client_id : string;
  client_secret : string;
  _access_token : value;
  refresh_token : option string;
  api_version : string;
  user_agent : string;
  profile_id : option string;
  token_url : string;
  sandbox : bool;
  endpoint : string
}.

(** [wire_log] is the list of the requests the client handed to [urlopen],
    in order: one entry for each call of [urlopen]. *)
Record World : Type := mkWorld {
  self : Client;
  opener : Opener;
  wire_log : list Request
}.

Definition with_access_token (v : value) (c : Client) : Client :=
  mkClient (client_id c) (client_secret c) v (refresh_token c) (api_version c)
           (user_agent c) (profile_id c) (token_url c) (sandbox c) (endpoint c).

Definition with_refresh_token (r : option string) (c : Client) : Client :=
  mkClient (client_id c) (client_secret c) (_access_token c) r (api_version c)
           (user_agent c) (profile_id c) (token_url c) (sandbox c) (endpoint c).

(** ** The monad: state over [World], with exceptions *)

Definition M (A : Type) : Type := World -> Outcome A * World.

#[global] Instance M_ret : MRet M := fun A a w => (Return a, w).

#[global] Instance M_bind : MBind M := fun A B k m w =>
  match m w with
  | (Return a, w') => k a w'
  | (Raise e, w') => (Raise e, w')
  end.

Definition raise {A : Type} (e : exn) : M A := fun w => (Raise e, w).

(** [try: body  except urllib.error.HTTPError as e: handler] *)
Definition try_HTTPError {A : Type} (body : M A)
    (handler : Z -> string -> bytes -> M A) : M A :=
  fun w =>
    match body w with
    | (Raise (HTTPError c m b), w') => handler c m b w'
    | r => r
    end.

Definition get_self : M Client := fun w => (Return (self w), w).

Definition set_access_token (v : value) : M unit :=
  fun w => (Return tt, mkWorld (with_access_token v (self w)) (opener w) (wire_log w)).

Definition set_refresh_token (r : option string) : M unit :=
  fun w => (Return tt, mkWorld (with_refresh_token r (self w)) (opener w) (wire_log w)).

(** [urllib.request.install_opener] *)
Definition install_opener (o : Opener) : M unit :=
  fun w => (Return tt, mkWorld (self w) o (wire_log w)).

(** Lifting a partial library function: [None] raises [e]. *)
Definition lift {A : Type} (e : exn) (o : option A) : M A :=
  match o with Some a => mret a | None => raise e end.

(** ** The client *)

Section AdvertisingApiV3.
Context {L : Lib} (N : Net).
Variable regions : gmap string Region.
Variable versions : Versions.

(** [AdvertisingApiV3.__init__]: an unknown region code raises [KeyError]. *)
Definition __init__ (client_id client_secret region : string)
    (profile_id : option string) (access_token : value)
    (refresh_token : option string) (sandbox : bool) : Outcome Client :=
  match regions !! region with
  | Some r =>
      Return (mkClient client_id client_secret access_token refresh_token
                (versions_api_version versions)
                ("AdvertisingAPI Python Client Library v"
                   +:+ versions_application_version versions)
                profile_id (region_token_url r) sandbox
                (if sandbox then sandbox_host r else prod r))
  | None => Raise (KeyError ("Region " +:+ region +:+ " not found in regions."))
  end.

(** [urllib.request.HTTPErrorProcessor.http_response]: a 2xx reply passes,
    any other goes to the error handlers of [self.parent], the opener the
    processor belongs to. *)
Definition HTTPErrorProcessor_http_response (parent : Opener)
    (hist : list Request) (request : Request) (response : HTTPResponse)
    : Outcome Opened :=
  if (200 <=? h_code response) && (h_code response <? 300)
  then Return (RespObj response)
  else parent_error N parent hist request response.

(** [NoRedirectHandler.http_response] *)
Definition http_response (hist : list Request) (request : Request)
    (response : HTTPResponse) : Outcome Opened :=
  if h_code response =? 307 then
    if header_mem "Location" (h_headers response)
    then Return (RespDict 307 (header_get "Location" (h_headers response)))
    else Return (RespDict (h_code response) None)
  else HTTPErrorProcessor_http_response NoRedirectOpener hist request response.

(** [urllib.request.urlopen] with the opener that is installed: the request
    is logged and goes on the wire, the reply goes through the opener's
    processor.  One call logs one request, the one it is given. *)
Definition urlopen (req : Request) : M Opened := fun w =>
  let hist := wire_log w in
  let w' := mkWorld (self w) (opener w) (hist ++ [req]) in
  match wire N hist req with
  | Raise e => (Raise e, w')
  | Return r =>
      match opener w with
      | StockOpener => (HTTPErrorProcessor_http_response StockOpener hist req r, w')
      | NoRedirectOpener => (http_response hist req r, w')
      end
  end.

(** [urllib.request.Request(url=.., headers=.., data=..)] *)
Definition Request_init (url : value) (headers : gmap string string)
    (data : option bytes) : M Request :=
  let u := str_of url in
  if url_ok u then mret (mkRequest u headers data None)
  else raise (ValueError "unknown url type").

(** [f.code] *)
Definition attr_code (f : Opened) : M Z :=
  match f with
  | RespObj r => mret (h_code r)
  | RespDict _ _ => raise AttributeError
  end.

(** [f.read()] *)
Definition read (f : Opened) : M bytes :=
  match f with
  | RespObj r => mret (h_body r)
  | RespDict _ _ => raise AttributeError
  end.

(** ['location' in response]: the key of the mapping; on a response object
    the test runs over the lines of the body, which are bytes and never equal
    the text ['location']. *)
Definition has_location (f : Opened) : bool :=
  match f with
  | RespObj _ => false
  | RespDict _ _ => true
  end.

(** [response['location']] *)
Definition item_location (f : Opened) : M (option string) :=
  match f with
  | RespObj _ => raise TypeError
  | RespDict _ l => mret l
  end.

Fixpoint dict_get (k : string) (d : list (string * value)) : option value :=
  match d with
  | [] => None
  | (k', v) :: rest => if String.eqb k' k then Some v else dict_get k rest
  end.

(** [v[k]] for a text key [k] *)
Definition getitem (v : value) (k : string) : M value :=
  match v with
  | VDict d => lift (KeyError k) (dict_get k d)
  | _ => raise TypeError
  end.

(** [json.loads(v)] *)
Definition py_json_loads (v : value) : M value :=
  match v with
  | VStr s => lift JSONDecodeError (json_loads s)
  | _ => raise TypeError
  end.

(** [urllib.parse.unquote(v)]: text is unquoted; on anything else the
    opening test ['%' not in v] raises [TypeError] when [v] is not a
    container, and a container without ['%'] has no [split]. *)
Definition py_unquote (v : value) : M value :=
  match v with
  | VStr s => mret (VStr (unquote s))
  | VList l =>
      if existsb (fun x => eq_str x "%") l then raise TypeError
      else raise AttributeError
  | VDict d =>
      match dict_get "%" d with
      | Some _ => raise TypeError
      | None => raise AttributeError
      end
  | _ => raise TypeError
  end.

(** The [except urllib.error.HTTPError as e] clause shared by the three
    network methods. *)
Definition on_HTTPError (c : Z) (msg : string) (body : bytes) : M Result :=
  mret (mkResult false c (VStr (msg +:+ ": " +:+ repr_bytes body))).

(** [AdvertisingApiV3.do_refresh_token] *)
Definition do_refresh_token : M Result :=
  me ← get_self;
  match refresh_token me with
  | None => mret (mkResult false 0 (VStr "refresh_token is empty."))
  | Some rt =>
      (if truthy (_access_token me)
       then t ← py_unquote (_access_token me); set_access_token t
       else mret tt);;
      set_refresh_token (Some (unquote rt));;
      me ← get_self;
      let params := VDict [("grant_type", VStr "refresh_token");
                           ("refresh_token",
                            match refresh_token me with
                            | Some r => VStr r
                            | None => VNone
                            end);
                           ("client_id", VStr (client_id me));
                           ("client_secret", VStr (client_secret me))] in
      data ← lift TypeError (urlencode params);
      req ← Request_init (VStr ("https://" +:+ token_url me)) ∅
                         (Some (utf8_encode data));
      try_HTTPError
        (f ← urlopen req;
         raw ← read f;
         response ← lift UnicodeDecodeError (utf8_decode raw);
         if contains "access_token" response then
           json_data ← py_json_loads (VStr response);
           tok ← getitem json_data "access_token";
           set_access_token tok;;
           c ← attr_code f;
           me ← get_self;
           mret (mkResult true c (_access_token me))
         else
           c ← attr_code f;
           mret (mkResult false c (VStr "access_token not in response.")))
        on_HTTPError
  end.

(** [AdvertisingApiV3._download] *)
Definition _download (location : value) : M Result :=
  me ← get_self;
  let headers : gmap string string :=
    <["User-Agent" := user_agent me]>
      (<["Content-Type" := "application/json"]>
         (<["Authorization" := "Bearer " +:+ str_of (_access_token me)]> ∅)) in
  headers ← match profile_id me with
            | Some p => mret (<["Amazon-Advertising-API-Scope" := p]> headers)
            | None => raise (ValueError "Invalid profile Id.")
            end;
  install_opener NoRedirectOpener;;
  req ← Request_init location headers None;
  try_HTTPError
    (response ← urlopen req;
     if has_location response then
       loc ← item_location response;
       match loc with
       | Some l =>
           req ← Request_init (VStr l) ∅ None;
           res ← urlopen req;
           res_data ← read res;
           data ← lift BadGzipFile (gunzip res_data);
           c ← attr_code res;
           text ← lift UnicodeDecodeError (utf8_decode data);
           j ← py_json_loads (VStr text);
           mret (mkResult true c j)
       | None =>
           c ← attr_code response;
           mret (mkResult false c (VStr "Location is empty."))
       end
     else
       c ← attr_code response;
       mret (mkResult false c (VStr "Location not found.")))
    on_HTTPError.

(** [AdvertisingApiV3._operation] *)
Definition _operation (interface : string) (params : value) (method : string)
    (version : option string) : M Result :=
  let use_version := match version with
                     | None => ""
                     | Some v => "/" +:+ v
                     end in
  me ← get_self;
  if is_None (_access_token me) then
    mret (mkResult false 0 (VStr "access_token is empty."))
  else
    let headers : gmap string string :=
      <["User-Agent" := user_agent me]>
        (<["Content-Type" := "application/json"]>
           (<["Amazon-Advertising-API-ClientId" := client_id me]>
              (<["Authorization" := "Bearer " +:+ str_of (_access_token me)]> ∅))) in
    let headers := if sandbox me
                   then <["BIDDING_CONTROLS_ON" := "true"]> headers
                   else headers in
    (* the if/elif on profile_id: a scope header, or an early return, or
       neither *)
    match
      match profile_id me with
      | Some p =>
          if negb (String.eqb p "")
          then inr (<["Amazon-Advertising-API-Scope" := p]> headers)
          else if negb (contains "profiles" interface)
               then inl (mkResult false 0 (VStr "profile_id is empty."))
               else inr headers
      | None =>
          if negb (contains "profiles" interface)
          then inl (mkResult false 0 (VStr "profile_id is empty."))
          else inr headers
      end
    with
    | inl early => mret early
    | inr headers =>
        '(url, data) ←
          (if String.eqb method "GET" then
             p ← (if negb (is_None params)
                  then q ← lift TypeError (urlencode params); mret ("?" +:+ q)
                  else mret "");
             mret ("https://" +:+ endpoint me +:+ use_version +:+ "/"
                     +:+ interface +:+ p, None)
           else
             data ← (if negb (is_None params)
                     then s ← lift TypeError (json_dumps params);
                          mret (Some (utf8_encode s))
                     else mret None);
             mret ("https://" +:+ endpoint me +:+ use_version +:+ "/"
                     +:+ interface, data));
        req ← Request_init (VStr url) headers data;
        (* req.method = method *)
        let req := mkRequest (req_url req) (req_headers req) (req_data req)
                             (Some method) in
        try_HTTPError
          (f ← urlopen req;
           c ← attr_code f;
           raw ← read f;
           text ← lift UnicodeDecodeError (utf8_decode raw);
           mret (mkResult true c (VStr text)))
          on_HTTPError
    end.

(** [AdvertisingApiV3.list_profiles] *)
Definition list_profiles : M Result :=
  _operation "profiles" VNone "GET" (Some "v2").

(** [AdvertisingApiV3.register_profile] *)
Definition register_profile (country_code : value) : M Result :=
  _operation "profiles/register" (VDict [("countryCode", country_code)]) "PUT"
             (Some "v2").

(** [AdvertisingApiV3.list_changes], one of the two version-less endpoints *)
Definition list_changes (data : value) : M Result :=
  _operation "history" data "POST" None.

(** [AdvertisingApiV3.list_campaigns] *)
Definition list_campaigns (data : value) (extended : bool) : M Result :=
  let interface := "sp/campaigns" +:+ (if extended then "/extended" else "") in
  _operation interface data "GET" (Some "v2").

(** [AdvertisingApiV3.request_report] *)
Definition request_report (record_type report_id : option string)
    (data : value) (campaign_type : string) : M Result :=
  match record_type with
  | Some rt =>
      let interface := campaign_type +:+ "/" +:+ rt +:+ "/report" in
      _operation interface data "POST" (Some "v2")
  | None =>
      match report_id with
      | Some rid =>
          let interface := "reports/" +:+ rid in
          _operation interface VNone "GET" (Some "v2")
      | None =>
          mret (mkResult false 0
                  (VStr "record_type and report_id are both empty."))
      end
  end.

(** [AdvertisingApiV3.get_report] *)
Definition get_report (report_id : string) : M Result :=
  let interface := "reports/" +:+ report_id in
  res ← _operation interface VNone "GET" (Some "v2");
  ready ← (if code res =? 200 then
             j ← py_json_loads (response res);
             st ← getitem j "status";
             mret (eq_str st "SUCCESS")
           else mret false : M bool);
  if ready : bool then
    j ← py_json_loads (response res);
    loc ← getitem j "location";
    _download loc
  else mret res.

(** [AdvertisingApiV3.request_snapshot] *)
Definition request_snapshot (record_type snapshot_id : option string)
    (data : value) (campaign_type : string) : M Result :=
  let data := if negb (truthy data) then VDict [] else data in
  match record_type with
  | Some rt =>
      let interface := campaign_type +:+ "/" +:+ rt +:+ "/snapshot" in
      _operation interface data "POST" (Some "v2")
  | None =>
      match snapshot_id with
      | Some sid =>
          let interface := "snapshots/" +:+ sid in
          _operation interface data "GET" (Some "v2")
      | None =>
          mret (mkResult false 0
                  (VStr "record_type and snapshot_id are both empty."))
      end
  end.

(** [AdvertisingApiV3.get_snapshot] *)
Definition get_snapshot (snapshot_id : string) : M Result :=
  let interface := "snapshots/" +:+ snapshot_id in
  res ← _operation interface VNone "GET" (Some "v2");
  j ← py_json_loads (response res);
  st ← getitem j "status";
  if eq_str st "SUCCESS" then
    j ← py_json_loads (response res);
    loc ← getitem j "location";
    _download loc
  else mret res.

End AdvertisingApiV3.

(** ** Vocabulary for the statements *)

(** [profile_id is not None and profile_id != ''] *)
Definition scoped (me : Client) : bool :=
  match profile_id me with
  | Some p => negb (String.eqb p "")
  | None => false
  end.

(** The version part of a URL: [/v] for a version [v], nothing when the
    version is suppressed. *)
Definition version_segment (version : option string) : string :=
  match version with
  | None => ""
  | Some v => "/" +:+ v
  end.

(** How parameters travel, by verb: [shaped method params query body] says
    that [params] under [method] give the query-string suffix [query] and the
    body [body]. *)
Inductive shaped {L : Lib} : string -> value -> string -> option bytes -> Prop :=
| shaped_get_bare : shaped "GET" VNone "" None
| shaped_get_query params q :
    is_None params = false -> urlencode params = Some q ->
    shaped "GET" params ("?" +:+ q) None
| shaped_body_bare method :
    method <> "GET" -> shaped method VNone "" None
| shaped_body_json method params s :
    method <> "GET" -> is_None params = false -> json_dumps params = Some s ->
    shaped method params "" (Some (utf8_encode s)).

(** The world after one more request went on the wire. *)
Definition after_request (w : World) (req : Request) : World :=
  mkWorld (self w) (opener w) (wire_log w ++ [req]).

(** The headers [_operation] puts on a request of client [me]. *)
Definition carries_operation_headers {L : Lib} (me : Client) (req : Request) : Prop :=
  req_headers req !! "Authorization"
    = Some ("Bearer " +:+ str_of (_access_token me))
  /\ req_headers req !! "Amazon-Advertising-API-ClientId" = Some (client_id me)
  /\ req_headers req !! "Content-Type" = Some "application/json"
  /\ req_headers req !! "User-Agent" = Some (user_agent me)
  /\ req_headers req !! "BIDDING_CONTROLS_ON"
     = (if sandbox me then Some "true" else None)
  /\ req_headers req !! "Amazon-Advertising-API-Scope"
     = (if scoped me then profile_id me else None).

(** What [do_refresh_token] leaves in [_access_token] before it goes to the
    network: a non-empty text token is unquoted in place. *)
Definition unquoted_token {L : Lib} (v : value) : value :=
  match v with
  | VStr s => if truthy v then VStr (unquote s) else v
  | _ => v
  end.

(** Whether an outcome is a result with [success] set. *)
Definition succeeded (out : Outcome Result) : bool :=
  match out with
  | Return r => success r
  | Raise _ => false
  end.

(** ** The rest of the client: the token property, the endpoint catalog and
    the Python 2 request class *)

Section Catalog.
Context {L : Lib} (N : Net).

(** The [access_token] property: its getter and its setter. *)
Definition access_token : M value :=
  me ← get_self; mret (_access_token me).

Definition access_token_setter (value : value) : M unit :=
  set_access_token value.

(** ['{}{}'.format(base, '/extended' if extended else '')] *)
Definition with_extended (base : string) (extended : bool) : string :=
  base +:+ (if extended then "/extended" else "").

(** *** Profiles *)

Definition get_profile (profile_id : value) : M Result :=
  _operation N ("profiles/" +:+ str_of profile_id) VNone "GET" (Some "v2").

Definition update_profiles (data : value) : M Result :=
  _operation N "profiles" data "PUT" (Some "v2").

(** *** Portfolios *)

Definition list_portfolios (data : value) (extended : bool) : M Result :=
  _operation N (with_extended "portfolios" extended) data "GET" (Some "v2").

Definition get_portfolio (portfolio_id : value) (extended : bool) : M Result :=
  _operation N (with_extended "portfolios" extended +:+ "/" +:+ str_of portfolio_id)
             VNone "GET" (Some "v2").

Definition create_portfolios (data : value) : M Result :=
  _operation N "portfolios" data "POST" (Some "v2").

Definition update_portfolios (data : value) : M Result :=
  _operation N "portfolios" data "PUT" (Some "v2").

(** *** Product eligibility *)

Definition list_eligibility (data : value) : M Result :=
  _operation N "eligibility/product/list" data "POST" None.

(** *** Campaigns *)

Definition get_campaign (campaign_id : value) (extended : bool) : M Result :=
  _operation N (with_extended "sp/campaigns" extended +:+ "/" +:+ str_of campaign_id)
             VNone "GET" (Some "v2").

Definition create_campaigns (data : value) : M Result :=
  _operation N "sp/campaigns" data "POST" (Some "v2").

Definition update_campaigns (data : value) : M Result :=
  _operation N "sp/campaigns" data "PUT" (Some "v2").

Definition archive_campaign (campaign_id : value) : M Result :=
  _operation N ("sp/campaigns/" +:+ str_of campaign_id) VNone "DELETE" (Some "v2").

Definition list_budget_recommendations (data : value) : M Result :=
  _operation N "sp/campaigns/budgetRecommendations" data "POST" (Some "v2").

(** *** Ad groups *)

Definition get_ad_group (ad_group_id : value) (extended : bool) : M Result :=
  _operation N (with_extended "sp/adGroups" extended +:+ "/" +:+ str_of ad_group_id)
             VNone "GET" (Some "v2").

Definition create_ad_groups (data : value) : M Result :=
  _operation N "sp/adGroups" data "POST" (Some "v2").

Definition update_ad_groups (data : value) : M Result :=
  _operation N "sp/adGroups" data "PUT" (Some "v2").

Definition archive_ad_group (ad_group_id : value) : M Result :=
  _operation N ("sp/adGroups/" +:+ str_of ad_group_id) VNone "DELETE" (Some "v2").

Definition list_ad_groups (data : value) (extended : bool) : M Result :=
  _operation N (with_extended "sp/adGroups" extended) data "GET" (Some "v2").

(** *** Product ads *)

Definition get_product_ad (product_ad_id : value) (extended : bool) : M Result :=
  _operation N (with_extended "sp/productAds" extended +:+ "/" +:+ str_of product_ad_id)
             VNone "GET" (Some "v2").

Definition create_product_ads (data : value) : M Result :=
  _operation N "sp/productAds" data "POST" (Some "v2").

Definition update_product_ads (data : value) : M Result :=
  _operation N "sp/productAds" data "PUT" (Some "v2").

(** [extended] is accepted and not used. *)
Definition archive_product_ad (product_ad_id : value) (extended : bool) : M Result :=
  _operation N ("sp/productAds/" +:+ str_of product_ad_id) VNone "DELETE" (Some "v2").

Definition list_product_ads (data : value) (extended : bool) : M Result :=
  _operation N (with_extended "sp/productAds" extended) data "GET" (Some "v2").

(** *** Keywords *)

Definition get_keyword (keyword_id : value) (extended : bool) : M Result :=
  _operation N (with_extended "sp/keywords" extended +:+ "/" +:+ str_of keyword_id)
             VNone "GET" (Some "v2").

Definition create_keywords (data : value) : M Result :=
  _operation N "sp/keywords" data "POST" (Some "v2").

Definition update_keywords (data : value) : M Result :=
  _operation N "sp/keywords" data "PUT" (Some "v2").

Definition archive_keyword (keyword_id : value) : M Result :=
  _operation N ("sp/keywords/" +:+ str_of keyword_id) VNone "DELETE" (Some "v2").

Definition list_biddable_keywords (data : value) (extended : bool) : M Result :=
  _operation N (with_extended "sp/keywords" extended) data "GET" (Some "v2").

(** *** Suggested keywords *)

Definition list_suggested_keywords_for_ad_group (ad_group_id : value)
    (extended : bool) : M Result :=
  _operation N
    ("sp/adGroups/" +:+ str_of ad_group_id +:+ "/suggested/keywords"
       +:+ (if extended then "/extended" else ""))
    VNone "GET" (Some "v2").

Definition list_suggested_keywords_for_asin (asin : value) : M Result :=
  _operation N ("sp/asins/" +:+ str_of asin +:+ "/suggested/keywords")
             VNone "GET" (Some "v2").

Definition list_suggested_keywords_for_asins (data : value) : M Result :=
  _operation N "sp/asins/suggested/keywords" data "POST" (Some "v2").

Definition list_keyword_rank_recommendations (data : value) : M Result :=
  _operation N "sp/targets/keywords/recommendation" data "POST" (Some "v2").

(** *** Bid recommendations *)

Definition list_bid_recommendations_for_ad_group (ad_group_id : value) : M Result :=
  _operation N ("sp/adGroups/" +:+ str_of ad_group_id +:+ "/bidRecommendations")
             VNone "GET" (Some "v2").

Definition list_bid_recommendations_for_keyword (keyword_id : value) : M Result :=
  _operation N ("sp/keywords/" +:+ str_of keyword_id +:+ "/bidRecommendations")
             VNone "GET" (Some "v2").

Definition list_bid_recommendations_for_keywords (ad_group_id keywords : value)
    : M Result :=
  let data := VDict [("adGroupId", ad_group_id); ("keywords", keywords)] in
  _operation N "sp/keywords/bidRecommendations" data "POST" (Some "v2").

Definition list_bid_recommendations_for_targets (ad_group_id expressions : value)
    : M Result :=
  let data := VDict [("adGroupId", ad_group_id); ("expressions", expressions)] in
  _operation N "sp/targets/bidRecommendations" data "POST" (Some "v2").

(** *** Negative keywords *)

Definition get_negative_keyword (negative_keyword_id : value) (extended : bool)
    : M Result :=
  _operation N (with_extended "sp/negativeKeywords" extended +:+ "/"
                  +:+ str_of negative_keyword_id)
             VNone "GET" (Some "v2").

Definition create_negative_keywords (data : value) : M Result :=
  _operation N "sp/negativeKeywords" data "POST" (Some "v2").

Definition update_negative_keywords (data : value) : M Result :=
  _operation N "sp/negativeKeywords" data "PUT" (Some "v2").

Definition archive_negative_keyword (negative_keyword_id : value) : M Result :=
  _operation N ("sp/negativeKeywords/" +:+ str_of negative_keyword_id)
             VNone "DELETE" (Some "v2").

Definition list_negative_keywords (data : value) (extended : bool) : M Result :=
  _operation N (with_extended "sp/negativeKeywords" extended) data "GET" (Some "v2").

(** *** Campaign negative keywords *)

Definition get_campaign_negative_keyword (campaign_negative_keyword_id : value)
    (extended : bool) : M Result :=
  _operation N (with_extended "sp/campaignNegativeKeywords" extended +:+ "/"
                  +:+ str_of campaign_negative_keyword_id)
             VNone "GET" (Some "v2").

Definition create_campaign_negative_keywords (data : value) : M Result :=
  _operation N "sp/campaignNegativeKeywords" data "POST" (Some "v2").

Definition update_campaign_negative_keywords (data : value) : M Result :=
  _operation N "sp/campaignNegativeKeywords" data "PUT" (Some "v2").

Definition remove_campaign_negative_keyword (campaign_negative_keyword_id : value)
    : M Result :=
  _operation N ("sp/campaignNegativeKeywords/"
                  +:+ str_of campaign_negative_keyword_id)
             VNone "DELETE" (Some "v2").

Definition list_campaign_negative_keywords (data : value) (extended : bool)
    : M Result :=
  _operation N (with_extended "sp/campaignNegativeKeywords" extended) data "GET"
             (Some "v2").

(** *** Targets *)

Definition get_target (target_id : value) (extended : bool) : M Result :=
  _operation N (with_extended "sp/targets" extended +:+ "/" +:+ str_of target_id)
             VNone "GET" (Some "v2").

Definition create_targets (data : value) : M Result :=
  _operation N "sp/targets" data "POST" (Some "v2").

Definition update_targets (data : value) : M Result :=
  _operation N "sp/targets" data "PUT" (Some "v2").

Definition list_targets (data : value) (extended : bool) : M Result :=
  _operation N (with_extended "sp/targets" extended) data "GET" (Some "v2").

Definition list_target_brands (data : value) : M Result :=
  _operation N "sp/targets/brands" data "GET" (Some "v2").

Definition list_target_categories (data : value) : M Result :=
  _operation N "sp/targets/categories" data "GET" (Some "v2").

Definition refine_target_categories (data : value) : M Result :=
  _operation N "sp/targets/categories/refinements" data "GET" (Some "v2").

Definition list_target_product_recommendations (data : value) : M Result :=
  _operation N "sp/targets/productRecommendations" data "POST" (Some "v2").

(** *** Negative targets *)

Definition create_negative_targets (data : value) : M Result :=
  _operation N "sp/negativeTargets" data "POST" (Some "v2").

Definition update_negative_targets (data : value) : M Result :=
  _operation N "sp/negativeTargets" data "PUT" (Some "v2").

Definition list_negative_targets (data : value) (extended : bool) : M Result :=
  _operation N (with_extended "sp/negativeTargets" extended) data "GET" (Some "v2").

(** *** Methods that read a name they do not bind

    [archive_target] and [archive_negative_target] take [ad_group_id] and
    format [target_id]; [get_negative_target] takes [target_id] and formats
    [ad_group_id].  The module binds neither name, nor do the builtins: the
    lookup is among the method's own parameters. *)

Inductive Named (A : Type) : Type :=
| NameError (name : string)
| Bound (a : A).
Arguments NameError {A} name.
Arguments Bound {A} a.

Definition resolve (locals : list (string * value)) (name : string) : Named value :=
  match dict_get name locals with
  | Some v => Bound v
  | None => NameError name
  end.

Definition archive_target (ad_group_id : value) : Named (M Result) :=
  match resolve [("ad_group_id", ad_group_id)] "target_id" with
  | Bound target_id =>
      Bound (_operation N ("sp/targets/" +:+ str_of target_id) VNone "DELETE"
                        (Some "v2"))
  | NameError name => NameError name
  end.

Definition get_negative_target (target_id : value) (extended : bool)
    : Named (M Result) :=
  match resolve [("target_id", target_id); ("extended", VBool extended)]
                "ad_group_id" with
  | Bound ad_group_id =>
      Bound (_operation N (with_extended "sp/negativeTargets" extended +:+ "/"
                             +:+ str_of ad_group_id)
                        VNone "GET" (Some "v2"))
  | NameError name => NameError name
  end.

Definition archive_negative_target (ad_group_id : value) : Named (M Result) :=
  match resolve [("ad_group_id", ad_group_id)] "target_id" with
  | Bound target_id =>
      Bound (_operation N ("sp/negativeTargets/" +:+ str_of target_id) VNone
                        "DELETE" (Some "v2"))
  | NameError name => NameError name
  end.

(** *** Sponsored Brands leftovers and search-term reports *)

Definition get_sb_keyword_bid_recommendations (campaign_id keywords : value)
    : M Result :=
  let data := VDict [("campaignId", campaign_id); ("keywords", keywords)] in
  _operation N "recommendations/bids" data "POST" (Some "v2").

Definition get_sb_target_bid_recommendations (campaign_id keywords : value)
    : M Result :=
  let data := VDict [("campaignId", campaign_id); ("targets", keywords)] in
  _operation N "recommendations/bids" data "POST" (Some "v2").

Definition create_search_terms (data : value) : M Result :=
  _operation N "sp/targets/report" data "POST" (Some "v2").

Definition create_search_terms_old (data : value) : M Result :=
  _operation N "sp/keywords/report" data "POST" (Some "v2").

(** *** The catalog as a table

    The endpoint methods that are one call of the dispatcher, each applied to
    an identifier [id], a payload [data] and the [extended] flag, as far as it
    takes them; a method with two values takes [id] and [data] in this
    order. *)
Definition catalog (id data : value) (extended : bool) : list (M Result) :=
  [ register_profile N id; list_profiles N; get_profile id; update_profiles data;
    list_portfolios data extended; get_portfolio id extended;
    create_portfolios data; update_portfolios data;
    list_changes N data; list_eligibility data;
    get_campaign id extended; create_campaigns data; update_campaigns data;
    archive_campaign id; list_campaigns N data extended;
    list_budget_recommendations data;
    get_ad_group id extended; create_ad_groups data; update_ad_groups data;
    archive_ad_group id; list_ad_groups data extended;
    get_product_ad id extended; create_product_ads data; update_product_ads data;
    archive_product_ad id extended; list_product_ads data extended;
    get_keyword id extended; create_keywords data; update_keywords data;
    archive_keyword id; list_biddable_keywords data extended;
    list_suggested_keywords_for_ad_group id extended;
    list_suggested_keywords_for_asin id; list_suggested_keywords_for_asins data;
    list_keyword_rank_recommendations data;
    list_bid_recommendations_for_ad_group id;
    list_bid_recommendations_for_keyword id;
    list_bid_recommendations_for_keywords id data;
    list_bid_recommendations_for_targets id data;
    get_negative_keyword id extended; create_negative_keywords data;
    update_negative_keywords data; archive_negative_keyword id;
    list_negative_keywords data extended;
    get_campaign_negative_keyword id extended;
    create_campaign_negative_keywords data;
    update_campaign_negative_keywords data;
    remove_campaign_negative_keyword id;
    list_campaign_negative_keywords data extended;
    get_target id extended; create_targets data; update_targets data;
    list_targets data extended; list_target_brands data;
    list_target_categories data; refine_target_categories data;
    list_target_product_recommendations data;
    create_negative_targets data; update_negative_targets data;
    list_negative_targets data extended;
    get_sb_keyword_bid_recommendations id data;
    get_sb_target_bid_recommendations id data;
    create_search_terms data; create_search_terms_old data ].

End Catalog.

Arguments NameError {A} name.
Arguments Bound {A} a.

(** ** [MethodRequest], the request class of the Python 2 path *)

Record MethodRequest : Type := mkMethodRequest {
  mr_request : Request;
  _method : option string
}.

(** [MethodRequest.__init__]: [method_kw] is the [method] keyword argument,
    [None] when the call has none; its value may itself be [None]. *)
Definition MethodRequest_init {L : Lib} (url : value) (headers : gmap string string)
    (data : option bytes) (method_kw : option (option string)) : M MethodRequest :=
  let _method := match method_kw with
                 | Some m => m
                 | None => None
                 end in
  req ← Request_init url headers data;
  mret (mkMethodRequest req _method).

(** [MethodRequest.get_method] *)
Definition MethodRequest_get_method (r : MethodRequest) : string :=
  match _method r with
  | Some m => m
  | None => get_method (mr_request r)
  end.

(** ** More vocabulary for the statements *)

(** [m] calls [urlopen] at most [n] times: it hands at most [n] requests to
    [urlopen], and only adds to the log.  What [urllib] sends on its own when
    it follows a redirect inside one of these calls is not counted. *)
Definition opens_at_most {A : Type} (n : nat) (m : M A) : Prop :=
  forall w, exists l : list Request,
    wire_log (snd (m w)) = (wire_log w ++ l)%list /\ (length l <= n)%nat.

(** [m] leaves the client object as it found it. *)
Definition keeps_session {A : Type} (m : M A) : Prop :=
  forall w, self (snd (m w)) = self w.

(** [m] leaves the installed opener as it found it. *)
Definition keeps_opener {A : Type} (m : M A) : Prop :=
  forall w, opener (snd (m w)) = opener w.

(** No [HTTPError] leaves [m]. *)
Definition contains_HTTPError {A : Type} (m : M A) : Prop :=
  forall w c msg body, fst (m w) <> Raise (HTTPError c msg body).

(** Two client objects that differ at most in their two tokens. *)
Definition same_but_tokens (a b : Client) : Prop :=
  client_id a = client_id b
  /\ client_secret a = client_secret b
  /\ api_version a = api_version b
  /\ user_agent a = user_agent b
  /\ profile_id a = profile_id b
  /\ token_url a = token_url b
  /\ sandbox a = sandbox b
  /\ endpoint a = endpoint b.

(** [m] changes nothing of the client object but its tokens. *)
Definition touches_only_tokens {A : Type} (m : M A) : Prop :=
  forall w, same_but_tokens (self (snd (m w))) (self w).

(** Every result [m] returns carries text, not decoded JSON. *)
Definition returns_text (m : M Result) : Prop :=
  forall w r, fst (m w) = Return r -> exists s, response r = VStr s.

(** ** A reference model of the standard library

    Text is read as its UTF-8 encoding, one [ascii] per byte.  The model is
    exact on ASCII text and on integers.  Outside of that it is simpler than
    Python: [dumps] writes a byte from 128 up as it is, where [json.dumps]
    writes the [\uXXXX] form of the code point; [unquote] keeps ill-formed
    UTF-8, where Python puts U+FFFD; [loads] rejects numbers with a fraction
    or an exponent, [NaN], [Infinity] and surrogate escapes; [gunzip] rejects
    members with optional header fields or compressed blocks.  Nothing that is
    proved for every [Lib] depends on the model. *)

Module Py.

Definition ord (c : ascii) : Z := Z.of_N (N_of_ascii c).
Definition chr (n : Z) : ascii := ascii_of_N (Z.to_N n).

Definition dquote : ascii := "034"%char.
Definition squote : ascii := "039"%char.
Definition backslash : ascii := "092"%char.

Definition between (lo hi : Z) (c : ascii) : bool :=
  (lo <=? ord c) && (ord c <=? hi).

Definition is_digit (c : ascii) : bool := between 48 57 c.

(** The sixteen hexadecimal digits, lower case from 97, upper case from 65. *)
Definition hexchar (a : Z) (n : Z) : ascii :=
  if n <? 10 then chr (48 + n) else chr (a + n - 10).

Definition hexval (c : ascii) : option Z :=
  if between 48 57 c then Some (ord c - 48)
  else if between 97 102 c then Some (ord c - 87)
  else if between 65 70 c then Some (ord c - 55)
  else None.

(** *** [str] and [repr] *)

Definition string_of_pos (p : positive) : string :=
  NilEmpty.string_of_uint (Pos.to_uint p).

Definition string_of_Z (n : Z) : string :=
  match n with
  | Z0 => "0"
  | Zpos p => string_of_pos p
  | Zneg p => String "-" (string_of_pos p)
  end.

Fixpoint mem_char (c : ascii) (s : string) : bool :=
  match s with
  | EmptyString => false
  | String d r => if Ascii.eqb c d then true else mem_char c r
  end.

(** The quote [repr] chooses: the double quote when the text holds a single
    quote and no double quote, the single quote otherwise. *)
Definition repr_quote (s : string) : ascii :=
  if mem_char squote s && negb (mem_char dquote s) then dquote else squote.

Definition repr_char (q : ascii) (c : ascii) : string :=
  if Ascii.eqb c backslash then String backslash (String backslash "")
  else if Ascii.eqb c q then String backslash (String q "")
  else if ord c =? 9 then String backslash "t"
  else if ord c =? 10 then String backslash "n"
  else if ord c =? 13 then String backslash "r"
  else if (ord c <? 32) || (ord c =? 127)
       then String backslash
              (String "x" (String (hexchar 97 (ord c / 16))
                             (String (hexchar 97 (ord c mod 16)) "")))
       else String c "".

Fixpoint repr_body (q : ascii) (s : string) : string :=
  match s with
  | EmptyString => ""
  | String c r => repr_char q c +:+ repr_body q r
  end.

(** [repr(s)] for text *)
Definition repr_str (s : string) : string :=
  let q := repr_quote s in
  String q (repr_body q s +:+ String q "").

(** In [repr(b)] every byte from 127 up is written [\xNN]. *)
Definition repr_byte (q : ascii) (c : ascii) : string :=
  if 127 <=? ord c
  then String backslash
         (String "x" (String (hexchar 97 (ord c / 16))
                        (String (hexchar 97 (ord c mod 16)) "")))
  else repr_char q c.

Fixpoint repr_bytes_body (q : ascii) (s : bytes) : string :=
  match s with
  | EmptyString => ""
  | String c r => repr_byte q c +:+ repr_bytes_body q r
  end.

(** [repr(b)] for bytes, which is also what ['{}'.format(b)] gives *)
Definition repr_bytes (b : bytes) : string :=
  let q := repr_quote b in
  String "b" (String q (repr_bytes_body q b +:+ String q "")).

(** [repr(v)] *)
Fixpoint repr (v : value) : string :=
  match v with
  | VNone => "None"
  | VBool true => "True"
  | VBool false => "False"
  | VInt n => string_of_Z n
  | VStr s => repr_str s
  | VList l =>
      "[" +:+
      match l with
      | [] => ""
      | x :: r =>
          repr x +:+
          (fix more (r : list value) : string :=
             match r with
             | [] => ""
             | y :: r' => ", " +:+ repr y +:+ more r'
             end) r
      end +:+ "]"
  | VDict d =>
      "{" +:+
      match d with
      | [] => ""
      | (k, x) :: r =>
          repr_str k +:+ ": " +:+ repr x +:+
          (fix more (r : list (string * value)) : string :=
             match r with
             | [] => ""
             | (k', y) :: r' => ", " +:+ repr_str k' +:+ ": " +:+ repr y +:+ more r'
             end) r
      end +:+ "}"
  end.

(** [str(v)] *)
Definition str_of (v : value) : string :=
  match v with
  | VStr s => s
  | _ => repr v
  end.

(** *** [urllib.parse] *)

(** The characters [quote] never escapes. *)
Definition always_safe (c : ascii) : bool :=
  between 65 90 c || between 97 122 c || between 48 57 c
  || mem_char c "_.-~".

Definition quote_char (c : ascii) : string :=
  if always_safe c then String c ""
  else if ord c =? 32 then "+"
  else String "%" (String (hexchar 65 (ord c / 16))
                     (String (hexchar 65 (ord c mod 16)) "")).

(** [quote_plus(s)] *)
Fixpoint quote_plus (s : string) : string :=
  match s with
  | EmptyString => ""
  | String c r => quote_char c +:+ quote_plus r
  end.

(** [unquote(s)]: each [%XX] with two hexadecimal digits becomes that byte,
    any other [%] stays. *)
Fixpoint unquote (s : string) : string :=
  match s with
  | EmptyString => ""
  | String c r =>
      if Ascii.eqb c "%" then
        match r with
        | String a (String b r') =>
            match hexval a, hexval b with
            | Some x, Some y => String (chr (16 * x + y)) (unquote r')
            | _, _ => String c (unquote r)
            end
        | _ => String c (unquote r)
        end
      else String c (unquote r)
  end.

Fixpoint plus_to_space (s : string) : string :=
  match s with
  | EmptyString => ""
  | String c r => String (if Ascii.eqb c "+" then " "%char else c) (plus_to_space r)
  end.

(** [unquote_plus(s)] *)
Definition unquote_plus (s : string) : string := unquote (plus_to_space s).

Fixpoint join (sep : string) (l : list string) : string :=
  match l with
  | [] => ""
  | [x] => x
  | x :: r => x +:+ sep +:+ join sep r
  end.

Definition encode_pair (kv : string * value) : string :=
  quote_plus (fst kv) +:+ "=" +:+ quote_plus (str_of (snd kv)).

(** [urlencode(query)]: a dict gives its items, an empty list or empty text
    gives nothing, anything else is not a mapping or a sequence of tuples. *)
Definition urlencode (query : value) : option string :=
  match query with
  | VDict d => Some (join "&" (map encode_pair d))
  | VList [] => Some ""
  | VStr "" => Some ""
  | _ => None
  end.

(** [s.split(sep)] at one separator character *)
Fixpoint split (sep : ascii) (s : string) : list string :=
  match s with
  | EmptyString => [""]
  | String c r =>
      if Ascii.eqb c sep then "" :: split sep r
      else match split sep r with
           | [] => [String c ""]
           | x :: xs => String c x :: xs
           end
  end.

(** [s.partition('=')]: the text before the first [=], and the text after it
    when there is one. *)
Fixpoint partition_eq (s : string) : string * option string :=
  match s with
  | EmptyString => ("", None)
  | String c r =>
      if Ascii.eqb c "=" then ("", Some r)
      else let '(a, b) := partition_eq r in (String c a, b)
  end.

(** [parse_qsl(qs)] with its defaults: fields are split at [&], a field
    without [=] or with a blank value is dropped. *)
Definition parse_field (f : string) : list (string * string) :=
  match partition_eq f with
  | (k, Some v) => if String.eqb v "" then []
                   else [(unquote_plus k, unquote_plus v)]
  | (_, None) => []
  end.

Definition parse_qsl (qs : string) : list (string * string) :=
  flat_map parse_field (split "&" qs).

(** [dict(parse_qsl(qs))], the mapping a query string decodes to: keys and
    values are text. *)
Definition text_items (items : list (string * string)) : list (string * value) :=
  map (fun kv => (fst kv, VStr (snd kv))) items.

(** A mapping with every value replaced by its text, [str(v)]. *)
Definition as_text (d : list (string * value)) : list (string * value) :=
  map (fun kv => (fst kv, VStr (str_of (snd kv)))) d.

(** The items of a mapping whose value has a text that is not empty:
    [parse_qsl] keeps no field with a blank value. *)
Definition nonblank (d : list (string * value)) : list (string * value) :=
  List.filter (fun kv => negb (String.eqb (str_of (snd kv)) "")) d.

(** *** [Request]: which URLs the constructor accepts *)

Definition is_space (c : ascii) : bool :=
  between 9 13 c || between 28 32 c.

Fixpoint lstrip (s : string) : string :=
  match s with
  | EmptyString => ""
  | String c r => if is_space c then lstrip r else s
  end.

Fixpoint rstrip (s : string) : string :=
  match s with
  | EmptyString => ""
  | String c r =>
      if is_space c
      then match rstrip r with
           | EmptyString => ""
           | r' => String c r'
           end
      else String c (rstrip r)
  end.

Definition strip (s : string) : string := rstrip (lstrip s).

Fixpoint last_char (s : string) : option ascii :=
  match s with
  | EmptyString => None
  | String c EmptyString => Some c
  | String _ r => last_char r
  end.

Fixpoint drop_last (s : string) : string :=
  match s with
  | EmptyString => ""
  | String c EmptyString => ""
  | String c r => String c (drop_last r)
  end.

(** [urllib.parse.unwrap] *)
Definition unwrap (url : string) : string :=
  let url := strip url in
  let url := match url with
             | String "<" r =>
                 match last_char url with
                 | Some ">"%char => strip (drop_last r)
                 | _ => url
                 end
             | _ => url
             end in
  if String.prefix "URL:" url
  then strip (String.substring 4 (String.length url - 4) url)
  else url.

(** Whether the text starts with a scheme: one or more characters other than
    [/] and [:], then a [:]. *)
Fixpoint scheme_tail (s : string) : bool :=
  match s with
  | EmptyString => false
  | String c r =>
      if Ascii.eqb c ":" then true
      else if Ascii.eqb c "/" then false
      else scheme_tail r
  end.

Definition has_scheme (s : string) : bool :=
  match s with
  | EmptyString => false
  | String c r =>
      if Ascii.eqb c ":" || Ascii.eqb c "/" then false else scheme_tail r
  end.

Definition url_ok (u : string) : bool := has_scheme (unwrap u).

(** *** [json] *)

Definition u_escape (c : ascii) : string :=
  String backslash
    (String "u" (String "0" (String "0"
       (String (hexchar 97 (ord c / 16))
          (String (hexchar 97 (ord c mod 16)) ""))))).

(** One character of a JSON string, as [json.dumps] writes it. *)
Definition dumps_char (c : ascii) : string :=
  if Ascii.eqb c dquote then String backslash (String dquote "")
  else if Ascii.eqb c backslash then String backslash (String backslash "")
  else if ord c =? 10 then String backslash "n"
  else if ord c =? 13 then String backslash "r"
  else if ord c =? 9 then String backslash "t"
  else if ord c =? 8 then String backslash "b"
  else if ord c =? 12 then String backslash "f"
  else if (ord c <? 32) || (ord c =? 127) then u_escape c
  else String c "".

Fixpoint dumps_body (s : string) : string :=
  match s with
  | EmptyString => String dquote ""
  | String c r => dumps_char c +:+ dumps_body r
  end.

Definition dumps_str (s : string) : string := String dquote (dumps_body s).

(** [json.dumps(v)] with the default separators [", "] and [": "] *)
Fixpoint dumps (v : value) : string :=
  match v with
  | VNone => "null"
  | VBool true => "true"
  | VBool false => "false"
  | VInt n => string_of_Z n
  | VStr s => dumps_str s
  | VList l =>
      String "["
        match l with
        | [] => "]"
        | x :: r =>
            dumps x +:+
            (fix more (r : list value) : string :=
               match r with
               | [] => "]"
               | y :: r' => ", " +:+ dumps y +:+ more r'
               end) r
        end
  | VDict d =>
      String "{"
        match d with
        | [] => "}"
        | (k, x) :: r =>
            dumps_str k +:+ ": " +:+ dumps x +:+
            (fix more (r : list (string * value)) : string :=
               match r with
               | [] => "}"
               | (k', y) :: r' =>
                   ", " +:+ dumps_str k' +:+ ": " +:+ dumps y +:+ more r'
               end) r
        end
  end.

(** The elements of a list after the first, with the closing bracket. *)
Fixpoint dumps_more (r : list value) : string :=
  match r with
  | [] => "]"
  | y :: r' => ", " +:+ dumps y +:+ dumps_more r'
  end.

(** The members of a dict after the first, with the closing brace. *)
Fixpoint dumps_more_members (r : list (string * value)) : string :=
  match r with
  | [] => "}"
  | (k, y) :: r' =>
      ", " +:+ dumps_str k +:+ ": " +:+ dumps y +:+ dumps_more_members r'
  end.

(** Every dict inside the value has distinct keys, as a dict has. *)
Fixpoint distinct_keys (v : value) : Prop :=
  match v with
  | VList l =>
      (fix all (l : list value) : Prop :=
         match l with
         | [] => True
         | x :: r => distinct_keys x /\ all r
         end) l
  | VDict d =>
      NoDup (map fst d)
      /\ (fix all (d : list (string * value)) : Prop :=
            match d with
            | [] => True
            | kv :: r => distinct_keys (snd kv) /\ all r
            end) d
  | _ => True
  end.

(** JSON whitespace *)
Definition is_ws (c : ascii) : bool :=
  (ord c =? 32) || (ord c =? 9) || (ord c =? 10) || (ord c =? 13).

Fixpoint skip_ws (s : string) : string :=
  match s with
  | EmptyString => ""
  | String c r => if is_ws c then skip_ws r else s
  end.

(** The UTF-8 bytes of a code point of the basic plane; a surrogate is left
    out. *)
Definition utf8_of_cp (cp : Z) : option string :=
  if cp <? 128 then Some (String (chr cp) "")
  else if cp <? 2048
       then Some (String (chr (192 + cp / 64)) (String (chr (128 + cp mod 64)) ""))
  else if (55296 <=? cp) && (cp <=? 57343) then None
  else Some (String (chr (224 + cp / 4096))
               (String (chr (128 + (cp / 64) mod 64))
                  (String (chr (128 + cp mod 64)) ""))).

Definition simple_escape (e : ascii) : option ascii :=
  if Ascii.eqb e dquote then Some dquote
  else if Ascii.eqb e backslash then Some backslash
  else if Ascii.eqb e "/" then Some "/"%char
  else if Ascii.eqb e "b" then Some (chr 8)
  else if Ascii.eqb e "f" then Some (chr 12)
  else if Ascii.eqb e "n" then Some (chr 10)
  else if Ascii.eqb e "r" then Some (chr 13)
  else if Ascii.eqb e "t" then Some (chr 9)
  else None.

(** The text of a JSON string, read from just after its opening quote. *)
Fixpoint scan_string (s : string) : option (string * string) :=
  match s with
  | EmptyString => None
  | String c r =>
      if Ascii.eqb c dquote then Some ("", r)
      else if Ascii.eqb c backslash then
        match r with
        | EmptyString => None
        | String e r1 =>
            if Ascii.eqb e "u" then
              match r1 with
              | String h1 (String h2 (String h3 (String h4 r2))) =>
                  match hexval h1, hexval h2, hexval h3, hexval h4 with
                  | Some a, Some b, Some c', Some d =>
                      match utf8_of_cp (4096 * a + 256 * b + 16 * c' + d),
                            scan_string r2 with
                      | Some u, Some (t, rest) => Some (u +:+ t, rest)
                      | _, _ => None
                      end
                  | _, _, _, _ => None
                  end
              | _ => None
              end
            else
              match simple_escape e, scan_string r1 with
              | Some x, Some (t, rest) => Some (String x t, rest)
              | _, _ => None
              end
        end
      else if ord c <? 32 then None
      else match scan_string r with
           | Some (t, rest) => Some (String c t, rest)
           | None => None
           end
  end.

Fixpoint span_digits (s : string) : string * string :=
  match s with
  | EmptyString => ("", "")
  | String c r =>
      if is_digit c then let '(ds, rest) := span_digits r in (String c ds, rest)
      else ("", s)
  end.

(** The integer part of a JSON number: [0], or a digit from 1 to 9 and the
    digits after it. *)
Definition scan_nat (s : string) : option (Z * string) :=
  match s with
  | EmptyString => None
  | String c r =>
      if Ascii.eqb c "0" then Some (0, r)
      else if is_digit c then
        let '(ds, rest) := span_digits s in
        match NilEmpty.uint_of_string ds with
        | Some d => Some (Z.of_N (N.of_uint d), rest)
        | None => None
        end
      else None
  end.

Definition scan_int (s : string) : option (Z * string) :=
  match s with
  | String "-" r =>
      match scan_nat r with
      | Some (n, rest) => Some (- n, rest)
      | None => None
      end
  | _ => scan_nat s
  end.

(** What may follow a number: the end, or a character that is not a digit. *)
Definition ends_number (rest : string) : bool :=
  match rest with
  | EmptyString => true
  | String c _ => negb (is_digit c)
  end.

(** [d[k] = v] on a dict: a key already there keeps its place. *)
Fixpoint dict_set (k : string) (v : value) (d : list (string * value))
    : list (string * value) :=
  match d with
  | [] => [(k, v)]
  | (k', v') :: r =>
      if String.eqb k' k then (k, v) :: r else (k', v') :: dict_set k v r
  end.

Definition dict_of_pairs (l : list (string * value)) : list (string * value) :=
  fold_left (fun d kv => dict_set (fst kv) (snd kv) d) l [].

(** [s] without its prefix [p], when it has it. *)
Fixpoint strip_prefix (p s : string) : option string :=
  match p with
  | EmptyString => Some s
  | String a p' =>
      match s with
      | String b s' => if Ascii.eqb a b then strip_prefix p' s' else None
      | EmptyString => None
      end
  end.

(** [dict(parse_qsl(qs))] *)
Definition dict_of_query (qs : string) : value :=
  VDict (dict_of_pairs (text_items (parse_qsl qs))).

(** The scanner.  [fuel] bounds the number of values, elements and members
    still to read. *)
Fixpoint scan_value (fuel : nat) (s : string) : option (value * string) :=
  match fuel with
  | O => None
  | S f =>
      match s with
      | EmptyString => None
      | String c r =>
          if Ascii.eqb c "-" || is_digit c then
            match scan_int s with
            | Some (n, rest) => Some (VInt n, rest)
            | None => None
            end
          else if Ascii.eqb c dquote then
            match scan_string r with
            | Some (t, rest) => Some (VStr t, rest)
            | None => None
            end
          else if Ascii.eqb c "[" then
            match skip_ws r with
            | EmptyString => None
            | String c1 r1 =>
                if Ascii.eqb c1 "]" then Some (VList [], r1)
                else match scan_elems f (String c1 r1) with
                     | Some (l, rest) => Some (VList l, rest)
                     | None => None
                     end
            end
          else if Ascii.eqb c "{" then
            match skip_ws r with
            | EmptyString => None
            | String c1 r1 =>
                if Ascii.eqb c1 "}" then Some (VDict [], r1)
                else match scan_members f (String c1 r1) with
                     | Some (l, rest) => Some (VDict (dict_of_pairs l), rest)
                     | None => None
                     end
            end
          else
            match strip_prefix "null" s with
            | Some rest => Some (VNone, rest)
            | None =>
                match strip_prefix "true" s with
                | Some rest => Some (VBool true, rest)
                | None =>
                    match strip_prefix "false" s with
                    | Some rest => Some (VBool false, rest)
                    | None => None
                    end
                end
            end
      end
  end
with scan_elems (fuel : nat) (s : string) : option (list value * string) :=
  match fuel with
  | O => None
  | S f =>
      match scan_value f s with
      | Some (v, s1) =>
          match skip_ws s1 with
          | EmptyString => None
          | String c r =>
              if Ascii.eqb c "]" then Some ([v], r)
              else if Ascii.eqb c "," then
                match scan_elems f (skip_ws r) with
                | Some (l, rest) => Some (v :: l, rest)
                | None => None
                end
              else None
          end
      | None => None
      end
  end
with scan_members (fuel : nat) (s : string)
    : option (list (string * value) * string) :=
  match fuel with
  | O => None
  | S f =>
      match s with
      | EmptyString => None
      | String c r =>
          if Ascii.eqb c dquote then
            match scan_string r with
            | Some (k, s1) =>
                match skip_ws s1 with
                | EmptyString => None
                | String c2 s2 =>
                    if Ascii.eqb c2 ":" then
                      match scan_value f (skip_ws s2) with
                      | Some (v, s3) =>
                          match skip_ws s3 with
                          | EmptyString => None
                          | String c4 s4 =>
                              if Ascii.eqb c4 "}" then Some ([(k, v)], s4)
                              else if Ascii.eqb c4 "," then
                                match scan_members f (skip_ws s4) with
                                | Some (l, rest) => Some ((k, v) :: l, rest)
                                | None => None
                                end
                              else None
                          end
                      | None => None
                      end
                    else None
                end
            | None => None
            end
          else None
      end
  end.

(** [scans v]: the scanner reads [v] back from what [dumps] wrote, given
    fuel for its length and a following text that does not extend a number. *)
Definition scans (v : value) : Prop :=
  distinct_keys v ->
  forall fuel rest,
    (String.length (dumps v) <= fuel)%nat ->
    ends_number rest = true ->
    scan_value fuel (dumps v +:+ rest) = Some (v, rest).

(** [json.loads(s)] *)
Definition loads (s : string) : option value :=
  match scan_value (S (String.length s)) (skip_ws s) with
  | Some (v, rest) =>
      match skip_ws rest with
      | EmptyString => Some v
      | _ => None
      end
  | None => None
  end.

(** *** UTF-8 *)

Definition is_cont (c : ascii) : bool := between 128 191 c.

(** Well-formed UTF-8 (RFC 3629): no overlong form, no surrogate, nothing
    above U+10FFFF. *)
Fixpoint utf8_valid (s : bytes) : bool :=
  match s with
  | EmptyString => true
  | String a r =>
      if ord a <? 128 then utf8_valid r
      else if between 194 223 a then
        match r with
        | String b r' => is_cont b && utf8_valid r'
        | _ => false
        end
      else if between 224 239 a then
        match r with
        | String b (String c r') =>
            (if ord a =? 224 then between 160 191 b
             else if ord a =? 237 then between 128 159 b
             else is_cont b)
            && is_cont c && utf8_valid r'
        | _ => false
        end
      else if between 240 244 a then
        match r with
        | String b (String c (String d r')) =>
            (if ord a =? 240 then between 144 191 b
             else if ord a =? 244 then between 128 143 b
             else is_cont b)
            && is_cont c && is_cont d && utf8_valid r'
        | _ => false
        end
      else false
  end.

Definition utf8_encode (s : string) : bytes := s.

Definition utf8_decode (b : bytes) : option string :=
  if utf8_valid b then Some b else None.

(** *** [gzip] *)

(** CRC-32 of the gzip trailer, bit by bit on a 32-bit register. *)
Definition crc_step (crc : Z) : Z :=
  if Z.testbit crc 0
  then Z.lxor (Z.shiftr crc 1) 0xEDB88320
  else Z.shiftr crc 1.

Definition crc_byte (crc : Z) (c : ascii) : Z :=
  Nat.iter 8 crc_step (Z.lxor crc (ord c)).

Fixpoint crc_update (crc : Z) (s : bytes) : Z :=
  match s with
  | EmptyString => crc
  | String c r => crc_update (crc_byte crc c) r
  end.

Definition crc32 (s : bytes) : Z :=
  Z.lxor (crc_update 0xFFFFFFFF s) 0xFFFFFFFF.

Definition le16 (a b : ascii) : Z := ord a + 256 * ord b.

Definition le32 (a b c d : ascii) : Z :=
  ord a + 256 * ord b + 65536 * ord c + 16777216 * ord d.

(** A DEFLATE stream made of stored blocks: the data, and what follows the
    final block. *)
Fixpoint inflate_stored (fuel : nat) (s : bytes) : option (bytes * bytes) :=
  match fuel with
  | O => None
  | S f =>
      match s with
      | String h (String l0 (String l1 (String n0 (String n1 r)))) =>
          let len := le16 l0 l1 in
          if (Z.land (Z.shiftr (ord h) 1) 3 =? 0)
             && (Z.lxor len (le16 n0 n1) =? 65535)
             && (len <=? Z.of_nat (String.length r))
          then
            let k := Z.to_nat len in
            let data := String.substring 0 k r in
            let rest := String.substring k (String.length r - k) r in
            if Z.testbit (ord h) 0 then Some (data, rest)
            else match inflate_stored f rest with
                 | Some (more, rest') => Some (data +:+ more, rest')
                 | None => None
                 end
          else None
      | _ => None
      end
  end.

(** One gzip member without optional header fields: magic [1f 8b], method 8,
    flags 0, then the stream, its CRC-32 and its length modulo 2^32. *)
Definition gunzip (b : bytes) : option bytes :=
  match b with
  | String i1 (String i2 (String cm (String flg
      (String _ (String _ (String _ (String _ (String _ (String _ r))))))))) =>
      if (ord i1 =? 31) && (ord i2 =? 139) && (ord cm =? 8) && (ord flg =? 0)
      then
        match inflate_stored (S (String.length r)) r with
        | Some (data,
                String c0 (String c1 (String c2 (String c3
                  (String s0 (String s1 (String s2 (String s3 EmptyString)))))))) =>
            if (le32 c0 c1 c2 c3 =? crc32 data)
               && (le32 s0 s1 s2 s3 =? Z.of_nat (String.length data) mod 2 ^ 32)
            then Some data else None
        | _ => None
        end
      else None
  | _ => None
  end.

(** *** The reference instance *)

Definition lib : Lib.
Proof.
  refine (Build_Lib str_of repr_bytes unquote urlencode
                    (fun v => Some (dumps v)) loads gunzip
                    utf8_encode utf8_decode url_ok _ _).
  - intros s. reflexivity.
  - intros s. reflexivity.
Defined.

End Py.

(** ** Concrete runs

    A sample region table and version table (the real ones live in
    [amazon_advertising_api.regions] and [.versions]), scripted remote sides,
    and a few worlds. *)

Module Sample.

Definition regions : gmap string Region :=
  {[ "NA" := mkRegion "advertising-api.amazon.com"
                      "advertising-api-test.amazon.com"
                      "api.amazon.com/auth/o2/token" ]}.

Definition versions : Versions := mkVersions "v2" "1.0.0".

(** Error handlers that follow nothing: under either opener a reply outside
    2xx raises [HTTPError]. *)
Definition default_error (parent : Opener) (hist : list Request) (req : Request)
    (r : HTTPResponse) : Outcome Opened :=
  Raise (HTTPError (h_code r) (h_msg r) (h_body r)).

Fixpoint reply_for (url : string) (table : list (string * HTTPResponse))
    : HTTPResponse :=
  match table with
  | [] => mkResponse 404 "Not Found" [] ""
  | (u, r) :: rest => if String.eqb u url then r else reply_for url rest
  end.

(** A remote side that answers by URL, 404 for a URL it does not know. *)
Definition scripted (table : list (string * HTTPResponse)) : Net :=
  {| wire := fun _ req => Return (reply_for (req_url req) table);
     parent_error := default_error |}.

Definition client (access_token : value) (refresh_token profile_id : option string)
    : Client :=
  mkClient "amzn1.application-oa2-client.x" "secret" access_token refresh_token
           "v2" "AdvertisingAPI Python Client Library v1.0.0" profile_id
           "api.amazon.com/auth/o2/token" true
           "advertising-api-test.amazon.com".

Definition fresh (me : Client) : World := mkWorld me StockOpener [].

(** A token endpoint that grants a new access token. *)
Definition token_server : Net :=
  scripted [("https://api.amazon.com/auth/o2/token",
             mkResponse 200 "OK" []
               (Py.dumps (VDict [("access_token", VStr "Atza|new");
                                 ("expires_in", VInt 3600)])))].

(** A gzip member holding [{"rows": [1, 2]}] in one stored block: header,
    block header with the length 16 and its complement, the text, CRC-32 and
    length. *)
Definition report_text : string :=
  Py.dumps (VDict [("rows", VList [VInt 1; VInt 2])]).

Definition report_gz : bytes :=
  string_of_list_ascii
    (map Py.chr [0x1f; 0x8b; 0x08; 0x00; 0x00; 0x00; 0x00; 0x00; 0x04; 0x03;
                 0x01; 0x10; 0x00; 0xef; 0xff])
  +:+ report_text
  +:+ string_of_list_ascii
        (map Py.chr [0x1b; 0x98; 0xad; 0x19; 0x10; 0x00; 0x00; 0x00]).

Definition report_url : string :=
  "https://advertising-api-test.amazon.com/v1/reports/R1/download".

Definition storage_url : string := "https://storage.example/R1.json.gz".

(** The report is ready: the first hop redirects to storage, storage serves
    the compressed artifact. *)
Definition artifact_server : Net :=
  scripted [(report_url,
             mkResponse 307 "Temporary Redirect" [("Location", storage_url)] "");
            (storage_url, mkResponse 200 "OK" [] report_gz)].

(** A first hop that redirects without saying where. *)
Definition lost_redirect : Net :=
  scripted [(report_url, mkResponse 307 "Temporary Redirect" [] "")].

(** A first hop that redirects to the empty text. *)
Definition blank_redirect : Net :=
  scripted [(report_url,
             mkResponse 307 "Temporary Redirect" [("Location", "")] "")].

(** A first hop that does not redirect at all. *)
Definition no_redirect : Net :=
  scripted [(report_url, mkResponse 200 "OK" [] report_gz)].

Definition ready : World := fresh (client (VStr "T") None (Some "P1")).

(** A session that was never given an access token. *)
Definition no_token : World := fresh (client VNone None (Some "P1")).

(** A session whose refresh token is the empty text. *)
Definition blank_refresh : World := fresh (client VNone (Some "") (Some "P1")).

(** A session whose access token came percent-encoded from storage. *)
Definition encoded_token : World :=
  fresh (client (VStr "Atza%7Cold") (Some "Atzr%7Crefresh") (Some "P1")).

End Sample.

(** ** More concrete runs *)

Module Scene.

(** A host that cannot be reached. *)
Definition unreachable : Net :=
  {| wire := fun _ _ => Raise (URLError "Name or service not known");
     parent_error := Sample.default_error |}.

(** A token endpoint that answers 200 with an error document which mentions
    the access token and holds none. *)
Definition token_expired : Net :=
  Sample.scripted
    [("https://api.amazon.com/auth/o2/token",
      mkResponse 200 "OK" []
        (Py.dumps (VDict [("error_description", VStr "access_token expired")])))].

(** The storage host serves the report uncompressed. *)
Definition plain_artifact : Net :=
  Sample.scripted
    [(Sample.report_url,
      mkResponse 307 "Temporary Redirect" [("Location", Sample.storage_url)] "");
     (Sample.storage_url, mkResponse 200 "OK" [] Sample.report_text)].

(** The body of the token request of [Sample.encoded_token]. *)
Definition token_form : string :=
  "grant_type=refresh_token&refresh_token=Atzr%7Crefresh"
  +:+ "&client_id=amzn1.application-oa2-client.x&client_secret=secret".

(** Where the status of report [R1] and of snapshot [S1] is asked. *)
Definition report_status_url : string :=
  "https://advertising-api-test.amazon.com/v2/reports/R1".

Definition snapshot_status_url : string :=
  "https://advertising-api-test.amazon.com/v2/snapshots/S1".

(** A status document. *)
Definition status_doc (status : string) (more : list (string * value)) : string :=
  Py.dumps (VDict (("status", VStr status) :: more)).

(** The report is still being generated. *)
Definition report_pending : Net :=
  Sample.scripted
    [(report_status_url,
      mkResponse 200 "OK" [] (status_doc "IN_PROGRESS" []))].

(** The report is ready and its artifact is in storage. *)
Definition report_desk : Net :=
  Sample.scripted
    [(report_status_url,
      mkResponse 200 "OK" []
        (status_doc "SUCCESS" [("location", VStr Sample.report_url)]));
     (Sample.report_url,
      mkResponse 307 "Temporary Redirect" [("Location", Sample.storage_url)] "");
     (Sample.storage_url, mkResponse 200 "OK" [] Sample.report_gz)].

(** The status endpoint answers 200 with a page that is not JSON. *)
Definition report_garbled : Net :=
  Sample.scripted
    [(report_status_url, mkResponse 200 "OK" [] "<html>maintenance</html>")].

(** The snapshot is ready, and the status endpoint says so with a 202. *)
Definition snapshot_desk : Net :=
  Sample.scripted
    [(snapshot_status_url,
      mkResponse 202 "Accepted" []
        (status_doc "SUCCESS" [("location", VStr Sample.report_url)]));
     (Sample.report_url,
      mkResponse 307 "Temporary Redirect" [("Location", Sample.storage_url)] "");
     (Sample.storage_url, mkResponse 200 "OK" [] Sample.report_gz)].

(** A session with an access token and no profile id. *)
Definition unscoped : World := Sample.fresh (Sample.client (VStr "T") None None).

End Scene.

(** * Properties *)

(** ** Running the monad *)

Lemma run_bind {A B : Type} (m : M A) (k : A -> M B) (w : World) :
  (x ← m; k x) w =
  match m w with
  | (Return a, w') => k a w'
  | (Raise e, w') => (Raise e, w')
  end.
Proof. reflexivity. Qed.

Lemma run_ret {A : Type} (a : A) (w : World) : (mret a : M A) w = (Return a, w).
Proof. reflexivity. Qed.

Ltac run :=
  repeat (rewrite ?run_bind, ?run_ret;
          cbn [get_self set_access_token set_refresh_token install_opener
               raise lift self opener wire_log fst snd]).

Lemma string_eqb_false (a b : string) : a <> b -> String.eqb a b = false.
Proof. intros H. apply String.eqb_neq. exact H. Qed.

Lemma append_nil_r (s : string) : s +:+ "" = s.
Proof.
  induction s as [| c s IH]; [reflexivity |].
  change (String c (s +:+ "") = String c s). now rewrite IH.
Qed.

Lemma append_assoc (a b c : string) : (a +:+ b) +:+ c = a +:+ b +:+ c.
Proof.
  induction a as [| x a IH]; [reflexivity |].
  change (String x ((a +:+ b) +:+ c) = String x (a +:+ b +:+ c)). now rewrite IH.
Qed.

(** ** The dispatcher *)

Section Dispatcher.
Context {L : Lib} (N : Net).

Lemma Request_init_https (s : string) (hs : gmap string string)
    (data : option bytes) (w : World) :
  Request_init (VStr ("https://" +:+ s)) hs data w
  = (Return (mkRequest ("https://" +:+ s) hs data None), w).
Proof.
  unfold Request_init. rewrite str_of_VStr, url_ok_https. reflexivity.
Qed.

(** Every run of the network part of [_operation] logs exactly its request. *)
Lemma operation_tail (req : Request) (w : World) :
  exists out,
    try_HTTPError
      (f ← urlopen N req;
       c ← attr_code f;
       raw ← read f;
       text ← lift UnicodeDecodeError (utf8_decode raw);
       mret (mkResult true c (VStr text)))
      on_HTTPError w
    = (out, after_request w req).
Proof.
  unfold try_HTTPError, after_request. rewrite run_bind. unfold urlopen.
  destruct (wire N (wire_log w) req) as [r | e].
  - destruct (opener w).
    + destruct (HTTPErrorProcessor_http_response N StockOpener (wire_log w) req r)
        as [f | e].
      * destruct f as [r' | c l]; run; cbn [attr_code read].
        -- run. destruct (utf8_decode (h_body r')); run; eexists; reflexivity.
        -- run. eexists; reflexivity.
      * destruct e; eexists; reflexivity.
    + destruct (http_response N (wire_log w) req r) as [f | e].
      * destruct f as [r' | c l]; run; cbn [attr_code read].
        -- run. destruct (utf8_decode (h_body r')); run; eexists; reflexivity.
        -- run. eexists; reflexivity.
      * destruct e; eexists; reflexivity.
  - destruct e; eexists; reflexivity.
Qed.

Lemma operation_sends (interface : string) (params : value) (method : string)
    (version : option string) (w : World) (query : string) (body : option bytes) :
  is_None (_access_token (self w)) = false ->
  scoped (self w) || contains "profiles" interface = true ->
  shaped method params query body ->
  exists req out,
    _operation N interface params method version w = (out, after_request w req)
    /\ req_url req = "https://" +:+ endpoint (self w) +:+ version_segment version
                       +:+ "/" +:+ interface +:+ query
    /\ req_data req = body
    /\ req_method req = Some method
    /\ carries_operation_headers (self w) req.
Proof.
  intros Htok Hguard Hshape.
  unfold _operation. run. rewrite Htok.
  fold (version_segment version).
  set (hs0 := if sandbox (self w) then _ else _).
  assert (Hh0 :
    hs0 !! "Authorization" = Some ("Bearer " +:+ str_of (_access_token (self w)))
    /\ hs0 !! "Amazon-Advertising-API-ClientId" = Some (client_id (self w))
    /\ hs0 !! "Content-Type" = Some "application/json"
    /\ hs0 !! "User-Agent" = Some (user_agent (self w))
    /\ hs0 !! "BIDDING_CONTROLS_ON" = (if sandbox (self w) then Some "true" else None)
    /\ hs0 !! "Amazon-Advertising-API-Scope" = None).
  { subst hs0. destruct (sandbox (self w));
      repeat split; simplify_map_eq; reflexivity. }
  set (step := match profile_id (self w) with Some _ => _ | None => _ end).
  assert (Hstep : exists hs, step = inr hs /\
            hs !! "Authorization" = hs0 !! "Authorization"
            /\ hs !! "Amazon-Advertising-API-ClientId" = hs0 !! "Amazon-Advertising-API-ClientId"
            /\ hs !! "Content-Type" = hs0 !! "Content-Type"
            /\ hs !! "User-Agent" = hs0 !! "User-Agent"
            /\ hs !! "BIDDING_CONTROLS_ON" = hs0 !! "BIDDING_CONTROLS_ON"
            /\ hs !! "Amazon-Advertising-API-Scope"
                = (if scoped (self w) then profile_id (self w) else None)).
  { subst step. unfold scoped in *. destruct (profile_id (self w)) as [p |].
    - destruct (negb (String.eqb p "")).
      + eexists; split; [reflexivity |].
        repeat split; simplify_map_eq; reflexivity.
      + cbn [orb] in Hguard. rewrite Hguard. cbn [negb].
        eexists; split; [reflexivity |]. repeat split; tauto.
    - cbn [orb] in Hguard. rewrite Hguard. cbn [negb].
      eexists; split; [reflexivity |]. repeat split; tauto. }
  destruct Hstep as (hs & -> & Ha & Hc & Ht & Hu & Hb & Hs).
  destruct Hh0 as (Ha0 & Hc0 & Ht0 & Hu0 & Hb0 & _).
  rewrite Ha0 in Ha. rewrite Hc0 in Hc. rewrite Ht0 in Ht. rewrite Hu0 in Hu.
  rewrite Hb0 in Hb.
  clearbody hs0. clear Ha0 Hc0 Ht0 Hu0 Hb0 hs0.
  destruct Hshape as [| params q Hp Hq | method Hm | method params s Hm Hp Hs'].
  - cbn [String.eqb Ascii.eqb Bool.eqb is_None negb]. run.
    rewrite Request_init_https.
    cbn [req_url req_headers req_data].
    destruct (operation_tail
                (mkRequest ("https://" +:+ endpoint (self w) +:+ version_segment version
                              +:+ "/" +:+ interface +:+ "") hs None (Some "GET")) w)
      as [out Hout].
    eexists _, out. split; [exact Hout |].
    cbn [req_url req_headers req_data req_method].
    unfold carries_operation_headers. cbn [req_headers]. tauto.
  - cbn [String.eqb Ascii.eqb Bool.eqb]. rewrite Hp. cbn [negb]. run.
    rewrite Hq. run. rewrite Request_init_https.
    cbn [req_url req_headers req_data].
    destruct (operation_tail
                (mkRequest ("https://" +:+ endpoint (self w) +:+ version_segment version
                              +:+ "/" +:+ interface +:+ "?" +:+ q) hs None (Some "GET")) w)
      as [out Hout].
    eexists _, out. split; [exact Hout |].
    cbn [req_url req_headers req_data req_method].
    unfold carries_operation_headers. cbn [req_headers]. tauto.
  - rewrite (string_eqb_false _ _ Hm). cbn [is_None negb]. run.
    rewrite Request_init_https.
    cbn [req_url req_headers req_data].
    destruct (operation_tail
                (mkRequest ("https://" +:+ endpoint (self w) +:+ version_segment version
                              +:+ "/" +:+ interface) hs None (Some method)) w)
      as [out Hout].
    eexists _, out. split; [exact Hout |].
    cbn [req_url req_headers req_data req_method].
    unfold carries_operation_headers. cbn [req_headers].
    rewrite append_nil_r. tauto.
  - rewrite (string_eqb_false _ _ Hm). rewrite Hp. cbn [negb]. run.
    rewrite Hs'. run. rewrite Request_init_https.
    cbn [req_url req_headers req_data].
    destruct (operation_tail
                (mkRequest ("https://" +:+ endpoint (self w) +:+ version_segment version
                              +:+ "/" +:+ interface) hs (Some (utf8_encode s))
                           (Some method)) w)
      as [out Hout].
    eexists _, out. split; [exact Hout |].
    cbn [req_url req_headers req_data req_method].
    unfold carries_operation_headers. cbn [req_headers].
    rewrite append_nil_r. tauto.
Qed.

End Dispatcher.

(** ** Guards of the dispatcher *)

(** C2.  Whatever the interface path, the parameters, the verb and the
    version, [_operation] on a session whose access token is not set returns
    [{'success': False, 'code': 0, 'response': 'access_token is empty.'}];
    the world is the one it started in, so nothing went on the wire. *)
Theorem operation_access_token_unset {L : Lib} (N : Net)
    (interface : string) (params : value) (method : string)
    (version : option string) (w : World) :
  _access_token (self w) = VNone ->
  _operation N interface params method version w
  = (Return (mkResult false 0 (VStr "access_token is empty.")), w)
  /\ wire_log (snd (_operation N interface params method version w)) = wire_log w.
Proof.
  intros H.
  assert (E : _operation N interface params method version w
              = (Return (mkResult false 0 (VStr "access_token is empty.")), w)).
  { unfold _operation. run. rewrite H. reflexivity. }
  rewrite E. split; reflexivity.
Qed.

Lemma operation_access_token_unset_witness :
  _operation (L := Py.lib) (Sample.scripted []) "sp/campaigns"
             (VDict [("stateFilter", VStr "enabled")]) "GET" (Some "v2")
             (Sample.fresh (Sample.client VNone None (Some "P1")))
  = (Return (mkResult false 0 (VStr "access_token is empty.")),
     Sample.fresh (Sample.client VNone None (Some "P1")))
  /\ wire_log (snd (_operation (L := Py.lib) (Sample.scripted []) "sp/campaigns"
                      (VDict [("stateFilter", VStr "enabled")]) "GET" (Some "v2")
                      (Sample.fresh (Sample.client VNone None (Some "P1")))))
     = [].
Proof.
  apply (operation_access_token_unset (L := Py.lib)). reflexivity.
Defined.

Lemma is_None_false (v : value) : v <> VNone -> is_None v = false.
Proof. destruct v; intros H; try reflexivity. contradiction. Qed.

(** C3, at the input where the code departs from it.  The guard, whose
    comment says that a profile id is required for all calls beyond
    authentication and getting profile info, lets a call through when the
    text ["profiles"] occurs anywhere in the path.  On a session without
    profile id, [get_campaign(42)] and [list_campaigns()] are refused with
    ['profile_id is empty.'] and the world is left as it was, but
    [get_campaign('profiles')], whose path [sp/campaigns/profiles] is not
    under [profiles], is let through: one request goes out to that path,
    without scope header, and the result is the remote side's (here its
    404). *)
Theorem profile_guard_is_substring_test :
  scoped (self Scene.unscoped) = false
  /\ get_campaign (L := Py.lib) (Sample.scripted []) (VInt 42) false Scene.unscoped
     = (Return (mkResult false 0 (VStr "profile_id is empty.")), Scene.unscoped)
  /\ list_campaigns (L := Py.lib) (Sample.scripted []) VNone false Scene.unscoped
     = (Return (mkResult false 0 (VStr "profile_id is empty.")), Scene.unscoped)
  /\ contains "profiles" "sp/campaigns/profiles" = true
  /\ fst (get_campaign (L := Py.lib) (Sample.scripted []) (VStr "profiles") false
            Scene.unscoped)
     = Return (mkResult false 404 (VStr "Not Found: b''"))
  /\ map req_url
         (wire_log (snd (get_campaign (L := Py.lib) (Sample.scripted [])
                           (VStr "profiles") false Scene.unscoped)))
     = ["https://advertising-api-test.amazon.com/v2/sp/campaigns/profiles"]
  /\ map (fun req => req_headers req !! "Amazon-Advertising-API-Scope")
         (wire_log (snd (get_campaign (L := Py.lib) (Sample.scripted [])
                           (VStr "profiles") false Scene.unscoped)))
     = [None].
Proof.
  repeat split; vm_compute; reflexivity.
Qed.

(** C10.  [request_report] without a record type and without a report id,
    and [request_snapshot] without a record type and without a snapshot id,
    return their own diagnostic with code 0 and leave the world as it was:
    nothing goes on the wire. *)
Theorem request_without_subject {L : Lib} (N : Net) (data : value)
    (campaign_type : string) (w : World) :
  request_report N None None data campaign_type w
  = (Return (mkResult false 0
               (VStr "record_type and report_id are both empty.")), w)
  /\ request_snapshot N None None data campaign_type w
     = (Return (mkResult false 0
                  (VStr "record_type and snapshot_id are both empty.")), w).
Proof. split; reflexivity. Qed.

(** ** URL composition *)

(** C7.  For every path and version, the request that [_operation] puts on
    the wire goes to [https://{host}/{version}/{path}], followed by the query
    string when there is one; with the version suppressed ([None]) it goes to
    [https://{host}/{path}].  In particular a session built for region [NA]
    with [sandbox=True], access token [T] and profile [P1] lists campaigns
    with a GET to [https://{NA sandbox host}/v2/sp/campaigns] carrying
    [Authorization: Bearer T] and the scope header [P1]. *)
Theorem operation_url {L : Lib} (N : Net) :
  (forall interface params method version w query body,
     _access_token (self w) <> VNone ->
     scoped (self w) || contains "profiles" interface = true ->
     shaped method params query body ->
     exists req out,
       _operation N interface params method version w = (out, after_request w req)
       /\ req_url req =
          match version with
          | Some v => "https://" +:+ endpoint (self w) +:+ "/" +:+ v +:+ "/"
                        +:+ interface +:+ query
          | None => "https://" +:+ endpoint (self w) +:+ "/" +:+ interface
                      +:+ query
          end)
  /\ (forall regions versions na client_id client_secret refresh_token,
        regions !! "NA" = Some na ->
        exists me,
          __init__ regions versions client_id client_secret "NA" (Some "P1")
                   (VStr "T") refresh_token true = Return me
          /\ forall o log, exists req out,
               list_campaigns N VNone false (mkWorld me o log)
               = (out, after_request (mkWorld me o log) req)
               /\ req_url req = "https://" +:+ sandbox_host na +:+ "/v2/sp/campaigns"
               /\ get_method req = "GET"
               /\ req_headers req !! "Authorization" = Some "Bearer T"
               /\ req_headers req !! "Amazon-Advertising-API-Scope" = Some "P1").
Proof.
  split.
  - intros interface params method version w query body Htok Hguard Hshape.
    apply is_None_false in Htok.
    destruct (operation_sends N interface params method version w query body)
      as (req & out & E & Hu & _); auto.
    exists req, out. split; [exact E |].
    rewrite Hu. destruct version as [v |]; [| reflexivity].
    unfold version_segment. rewrite append_assoc. reflexivity.
  - intros regions versions na cid secret rt Hna.
    unfold __init__. rewrite Hna. eexists. split; [reflexivity |].
    intros o log. unfold list_campaigns.
    match goal with |- context [_operation N ?i VNone "GET" (Some "v2") ?w] =>
      destruct (operation_sends N i VNone "GET" (Some "v2") w "" None)
        as (req & out & E & Hu & _ & Hm & Hh)
    end.
    + reflexivity.
    + reflexivity.
    + constructor.
    + exists req, out. split; [exact E |].
      destruct Hh as (Ha & _ & _ & _ & _ & Hs).
      cbn [self _access_token endpoint] in *.
      rewrite str_of_VStr in Ha.
      repeat split.
      * rewrite Hu. rewrite append_nil_r. reflexivity.
      * unfold get_method. rewrite Hm. reflexivity.
      * exact Ha.
      * exact Hs.
Qed.

Lemma operation_url_witness :
  exists req out,
    _operation (L := Py.lib) (Sample.scripted []) "history" (VDict []) "POST" None
               (Sample.fresh (Sample.client (VStr "T") None (Some "P1")))
    = (out, after_request (Sample.fresh (Sample.client (VStr "T") None (Some "P1"))) req)
    /\ req_url req = "https://advertising-api-test.amazon.com/history".
Proof.
  destruct (operation_url (L := Py.lib) (Sample.scripted [])) as [H _].
  destruct (H "history" (VDict []) "POST" None
              (Sample.fresh (Sample.client (VStr "T") None (Some "P1")))
              "" (Some (@utf8_encode Py.lib "{}")))
    as (req & out & E & Hu).
  - cbn. discriminate.
  - reflexivity.
  - apply (shaped_body_json (L := Py.lib) "POST" (VDict []) "{}");
      [discriminate | reflexivity | reflexivity].
  - exists req, out. split; [exact E |]. rewrite Hu. reflexivity.
Defined.

(** ** Token refresh *)

Section Refresh.
Context {L : Lib} (N : Net).

Lemma urlopen_world (req : Request) (w : World) :
  snd (urlopen N req w) = after_request w req.
Proof.
  unfold urlopen, after_request.
  destruct (wire N (wire_log w) req); [destruct (opener w) |]; reflexivity.
Qed.

(** The network part of [do_refresh_token], from the request on: a
    successful result carries the token it stored, any other outcome leaves
    the stored token alone. *)
Lemma refresh_tail (req : Request) (w : World) (out : Outcome Result) (w' : World) :
  try_HTTPError
    (f ← urlopen N req;
     raw ← read f;
     response ← lift UnicodeDecodeError (utf8_decode raw);
     if contains "access_token" response then
       json_data ← py_json_loads (VStr response);
       tok ← getitem json_data "access_token";
       set_access_token tok;;
       c ← attr_code f;
       me ← get_self;
       mret (mkResult true c (_access_token me))
     else
       c ← attr_code f;
       mret (mkResult false c (VStr "access_token not in response.")))
    on_HTTPError w = (out, w') ->
  match out with
  | Return (mkResult true _ tok) => _access_token (self w') = tok
  | _ => _access_token (self w') = _access_token (self w)
  end.
Proof.
  unfold try_HTTPError. rewrite run_bind.
  pose proof (urlopen_world req w) as Hw.
  destruct (urlopen N req w) as [o w1]. cbn [snd] in Hw. subst w1.
  destruct o as [f | e].
  2:{ destruct e; intros E; inversion E; subst; reflexivity. }
  destruct f as [r | c l]; cbn [read]; run.
  2:{ intros E; inversion E; subst; reflexivity. }
  destruct (utf8_decode (h_body r)) as [text |]; run.
  2:{ intros E; inversion E; subst; reflexivity. }
  destruct (contains "access_token" text); run; cbn [attr_code py_json_loads]; run.
  2:{ intros E; inversion E; subst; reflexivity. }
  destruct (json_loads text) as [j |]; run.
  2:{ intros E; inversion E; subst; reflexivity. }
  unfold getitem.
  destruct j; run; try (intros E; inversion E; subst; reflexivity).
  destruct (dict_get "access_token" d) as [tok |]; run;
    intros E; inversion E; subst; reflexivity.
Qed.

Lemma refresh_effect (w : World) (out : Outcome Result) (w' : World) :
  do_refresh_token N w = (out, w') ->
  match refresh_token (self w) with
  | None => out = Return (mkResult false 0 (VStr "refresh_token is empty."))
            /\ w' = w
  | Some _ =>
      match out with
      | Return (mkResult true _ tok) => _access_token (self w') = tok
      | _ => _access_token (self w') = unquoted_token (_access_token (self w))
      end
  end.
Proof.
  unfold do_refresh_token. run.
  destruct (refresh_token (self w)) as [rt |] eqn:Hrt.
  2:{ intros E. inversion E. split; reflexivity. }
  run.
  (* the token after the unquoting step *)
  assert (Hpre :
    (exists w1,
       (if truthy (_access_token (self w))
        then t ← py_unquote (_access_token (self w)); set_access_token t
        else mret tt) w = (Return tt, w1)
       /\ _access_token (self w1) = unquoted_token (_access_token (self w)))
    \/ (exists e,
          (if truthy (_access_token (self w))
           then t ← py_unquote (_access_token (self w)); set_access_token t
           else mret tt) w = (Raise e, w)
          /\ unquoted_token (_access_token (self w)) = _access_token (self w))).
  { unfold unquoted_token.
    destruct (_access_token (self w)) as [| b | n | s | l | d] eqn:Htok;
      cbn [truthy py_unquote].
    - left. eexists. split; [reflexivity | exact Htok].
    - destruct b; [right | left]; eexists; split; try reflexivity. exact Htok.
    - destruct (negb (n =? 0)); [right | left]; eexists; split;
        try reflexivity. exact Htok.
    - destruct (negb (String.eqb s "")); left; eexists; split;
        try reflexivity. exact Htok.
    - destruct l as [| x l]; [left; eexists; split; [reflexivity | exact Htok] |].
      right. destruct (existsb (fun x => eq_str x "%") (x :: l));
        eexists; split; reflexivity.
    - destruct d as [| kv d]; [left; eexists; split; [reflexivity | exact Htok] |].
      right. destruct (dict_get "%" (kv :: d));
        eexists; split; reflexivity. }
  destruct Hpre as [(w1 & -> & Htok1) | (e & -> & Hsame)].
  2:{ intros E. inversion E; subst. rewrite Hsame. reflexivity. }
  run. cbn [with_refresh_token refresh_token client_id client_secret token_url].
  rewrite <- Htok1.
  match goal with
  | |- context [lift TypeError ?o] => destruct o as [data |]
  end; run.
  2:{ intros E. inversion E; subst. reflexivity. }
  rewrite Request_init_https.
  intros E. apply refresh_tail in E.
  destruct out as [[[] c tok] | e]; exact E.
Qed.

(** A successful run of the network part is a run on a response that holds
    the token. *)
Lemma refresh_tail_success (req : Request) (w : World) (c : Z) (tok : value)
    (w' : World) :
  try_HTTPError
    (f ← urlopen N req;
     raw ← read f;
     response ← lift UnicodeDecodeError (utf8_decode raw);
     if contains "access_token" response then
       json_data ← py_json_loads (VStr response);
       tok ← getitem json_data "access_token";
       set_access_token tok;;
       c ← attr_code f;
       me ← get_self;
       mret (mkResult true c (_access_token me))
     else
       c ← attr_code f;
       mret (mkResult false c (VStr "access_token not in response.")))
    on_HTTPError w = (Return (mkResult true c tok), w') ->
  exists r text d,
    fst (urlopen N req w) = Return (RespObj r)
    /\ h_code r = c
    /\ utf8_decode (h_body r) = Some text
    /\ json_loads text = Some (VDict d)
    /\ dict_get "access_token" d = Some tok
    /\ _access_token (self w') = tok.
Proof.
  unfold try_HTTPError. rewrite run_bind.
  pose proof (urlopen_world req w) as Hw.
  destruct (urlopen N req w) as [o w1]. cbn [snd] in Hw. subst w1.
  destruct o as [f | e].
  2:{ destruct e; intros E; inversion E. }
  destruct f as [r | c0 l]; cbn [read]; run.
  2:{ intros E; inversion E. }
  destruct (utf8_decode (h_body r)) as [text |] eqn:Hutf; run.
  2:{ intros E; inversion E. }
  destruct (contains "access_token" text); run; cbn [attr_code py_json_loads]; run.
  2:{ intros E; inversion E. }
  destruct (json_loads text) as [j |] eqn:Hj; run.
  2:{ intros E; inversion E. }
  unfold getitem.
  destruct j; run; try (intros E; inversion E; fail).
  destruct (dict_get "access_token" d) as [tok0 |] eqn:Hd; run;
    intros E; inversion E; subst.
  exists r, text, d. repeat split; try assumption; reflexivity.
Qed.

(** What [urlopen] hands back does not depend on the client object. *)
Lemma urlopen_any_client (req : Request) (me me' : Client) (o : Opener)
    (log : list Request) :
  fst (urlopen N req (mkWorld me o log)) = fst (urlopen N req (mkWorld me' o log)).
Proof.
  unfold urlopen. cbn [self opener wire_log].
  destruct (wire N log req); [destruct o |]; reflexivity.
Qed.

(** A successful refresh stored the [access_token] entry of the JSON
    document that [urlopen] handed back for the token request. *)
Lemma refresh_success_source (w : World) (c : Z) (tok : value) (w' : World) :
  do_refresh_token N w = (Return (mkResult true c tok), w') ->
  exists req r text d,
    req_url req = "https://" +:+ token_url (self w)
    /\ fst (urlopen N req w) = Return (RespObj r)
    /\ h_code r = c
    /\ utf8_decode (h_body r) = Some text
    /\ json_loads text = Some (VDict d)
    /\ dict_get "access_token" d = Some tok
    /\ _access_token (self w') = tok.
Proof.
  unfold do_refresh_token. run.
  destruct (refresh_token (self w)) as [rt |]; [| intros E; inversion E].
  run.
  assert (Hpre : exists o t,
            (if truthy (_access_token (self w))
             then t ← py_unquote (_access_token (self w)); set_access_token t
             else mret tt) w
            = (o, mkWorld (with_access_token t (self w)) (opener w) (wire_log w))).
  { destruct w as [me o log]. cbn [self opener wire_log].
    assert (Hsame : forall out : Outcome unit,
              exists o' t, (out, mkWorld me o log)
                           = (o', mkWorld (with_access_token t me) o log)).
    { intros out. exists out, (_access_token me). destruct me; reflexivity. }
    destruct (truthy (_access_token me)); [| apply Hsame].
    rewrite run_bind.
    destruct (_access_token me) as [| b | n | s | l | d]; cbn [py_unquote];
      try apply Hsame.
    - eexists _, _. reflexivity.
    - destruct (existsb (fun x => eq_str x "%") l); apply Hsame.
    - destruct (dict_get "%" d); apply Hsame. }
  destruct Hpre as (o & t & ->).
  destruct o as [[] | e]; [| intros E; inversion E].
  run. cbn [with_refresh_token with_access_token refresh_token client_id
            client_secret token_url].
  match goal with
  | |- context [lift TypeError ?o] => destruct o as [data |]
  end; run; [| intros E; inversion E].
  rewrite Request_init_https.
  intros E. apply refresh_tail_success in E.
  destruct E as (r & text & d & Hopen & Hc & Hutf & Hj & Hd & Htok).
  match type of Hopen with
  | context [urlopen N ?rq _] => exists rq, r, text, d
  end.
  split; [reflexivity |]. split; [| repeat split; assumption].
  destruct w as [me o log]. cbn [self opener wire_log] in *.
  erewrite urlopen_any_client. exact Hopen.
Qed.

End Refresh.

(** C4, as the code has it.  [do_refresh_token] on a session whose refresh
    token is not set ([None]) returns
    [{'success': False, 'code': 0, 'response': 'refresh_token is empty.'}]
    and leaves the world as it was: nothing goes on the wire. *)
Theorem refresh_token_unset {L : Lib} (N : Net) (w : World) :
  refresh_token (self w) = None ->
  do_refresh_token N w
  = (Return (mkResult false 0 (VStr "refresh_token is empty.")), w)
  /\ wire_log (snd (do_refresh_token N w)) = wire_log w.
Proof.
  intros H.
  assert (E : do_refresh_token N w
              = (Return (mkResult false 0 (VStr "refresh_token is empty.")), w)).
  { unfold do_refresh_token. run. rewrite H. reflexivity. }
  rewrite E. split; reflexivity.
Qed.

Lemma refresh_token_unset_witness :
  do_refresh_token (L := Py.lib) Sample.token_server
    (Sample.fresh (Sample.client (VStr "T") None (Some "P1")))
  = (Return (mkResult false 0 (VStr "refresh_token is empty.")),
     Sample.fresh (Sample.client (VStr "T") None (Some "P1")))
  /\ wire_log (snd (do_refresh_token (L := Py.lib) Sample.token_server
                      (Sample.fresh (Sample.client (VStr "T") None (Some "P1")))))
     = [].
Proof.
  apply (refresh_token_unset (L := Py.lib)). reflexivity.
Defined.

(** C4 as stated fails on an empty refresh token that is the empty text: the
    guard tests [is None] only, the token request goes out and, here, the
    refresh succeeds. *)
Lemma refresh_token_empty_text_is_sent :
  refresh_token (self Sample.blank_refresh) = Some ""
  /\ do_refresh_token (L := Py.lib) Sample.token_server Sample.blank_refresh
     <> (Return (mkResult false 0 (VStr "refresh_token is empty.")),
         Sample.blank_refresh)
  /\ fst (do_refresh_token (L := Py.lib) Sample.token_server Sample.blank_refresh)
     = Return (mkResult true 200 (VStr "Atza|new"))
  /\ map (fun r => (req_url r, get_method r, req_data r))
         (wire_log (snd (do_refresh_token (L := Py.lib) Sample.token_server
                           Sample.blank_refresh)))
     = [("https://api.amazon.com/auth/o2/token", "POST",
         Some ("grant_type=refresh_token&refresh_token="
               +:+ "&client_id=amzn1.application-oa2-client.x"
               +:+ "&client_secret=secret"))].
Proof.
  split; [reflexivity |]. split; [| split].
  - intros H. apply (f_equal fst) in H. vm_compute in H. discriminate H.
  - vm_compute. reflexivity.
  - vm_compute. reflexivity.
Qed.

(** C5, as the code has it.  After [do_refresh_token]: when the refresh
    succeeds, [urlopen] handed back a response for the token request whose
    body is a JSON object, and the stored access token, like the token in the
    result, is the [access_token] entry of that object; when the refresh
    token is not set the world is untouched; on every other outcome the
    stored access token is the previous one, unquoted in place when it was a
    non-empty text. *)
Theorem refresh_access_token_effect {L : Lib} (N : Net) (w : World)
    (out : Outcome Result) (w' : World) :
  do_refresh_token N w = (out, w') ->
  (succeeded out = true ->
   exists req r text d tok,
     req_url req = "https://" +:+ token_url (self w)
     /\ fst (urlopen N req w) = Return (RespObj r)
     /\ utf8_decode (h_body r) = Some text
     /\ json_loads text = Some (VDict d)
     /\ dict_get "access_token" d = Some tok
     /\ out = Return (mkResult true (h_code r) tok)
     /\ _access_token (self w') = tok)
  /\ (refresh_token (self w) = None -> w' = w)
  /\ (succeeded out = false -> refresh_token (self w) <> None ->
      _access_token (self w') = unquoted_token (_access_token (self w))).
Proof.
  intros E. split; [| split].
  - intros Hs. destruct out as [[[] c tok] | e]; try discriminate Hs.
    destruct (refresh_success_source N w c tok w' E)
      as (req & r & text & d & Hu & Hopen & Hc & Hutf & Hj & Hd & Htok).
    exists req, r, text, d, tok. subst c. repeat split; assumption.
  - apply refresh_effect in E. intros Hnone. rewrite Hnone in E.
    destruct E as [_ ->]. reflexivity.
  - apply refresh_effect in E. intros Hs Hsome.
    destruct (refresh_token (self w)) as [rt |]; [| contradiction].
    destruct out as [[[] c tok] | e]; try discriminate Hs; exact E.
Qed.

Lemma refresh_access_token_effect_witness :
  exists req r text d,
    req_url req = "https://api.amazon.com/auth/o2/token"
    /\ fst (urlopen Sample.token_server req Sample.encoded_token)
       = Return (RespObj r)
    /\ @utf8_decode Py.lib (h_body r) = Some text
    /\ @json_loads Py.lib text = Some (VDict d)
    /\ dict_get "access_token" d = Some (VStr "Atza|new")
    /\ fst (do_refresh_token (L := Py.lib) Sample.token_server
              Sample.encoded_token)
       = Return (mkResult true (h_code r) (VStr "Atza|new"))
    /\ _access_token
         (self (snd (do_refresh_token (L := Py.lib) Sample.token_server
                       Sample.encoded_token)))
       = VStr "Atza|new".
Proof.
  destruct (refresh_access_token_effect (L := Py.lib) Sample.token_server
              Sample.encoded_token
              (fst (do_refresh_token (L := Py.lib) Sample.token_server
                      Sample.encoded_token))
              (snd (do_refresh_token (L := Py.lib) Sample.token_server
                      Sample.encoded_token)))
    as (Hsucc & _ & _).
  { vm_compute. reflexivity. }
  destruct Hsucc as (req & r & text & d & tok & Hu & Hopen & Hutf & Hj & Hd & Ho & Ht).
  { vm_compute. reflexivity. }
  assert (Htok : tok = VStr "Atza|new").
  { vm_compute in Ho. inversion Ho. reflexivity. }
  subst tok. exists req, r, text, d. repeat split; assumption.
Defined.

(** C5 as stated fails on a failing refresh of a session whose access token
    holds a percent escape: the token endpoint is unknown to the remote side
    (404), the result is a failure, and the stored token has been unquoted. *)
Lemma refresh_failure_changes_token :
  fst (do_refresh_token (L := Py.lib) (Sample.scripted []) Sample.encoded_token)
  = Return (mkResult false 404 (VStr "Not Found: b''"))
  /\ _access_token (self Sample.encoded_token) = VStr "Atza%7Cold"
  /\ _access_token
       (self (snd (do_refresh_token (L := Py.lib) (Sample.scripted [])
                     Sample.encoded_token)))
     = VStr "Atza|old".
Proof.
  split; [| split]; vm_compute; reflexivity.
Qed.

(** ** The artifact downloader *)

Section Downloader.
Context {L : Lib} (N : Net).

Lemma header_get_mem (name : string) (hs : list (string * string)) (v : string) :
  header_get name hs = Some v -> header_mem name hs = true.
Proof. unfold header_mem. intros ->. reflexivity. Qed.

(** C8, as the code has it.  When the first hop answers 307 with a
    [Location], [_download] sends a second GET, bare of headers and body, to
    exactly that URL, gunzips the second body, decodes it as JSON and returns
    [{'success': True, 'code': <status of the second response>,
      'response': <decoded JSON>}]. *)
Theorem download_follows_location (location : value) (w : World) (p l : string)
    (r1 r2 : HTTPResponse) (d : bytes) (text : string) (j : value) :
  profile_id (self w) = Some p ->
  url_ok (str_of location) = true ->
  (forall req, req_url req = str_of location ->
               wire N (wire_log w) req = Return r1) ->
  h_code r1 = 307 ->
  header_get "Location" (h_headers r1) = Some l ->
  url_ok l = true ->
  (forall req1 req2, req_url req2 = l ->
                     wire N (wire_log w ++ [req1]) req2 = Return r2) ->
  200 <= h_code r2 < 300 ->
  gunzip (h_body r2) = Some d ->
  utf8_decode d = Some text ->
  json_loads text = Some j ->
  exists req1,
    _download N location w
    = (Return (mkResult true (h_code r2) j),
       mkWorld (self w) NoRedirectOpener
               (wire_log w ++ [req1; mkRequest l ∅ None None]))
    /\ req_url req1 = str_of location.
Proof.
  intros Hp Hok H1 Hc1 Hl Hokl H2 Hc2 Hgz Hutf Hj.
  unfold _download. run. rewrite Hp. run.
  unfold Request_init at 1. rewrite Hok. run.
  eexists. split; cycle 1; [shelve |].
  unfold try_HTTPError. rewrite run_bind.
  unfold urlopen at 1. cbn [self opener wire_log].
  rewrite H1 by reflexivity.
  unfold http_response at 1. rewrite Hc1. cbn [Z.eqb Pos.eqb].
  rewrite (header_get_mem _ _ _ Hl), Hl.
  cbn [has_location item_location]. run.
  unfold Request_init. rewrite str_of_VStr, Hokl. run.
  unfold urlopen. cbn [self opener wire_log].
  rewrite H2 by reflexivity.
  unfold http_response, HTTPErrorProcessor_http_response.
  assert (E307 : (h_code r2 =? 307) = false) by lia.
  assert (E2xx : (200 <=? h_code r2) && (h_code r2 <? 300) = true).
  { apply andb_true_intro. split; lia. }
  rewrite E307, E2xx. cbn [read attr_code]. run.
  rewrite Hgz. run. rewrite Hutf. run. cbn [py_json_loads]. rewrite Hj. run.
  rewrite <- app_assoc. reflexivity.
  Unshelve. reflexivity.
Qed.

(** A first hop that is answered 2xx is a response object, which holds no
    ['location'] key. *)
Lemma download_plain_reply (location : value) (w : World) (p : string)
    (r1 : HTTPResponse) :
  profile_id (self w) = Some p ->
  url_ok (str_of location) = true ->
  (forall req, req_url req = str_of location ->
               wire N (wire_log w) req = Return r1) ->
  200 <= h_code r1 < 300 ->
  fst (_download N location w)
  = Return (mkResult false (h_code r1) (VStr "Location not found.")).
Proof.
  intros Hp Hok H1 Hc1.
  unfold _download. run. rewrite Hp. run.
  unfold Request_init. rewrite Hok. run.
  unfold try_HTTPError. rewrite run_bind.
  unfold urlopen. cbn [self opener wire_log].
  rewrite H1 by reflexivity.
  unfold http_response, HTTPErrorProcessor_http_response.
  assert (E307 : (h_code r1 =? 307) = false) by lia.
  assert (E2xx : (200 <=? h_code r1) && (h_code r1 <? 300) = true).
  { apply andb_true_intro. split; lia. }
  rewrite E307, E2xx. cbn [has_location attr_code]. run. reflexivity.
Qed.

End Downloader.

Lemma download_follows_location_witness :
  exists req1,
    _download (L := Py.lib) Sample.artifact_server (VStr Sample.report_url)
              Sample.ready
    = (Return (mkResult true 200 (VDict [("rows", VList [VInt 1; VInt 2])])),
       mkWorld (self Sample.ready) NoRedirectOpener
               (wire_log Sample.ready
                  ++ [req1; mkRequest Sample.storage_url ∅ None None]))
    /\ req_url req1 = Sample.report_url.
Proof.
  apply (download_follows_location (L := Py.lib) Sample.artifact_server
           (VStr Sample.report_url) Sample.ready "P1" Sample.storage_url
           (mkResponse 307 "Temporary Redirect"
                       [("Location", Sample.storage_url)] "")
           (mkResponse 200 "OK" [] Sample.report_gz)
           Sample.report_text Sample.report_text).
  - reflexivity.
  - reflexivity.
  - intros req Hreq. cbn [wire Sample.artifact_server Sample.scripted].
    rewrite Hreq. reflexivity.
  - reflexivity.
  - reflexivity.
  - reflexivity.
  - intros req1 req2 Hreq. cbn [wire Sample.artifact_server Sample.scripted].
    rewrite Hreq. reflexivity.
  - cbn. lia.
  - vm_compute. reflexivity.
  - vm_compute. reflexivity.
  - vm_compute. reflexivity.
Defined.

(** C8 as stated fails on the status: the first hop answers 307, the storage
    answers 200, and the result carries 200. *)
Lemma download_code_is_second_status :
  h_code (Sample.reply_for Sample.report_url
            [(Sample.report_url,
              mkResponse 307 "Temporary Redirect"
                         [("Location", Sample.storage_url)] "");
             (Sample.storage_url, mkResponse 200 "OK" [] Sample.report_gz)])
  = 307
  /\ fst (_download (L := Py.lib) Sample.artifact_server
                    (VStr Sample.report_url) Sample.ready)
     = Return (mkResult true 200 (VDict [("rows", VList [VInt 1; VInt 2])]))
  /\ fst (_download (L := Py.lib) Sample.artifact_server
                    (VStr Sample.report_url) Sample.ready)
     <> Return (mkResult true 307 (VDict [("rows", VList [VInt 1; VInt 2])])).
Proof.
  split; [reflexivity |]. split.
  - vm_compute. reflexivity.
  - intros H. vm_compute in H. discriminate H.
Qed.

(** C9, at the inputs where the code departs from it.  A 307 without a
    [Location] header reaches the ['Location is empty.'] branch, where
    [response.code] is read off the plain mapping and raises
    [AttributeError]; a 307 whose [Location] is the empty text is not [None]
    and raises [ValueError] in the second [Request]; only a first hop that was
    answered 2xx returns ['Location not found.'] with its status. *)
Theorem download_without_location :
  header_mem "Location" (h_headers (mkResponse 307 "Temporary Redirect" [] ""))
  = false
  /\ fst (_download (L := Py.lib) Sample.lost_redirect (VStr Sample.report_url)
                    Sample.ready)
     = Raise AttributeError
  /\ fst (_download (L := Py.lib) Sample.blank_redirect (VStr Sample.report_url)
                    Sample.ready)
     = Raise (ValueError "unknown url type")
  /\ fst (_download (L := Py.lib) Sample.no_redirect (VStr Sample.report_url)
                    Sample.ready)
     = Return (mkResult false 200 (VStr "Location not found.")).
Proof.
  split; [reflexivity |]. repeat split; vm_compute; reflexivity.
Qed.

(** ** Report and snapshot retrieval *)

Section Orchestration.
Context {L : Lib} (N : Net).

(** [get_report]: a status result whose code is not 200 comes back as it is;
    one with code 200 is decoded, and its [status] decides. *)
Lemma get_report_runs (report_id : string) (w w1 : World) (res : Result) :
  _operation N ("reports/" +:+ report_id) VNone "GET" (Some "v2") w
  = (Return res, w1) ->
  (code res <> 200 -> get_report N report_id w = (Return res, w1))
  /\ (forall body d st,
        code res = 200 -> response res = VStr body ->
        json_loads body = Some (VDict d) -> dict_get "status" d = Some st ->
        (eq_str st "SUCCESS" = false -> get_report N report_id w = (Return res, w1))
        /\ (forall loc, eq_str st "SUCCESS" = true ->
                        dict_get "location" d = Some loc ->
                        get_report N report_id w = _download N loc w1)).
Proof.
  intros E. unfold get_report. rewrite run_bind, E. split.
  - intros Hc. apply Z.eqb_neq in Hc. rewrite Hc. run. reflexivity.
  - intros body d st Hc Hb Hj Hst. rewrite Hc, Hb. cbn [Z.eqb Pos.eqb].
    cbn [py_json_loads]. rewrite Hj. run. cbn [getitem]. rewrite Hst. run. split.
    + intros ->. reflexivity.
    + intros loc -> Hloc. run. cbn [getitem]. rewrite Hloc. run. reflexivity.
Qed.

(** [get_snapshot] decodes the status result whatever its code. *)
Lemma get_snapshot_runs (snapshot_id : string) (w w1 : World) (res : Result) :
  _operation N ("snapshots/" +:+ snapshot_id) VNone "GET" (Some "v2") w
  = (Return res, w1) ->
  (forall body, response res = VStr body -> json_loads body = None ->
                get_snapshot N snapshot_id w = (Raise JSONDecodeError, w1))
  /\ (forall body d st,
        response res = VStr body ->
        json_loads body = Some (VDict d) -> dict_get "status" d = Some st ->
        (eq_str st "SUCCESS" = false ->
         get_snapshot N snapshot_id w = (Return res, w1))
        /\ (forall loc, eq_str st "SUCCESS" = true ->
                        dict_get "location" d = Some loc ->
                        get_snapshot N snapshot_id w = _download N loc w1)).
Proof.
  intros E. unfold get_snapshot. rewrite run_bind, E. split.
  - intros body Hb Hj. rewrite Hb. cbn [py_json_loads]. rewrite Hj. reflexivity.
  - intros body d st Hb Hj Hst. rewrite Hb.
    cbn [py_json_loads]. rewrite Hj. run. cbn [getitem]. rewrite Hst. run. split.
    + intros ->. reflexivity.
    + intros loc -> Hloc. run. cbn [getitem]. rewrite Hloc. run. reflexivity.
Qed.

End Orchestration.

(** C1, at the input where the code departs from it.  On a session without an
    access token the status result is the dispatcher's own diagnostic, code 0.
    [get_report] tests the code first and returns that result unchanged;
    [get_snapshot] has no such test, hands the diagnostic text to
    [json.loads] and raises.  The same happens on any failed status fetch,
    here a 404. *)
Theorem snapshot_flow_decodes_failures :
  get_report (L := Py.lib) (Sample.scripted []) "R1" Sample.no_token
  = (Return (mkResult false 0 (VStr "access_token is empty.")), Sample.no_token)
  /\ get_snapshot (L := Py.lib) (Sample.scripted []) "S1" Sample.no_token
     = (Raise JSONDecodeError, Sample.no_token)
  /\ fst (get_report (L := Py.lib) (Sample.scripted []) "R1" Sample.ready)
     = Return (mkResult false 404 (VStr "Not Found: b''"))
  /\ fst (get_snapshot (L := Py.lib) (Sample.scripted []) "S1" Sample.ready)
     = Raise JSONDecodeError.
Proof.
  repeat split; vm_compute; reflexivity.
Qed.

(** ** The JSON model: [loads] undoes [dumps] *)

Lemma length_append (a b : string) :
  String.length (a +:+ b) = (String.length a + String.length b)%nat.
Proof.
  induction a as [| c a IH]; [reflexivity |].
  change (S (String.length (a +:+ b)) = S (String.length a + String.length b)).
  now rewrite IH.
Qed.

Ltac each_char c := destruct c as [[] [] [] [] [] [] [] []].

(** Reading back one written character. *)
Lemma scan_string_char (c : ascii) (x : string) :
  Py.scan_string (Py.dumps_char c +:+ x)
  = match Py.scan_string x with
    | Some (t, rest) => Some (String c t, rest)
    | None => None
    end.
Proof. each_char c; reflexivity. Qed.

Lemma scan_string_dumps_body (s rest : string) :
  Py.scan_string (Py.dumps_body s +:+ rest) = Some (s, rest).
Proof.
  induction s as [| c s IH]; [reflexivity |].
  change (Py.dumps_body (String c s)) with (Py.dumps_char c +:+ Py.dumps_body s).
  rewrite append_assoc, scan_string_char, IH. reflexivity.
Qed.

(** Decimal digits of a positive number: no leading zero. *)
Lemma to_uint_head (p : positive) :
  Pos.to_uint p <> Decimal.Nil /\ forall d, Pos.to_uint p <> Decimal.D0 d.
Proof.
  pose proof (DecimalPos.Unsigned.to_of (Pos.to_uint p)) as H.
  rewrite DecimalPos.Unsigned.of_to in H. cbn [N.to_uint] in H.
  pose proof (DecimalPos.Unsigned.to_uint_nonzero p) as Hz.
  unfold Decimal.unorm in H.
  destruct (Decimal.nzhead (Pos.to_uint p)) eqn:E;
    try (rewrite H; split; [discriminate | intros d; discriminate]).
  - rewrite H in Hz. contradiction.
  - exfalso. exact (DecimalFacts.nzhead_nonzero _ _ E).
Qed.

Lemma span_digits_uint (d : Decimal.uint) (rest : string) :
  Py.ends_number rest = true ->
  Py.span_digits (NilEmpty.string_of_uint d +:+ rest)
  = (NilEmpty.string_of_uint d, rest).
Proof.
  intros Hrest.
  induction d as [| d IH | d IH | d IH | d IH | d IH | d IH | d IH | d IH | d IH | d IH];
    try (cbn [NilEmpty.string_of_uint];
         match goal with
         | |- Py.span_digits (String ?c ?x +:+ rest) = _ =>
             change (Py.span_digits (String c x +:+ rest))
               with (let '(ds, r) := Py.span_digits (x +:+ rest) in (String c ds, r))
         end; rewrite IH; reflexivity).
  destruct rest as [| c rest]; [reflexivity |].
  cbn [Py.ends_number] in Hrest.
  change (Py.span_digits (NilEmpty.string_of_uint Decimal.Nil +:+ String c rest))
    with (if Py.is_digit c
          then let '(ds, r) := Py.span_digits rest in (String c ds, r)
          else ("", String c rest)).
  destruct (Py.is_digit c); [discriminate | reflexivity].
Qed.

Lemma scan_nat_uint (d : Decimal.uint) (rest : string) :
  d <> Decimal.Nil -> (forall d', d <> Decimal.D0 d') ->
  Py.ends_number rest = true ->
  Py.scan_nat (NilEmpty.string_of_uint d +:+ rest)
  = Some (Z.of_N (N.of_uint d), rest).
Proof.
  intros Hnil Hz Hrest.
  destruct d as [| d | d | d | d | d | d | d | d | d | d];
    [exfalso; apply Hnil; reflexivity | exfalso; apply (Hz d); reflexivity | ..];
    match goal with
    | |- Py.scan_nat (NilEmpty.string_of_uint ?u +:+ rest) = _ =>
        change ((let '(ds, r) :=
                   Py.span_digits (NilEmpty.string_of_uint u +:+ rest) in
                 match NilEmpty.uint_of_string ds with
                 | Some d0 => Some (Z.of_N (N.of_uint d0), r)
                 | None => None
                 end) = Some (Z.of_N (N.of_uint u), rest))
    end;
    rewrite (span_digits_uint _ _ Hrest), NilEmpty.usu; reflexivity.
Qed.

Lemma scan_nat_pos (p : positive) (rest : string) :
  Py.ends_number rest = true ->
  Py.scan_nat (Py.string_of_pos p +:+ rest) = Some (Zpos p, rest).
Proof.
  intros Hrest. destruct (to_uint_head p) as [Hnil Hz].
  unfold Py.string_of_pos. rewrite (scan_nat_uint _ _ Hnil Hz Hrest).
  change (N.of_uint (Pos.to_uint p)) with (Pos.of_uint (Pos.to_uint p)).
  rewrite DecimalPos.Unsigned.of_to. reflexivity.
Qed.

(** The first character of a written positive number. *)
Lemma string_of_pos_head (p : positive) :
  exists c s, Py.string_of_pos p = String c s
              /\ Py.is_digit c = true /\ Ascii.eqb c "-" = false.
Proof.
  destruct (to_uint_head p) as [Hnil _]. unfold Py.string_of_pos.
  destruct (Pos.to_uint p); [exfalso; apply Hnil; reflexivity | ..];
    eexists _, _; (split; [reflexivity | split; reflexivity]).
Qed.

Lemma scan_value_int (n : Z) (fuel : nat) (rest : string) :
  Py.ends_number rest = true ->
  Py.scan_value (S fuel) (Py.string_of_Z n +:+ rest) = Some (VInt n, rest).
Proof.
  intros Hrest. destruct n as [| p | p].
  - reflexivity.
  - cbn [Py.string_of_Z].
    pose proof (scan_nat_pos p rest Hrest) as Hs.
    destruct (string_of_pos_head p) as (c & s & E & Hd & Hm).
    rewrite E in *. change (String c s +:+ rest) with (String c (s +:+ rest)) in *.
    cbn [Py.scan_value]. rewrite Hd, Hm. cbn [orb].
    unfold Py.scan_int.
    replace (match String c (s +:+ rest) with
             | String "-" r =>
                 match Py.scan_nat r with
                 | Some (n, rest0) => Some (- n, rest0)
                 | None => None
                 end
             | _ => Py.scan_nat (String c (s +:+ rest))
             end) with (Py.scan_nat (String c (s +:+ rest))).
    + rewrite Hs. reflexivity.
    + revert Hm. clear. each_char c; intros Hm; try reflexivity; discriminate Hm.
  - cbn [Py.string_of_Z].
    change (String "-" (Py.string_of_pos p) +:+ rest)
      with (String "-" (Py.string_of_pos p +:+ rest)).
    cbn [Py.scan_value Ascii.eqb Bool.eqb orb].
    change (Py.scan_int (String "-" (Py.string_of_pos p +:+ rest)))
      with (match Py.scan_nat (Py.string_of_pos p +:+ rest) with
            | Some (n, rest0) => Some (- n, rest0)
            | None => None
            end).
    rewrite (scan_nat_pos p rest Hrest). reflexivity.
Qed.

(** Induction on values, through lists and dicts. *)
Lemma value_ind (P : value -> Prop) :
  P VNone -> (forall b, P (VBool b)) -> (forall n, P (VInt n)) ->
  (forall s, P (VStr s)) ->
  (forall l, Forall P l -> P (VList l)) ->
  (forall d, Forall (fun kv => P (snd kv)) d -> P (VDict d)) ->
  forall v, P v.
Proof.
  intros HN HB HI HS HL HD.
  fix IH 1. intros [| b | n | s | l | d].
  - exact HN.
  - apply HB.
  - apply HI.
  - apply HS.
  - apply HL.
    revert l. fix IHl 1. intros [| x l]; constructor; [apply IH | apply IHl].
  - apply HD.
    revert d. fix IHd 1. intros [| [k x] d]; constructor; [apply IH | apply IHd].
Qed.

Lemma digit_head (c : ascii) :
  Py.is_digit c = true ->
  Py.is_ws c = false /\ Ascii.eqb c "]" = false /\ Ascii.eqb c "}" = false.
Proof. each_char c; intros H; try discriminate H; repeat split. Qed.

(** A written value starts with a character that is neither whitespace nor a
    closing bracket. *)
Lemma dumps_head (v : value) :
  exists c s, Py.dumps v = String c s
              /\ Py.is_ws c = false
              /\ Ascii.eqb c "]" = false /\ Ascii.eqb c "}" = false.
Proof.
  destruct v as [| [] | [| p | p] | s | l | d];
    try (eexists _, _; repeat split; reflexivity).
  cbn [Py.dumps Py.string_of_Z].
  destruct (string_of_pos_head p) as (c & s & -> & Hd & _).
  exists c, s. split; [reflexivity |]. apply digit_head, Hd.
Qed.

Lemma skip_ws_dumps (v : value) (x : string) :
  Py.skip_ws (Py.dumps v +:+ x) = Py.dumps v +:+ x.
Proof.
  destruct (dumps_head v) as (c & s & -> & Hw & _).
  change (String c s +:+ x) with (String c (s +:+ x)).
  cbn [Py.skip_ws]. rewrite Hw. reflexivity.
Qed.

Lemma dumps_length (v : value) : (1 <= String.length (Py.dumps v))%nat.
Proof.
  destruct (dumps_head v) as (c & s & -> & _). cbn [String.length]. lia.
Qed.

Lemma dumps_list (x : value) (r : list value) :
  Py.dumps (VList (x :: r)) = String "[" (Py.dumps x +:+ Py.dumps_more r).
Proof. reflexivity. Qed.

Lemma dumps_dict (k : string) (x : value) (r : list (string * value)) :
  Py.dumps (VDict ((k, x) :: r))
  = String "{" (Py.dumps_str k +:+ ": " +:+ Py.dumps x +:+ Py.dumps_more_members r).
Proof. reflexivity. Qed.

(** A dict with distinct keys is what its items build. *)
Lemma dict_set_fresh (k : string) (v : value) (d : list (string * value)) :
  k ∉ map fst d -> Py.dict_set k v d = (d ++ [(k, v)])%list.
Proof.
  induction d as [| [k' v'] d IH]; intros Hk; [reflexivity |].
  cbn [map fst] in Hk. apply not_elem_of_cons in Hk as [Hne Hk].
  cbn [Py.dict_set]. rewrite (string_eqb_false k' k) by congruence.
  rewrite IH by exact Hk. reflexivity.
Qed.

Lemma dict_of_pairs_distinct (l : list (string * value)) :
  NoDup (map fst l) -> Py.dict_of_pairs l = l.
Proof.
  unfold Py.dict_of_pairs.
  enough (H : forall acc, NoDup (map fst (acc ++ l)%list) ->
              fold_left (fun d kv => Py.dict_set (fst kv) (snd kv) d) l acc
              = (acc ++ l)%list).
  { intros Hl. apply (H []). exact Hl. }
  induction l as [| [k v] l IH]; intros acc Hnd.
  - cbn [fold_left]. now rewrite app_nil_r.
  - cbn [fold_left fst snd].
    rewrite dict_set_fresh.
    + rewrite IH; rewrite <- app_assoc; [reflexivity | exact Hnd].
    + rewrite map_app in Hnd. apply NoDup_app in Hnd as (_ & Hd & _).
      intros Hin. apply (Hd k Hin). cbn [map fst]. apply elem_of_cons. now left.
Qed.

Lemma scan_elems_dumps (r : list value) :
  Forall Py.scans r ->
  forall x, Py.scans x -> Py.distinct_keys (VList (x :: r)) ->
  forall fuel rest,
    (String.length (Py.dumps x) + String.length (Py.dumps_more r) <= fuel)%nat ->
    Py.scan_elems fuel (Py.dumps x +:+ Py.dumps_more r +:+ rest)
    = Some (x :: r, rest).
Proof.
  induction 1 as [| y r Hy Hr IH]; intros x Hx Hwf fuel rest Hfuel.
  - destruct Hwf as [Hwx _].
    cbn [Py.dumps_more String.length] in Hfuel.
    destruct fuel as [| f]; [lia |].
    cbn [Py.scan_elems Py.dumps_more].
    rewrite (Hx Hwx f ("]" +:+ rest)); [reflexivity | lia | reflexivity].
  - destruct Hwf as [Hwx Hwr].
    cbn [Py.dumps_more] in Hfuel. rewrite !length_append in Hfuel.
    cbn [String.length] in Hfuel.
    destruct fuel as [| f]; [lia |].
    cbn [Py.scan_elems Py.dumps_more].
    rewrite !append_assoc.
    rewrite (Hx Hwx f); [| lia | reflexivity].
    change (Py.skip_ws (", " +:+ Py.dumps y +:+ Py.dumps_more r +:+ rest))
      with (String "," (String " " (Py.dumps y +:+ Py.dumps_more r +:+ rest))).
    cbn [Ascii.eqb Bool.eqb].
    change (Py.skip_ws (String " " (Py.dumps y +:+ Py.dumps_more r +:+ rest)))
      with (Py.skip_ws (Py.dumps y +:+ Py.dumps_more r +:+ rest)).
    rewrite skip_ws_dumps.
    rewrite (IH y Hy Hwr f rest); [reflexivity |].
    pose proof (dumps_length x). lia.
Qed.

Lemma distinct_keys_dict (d : list (string * value)) :
  Py.distinct_keys (VDict d) ->
  NoDup (map fst d) /\ Forall (fun kv => Py.distinct_keys (snd kv)) d.
Proof.
  intros [Hnd Hall]. split; [exact Hnd |]. clear Hnd.
  induction d as [| kv d IH]; constructor.
  - apply Hall.
  - apply IH, Hall.
Qed.

Lemma scan_members_dumps (r : list (string * value)) :
  Forall (fun kv => Py.scans (snd kv)) r ->
  Forall (fun kv => Py.distinct_keys (snd kv)) r ->
  forall k x, Py.scans x -> Py.distinct_keys x ->
  forall fuel rest,
    (String.length (Py.dumps x) + String.length (Py.dumps_more_members r)
     <= fuel)%nat ->
    Py.scan_members fuel
      (Py.dumps_str k +:+ ": " +:+ Py.dumps x +:+ Py.dumps_more_members r +:+ rest)
    = Some ((k, x) :: r, rest).
Proof.
  induction 1 as [| [k' y] r Hy Hr IH]; intros Hwf k x Hx Hwx fuel rest Hfuel.
  - cbn [Py.dumps_more_members String.length] in Hfuel.
    destruct fuel as [| f]; [lia |].
    change (Py.dumps_str k +:+ ": " +:+ Py.dumps x +:+ Py.dumps_more_members [] +:+ rest)
      with (String Py.dquote
              (Py.dumps_body k +:+ ": " +:+ Py.dumps x +:+ "}" +:+ rest)).
    cbn [Py.scan_members]. rewrite scan_string_dumps_body.
    change (Ascii.eqb Py.dquote Py.dquote) with true. cbv iota.
    change (Py.skip_ws (": " +:+ Py.dumps x +:+ "}" +:+ rest))
      with (String ":" (String " " (Py.dumps x +:+ "}" +:+ rest))).
    cbv beta iota. cbn [Ascii.eqb Bool.eqb].
    change (Py.skip_ws (String " " (Py.dumps x +:+ "}" +:+ rest)))
      with (Py.skip_ws (Py.dumps x +:+ "}" +:+ rest)).
    rewrite skip_ws_dumps.
    rewrite (Hx Hwx f ("}" +:+ rest)); [reflexivity | lia | reflexivity].
  - cbn [Py.dumps_more_members] in Hfuel. rewrite !length_append in Hfuel.
    cbn [String.length] in Hfuel.
    destruct fuel as [| f]; [lia |].
    apply Forall_cons in Hwf as [Hwy Hwr]. cbn [snd] in Hy, Hwy.
    change (Py.dumps_str k +:+ ": " +:+ Py.dumps x
              +:+ Py.dumps_more_members ((k', y) :: r) +:+ rest)
      with (String Py.dquote
              (Py.dumps_body k +:+ ": " +:+ Py.dumps x
                 +:+ (", " +:+ Py.dumps_str k' +:+ ": " +:+ Py.dumps y
                        +:+ Py.dumps_more_members r) +:+ rest)).
    cbn [Py.scan_members]. rewrite scan_string_dumps_body.
    change (Ascii.eqb Py.dquote Py.dquote) with true. cbv iota.
    rewrite !append_assoc.
    change (Py.skip_ws (": " +:+ Py.dumps x +:+ ", " +:+ Py.dumps_str k' +:+ ": "
                          +:+ Py.dumps y +:+ Py.dumps_more_members r +:+ rest))
      with (String ":" (String " " (Py.dumps x +:+ ", " +:+ Py.dumps_str k' +:+ ": "
                          +:+ Py.dumps y +:+ Py.dumps_more_members r +:+ rest))).
    cbv beta iota. cbn [Ascii.eqb Bool.eqb].
    change (Py.skip_ws (String " " (Py.dumps x +:+ ", " +:+ Py.dumps_str k' +:+ ": "
                          +:+ Py.dumps y +:+ Py.dumps_more_members r +:+ rest)))
      with (Py.skip_ws (Py.dumps x +:+ ", " +:+ Py.dumps_str k' +:+ ": "
                          +:+ Py.dumps y +:+ Py.dumps_more_members r +:+ rest)).
    rewrite skip_ws_dumps.
    rewrite (Hx Hwx f); [| lia | reflexivity].
    change (Py.skip_ws (", " +:+ Py.dumps_str k' +:+ ": " +:+ Py.dumps y
                          +:+ Py.dumps_more_members r +:+ rest))
      with (String "," (String " " (Py.dumps_str k' +:+ ": " +:+ Py.dumps y
                          +:+ Py.dumps_more_members r +:+ rest))).
    cbv beta iota. cbn [Ascii.eqb Bool.eqb].
    change (Py.skip_ws (String " " (Py.dumps_str k' +:+ ": " +:+ Py.dumps y
                          +:+ Py.dumps_more_members r +:+ rest)))
      with (Py.dumps_str k' +:+ ": " +:+ Py.dumps y
              +:+ Py.dumps_more_members r +:+ rest).
    cbn [Ascii.eqb Bool.eqb].
    rewrite (IH Hwr k' y Hy Hwy f rest); [reflexivity |].
    pose proof (dumps_length x). lia.
Qed.

(** The scanner reads back every written value. *)
Lemma scan_dumps (v : value) : Py.scans v.
Proof.
  induction v as [| b | n | s | l IH | d IH] using value_ind;
    intros Hwf fuel rest Hfuel Hrest.
  - destruct fuel as [| f]; [cbn in Hfuel; lia | reflexivity].
  - destruct fuel as [| f]; [destruct b; cbn in Hfuel; lia | destruct b; reflexivity].
  - destruct fuel as [| f]; [pose proof (dumps_length (VInt n)); lia |].
    apply scan_value_int, Hrest.
  - destruct fuel as [| f]; [pose proof (dumps_length (VStr s)); lia |].
    change (Py.dumps (VStr s) +:+ rest)
      with (String Py.dquote (Py.dumps_body s +:+ rest)).
    cbn [Py.scan_value]. change (Ascii.eqb Py.dquote "-") with false.
    change (Py.is_digit Py.dquote) with false. cbn [orb].
    change (Ascii.eqb Py.dquote Py.dquote) with true. cbv iota.
    rewrite scan_string_dumps_body. reflexivity.
  - destruct l as [| x r].
    + destruct fuel as [| f]; [cbn in Hfuel; lia | reflexivity].
    + rewrite dumps_list in *. cbn [String.length] in Hfuel.
      rewrite length_append in Hfuel.
      destruct fuel as [| f]; [lia |].
      apply Forall_cons in IH as [Hx Hr].
      change (String "[" (Py.dumps x +:+ Py.dumps_more r) +:+ rest)
        with (String "[" ((Py.dumps x +:+ Py.dumps_more r) +:+ rest)).
      rewrite append_assoc.
      cbn [Py.scan_value]. change (Ascii.eqb "[" "-") with false.
      change (Py.is_digit "[") with false. cbn [orb].
      change (Ascii.eqb "[" Py.dquote) with false.
      change (Ascii.eqb "[" "[") with true. cbv iota.
      rewrite skip_ws_dumps.
      pose proof (scan_elems_dumps r Hr x Hx Hwf f rest ltac:(lia)) as Hs.
      destruct (dumps_head x) as (c & s & E & _ & Hb & _).
      rewrite E in *.
      change (String c s +:+ Py.dumps_more r +:+ rest)
        with (String c (s +:+ Py.dumps_more r +:+ rest)) in *.
      cbv beta iota. rewrite Hb, Hs. reflexivity.
  - destruct d as [| [k x] r].
    + destruct fuel as [| f]; [cbn in Hfuel; lia | reflexivity].
    + rewrite dumps_dict in *. cbn [String.length] in Hfuel.
      rewrite !length_append in Hfuel.
      destruct fuel as [| f]; [lia |].
      apply Forall_cons in IH as [Hx Hr]. cbn [snd] in Hx.
      apply distinct_keys_dict in Hwf as [Hnd Hall].
      apply Forall_cons in Hall as [Hwx Hwr]. cbn [snd] in Hwx.
      change (String "{" (Py.dumps_str k +:+ ": " +:+ Py.dumps x
                            +:+ Py.dumps_more_members r) +:+ rest)
        with (String "{" (String Py.dquote
                ((Py.dumps_body k +:+ ": " +:+ Py.dumps x
                    +:+ Py.dumps_more_members r) +:+ rest))).
      cbn [Py.scan_value]. change (Ascii.eqb "{" "-") with false.
      change (Py.is_digit "{") with false. cbn [orb].
      change (Ascii.eqb "{" Py.dquote) with false.
      change (Ascii.eqb "{" "[") with false.
      change (Ascii.eqb "{" "{") with true. cbv iota.
      change (Py.skip_ws (String Py.dquote
                ((Py.dumps_body k +:+ ": " +:+ Py.dumps x
                    +:+ Py.dumps_more_members r) +:+ rest)))
        with (String Py.dquote
                ((Py.dumps_body k +:+ ": " +:+ Py.dumps x
                    +:+ Py.dumps_more_members r) +:+ rest)).
      change (Ascii.eqb Py.dquote "}") with false. cbv iota.
      pose proof (scan_members_dumps r Hr Hwr k x Hx Hwx f rest) as Hs.
      change (Py.dumps_str k +:+ ": " +:+ Py.dumps x
                +:+ Py.dumps_more_members r +:+ rest)
        with (String Py.dquote
                (Py.dumps_body k +:+ ": " +:+ Py.dumps x
                   +:+ Py.dumps_more_members r +:+ rest)) in Hs.
      rewrite !append_assoc. rewrite Hs.
      * rewrite (dict_of_pairs_distinct _ Hnd). reflexivity.
      * pose proof (dumps_length (VStr k)). cbn [Py.dumps] in H.
        unfold Py.dumps_str in Hfuel. cbn [String.length] in Hfuel. lia.
Qed.

(** [json.loads(json.dumps(v)) == v] *)
Lemma loads_dumps (v : value) :
  Py.distinct_keys v -> Py.loads (Py.dumps v) = Some v.
Proof.
  intros Hwf. unfold Py.loads.
  rewrite <- (append_nil_r (Py.dumps v)) at 2.
  rewrite skip_ws_dumps.
  rewrite (scan_dumps v Hwf (S (String.length (Py.dumps v))) "");
    [reflexivity | lia | reflexivity].
Qed.

(** ** The query-string model: [parse_qsl] after [urlencode] *)

Lemma mem_amp_quote_char (c : ascii) (x : string) :
  Py.mem_char "&" (Py.quote_char c +:+ x) = Py.mem_char "&" x.
Proof. each_char c; reflexivity. Qed.

Lemma mem_eq_quote_char (c : ascii) (x : string) :
  Py.mem_char "=" (Py.quote_char c +:+ x) = Py.mem_char "=" x.
Proof. each_char c; reflexivity. Qed.

Lemma mem_amp_quote_plus (s x : string) :
  Py.mem_char "&" (Py.quote_plus s +:+ x) = Py.mem_char "&" x.
Proof.
  induction s as [| c s IH]; [reflexivity |].
  cbn [Py.quote_plus]. rewrite append_assoc, mem_amp_quote_char. exact IH.
Qed.

Lemma mem_eq_quote_plus (s x : string) :
  Py.mem_char "=" (Py.quote_plus s +:+ x) = Py.mem_char "=" x.
Proof.
  induction s as [| c s IH]; [reflexivity |].
  cbn [Py.quote_plus]. rewrite append_assoc, mem_eq_quote_char. exact IH.
Qed.

Lemma unquote_quote_char (c : ascii) (x : string) :
  Py.unquote (Py.plus_to_space (Py.quote_char c +:+ x))
  = String c (Py.unquote (Py.plus_to_space x)).
Proof. each_char c; reflexivity. Qed.

(** [unquote_plus(quote_plus(s)) == s] *)
Lemma unquote_plus_quote_plus (s : string) :
  Py.unquote_plus (Py.quote_plus s) = s.
Proof.
  unfold Py.unquote_plus.
  induction s as [| c s IH]; [reflexivity |].
  cbn [Py.quote_plus]. rewrite unquote_quote_char, IH. reflexivity.
Qed.

Lemma quote_plus_blank (s : string) :
  s <> "" -> String.eqb (Py.quote_plus s) "" = false.
Proof.
  destruct s as [| c s]; [congruence |]. intros _.
  cbn [Py.quote_plus]. generalize (Py.quote_plus s). intros x.
  each_char c; reflexivity.
Qed.

Lemma split_without (sep : ascii) (x : string) :
  Py.mem_char sep x = false ->
  Py.split sep x = [x]
  /\ forall y, Py.split sep (x +:+ String sep y) = x :: Py.split sep y.
Proof.
  induction x as [| c x IH]; intros Hx.
  - split; [reflexivity |]. intros y.
    change ("" +:+ String sep y) with (String sep y).
    cbn [Py.split]. rewrite Ascii.eqb_refl. reflexivity.
  - cbn [Py.mem_char] in Hx.
    destruct (Ascii.eqb sep c) eqn:E; [discriminate |].
    destruct (IH Hx) as [H1 H2].
    rewrite Ascii.eqb_sym in E.
    split.
    + cbn [Py.split]. rewrite E, H1. reflexivity.
    + intros y. change (String c x +:+ String sep y)
        with (String c (x +:+ String sep y)).
      cbn [Py.split]. rewrite E, H2. reflexivity.
Qed.

Lemma partition_eq_without (x y : string) :
  Py.mem_char "=" x = false ->
  Py.partition_eq (x +:+ String "=" y) = (x, Some y).
Proof.
  induction x as [| c x IH]; intros Hx; [reflexivity |].
  cbn [Py.mem_char] in Hx.
  destruct (Ascii.eqb "=" c) eqn:E; [discriminate |].
  rewrite Ascii.eqb_sym in E.
  change (String c x +:+ String "=" y) with (String c (x +:+ String "=" y)).
  cbn [Py.partition_eq]. rewrite E, (IH Hx). reflexivity.
Qed.

Lemma parse_field_encode_pair (k : string) (v : value) :
  Py.parse_field (Py.encode_pair (k, v))
  = if String.eqb (Py.str_of v) "" then [] else [(k, Py.str_of v)].
Proof.
  unfold Py.parse_field, Py.encode_pair. cbn [fst snd].
  change (Py.quote_plus k +:+ "=" +:+ Py.quote_plus (Py.str_of v))
    with (Py.quote_plus k +:+ String "=" (Py.quote_plus (Py.str_of v))).
  rewrite partition_eq_without.
  - destruct (String.eqb (Py.str_of v) "") eqn:Hv.
    + apply String.eqb_eq in Hv. rewrite Hv. reflexivity.
    + apply String.eqb_neq in Hv.
      rewrite (quote_plus_blank _ Hv), !unquote_plus_quote_plus. reflexivity.
  - rewrite <- (append_nil_r (Py.quote_plus k)). apply mem_eq_quote_plus.
Qed.

Lemma encode_pair_without_amp (kv : string * value) :
  Py.mem_char "&" (Py.encode_pair kv) = false.
Proof.
  unfold Py.encode_pair. rewrite mem_amp_quote_plus.
  change (Py.mem_char "&" ("=" +:+ Py.quote_plus (Py.str_of kv.2)))
    with (Py.mem_char "&" (Py.quote_plus (Py.str_of kv.2))).
  rewrite <- (append_nil_r (Py.quote_plus _)). apply mem_amp_quote_plus.
Qed.

(** [parse_qsl(urlencode(d))] gives the items of [d] as text, without those
    whose text is empty. *)
Lemma parse_qsl_urlencode (d : list (string * value)) :
  Py.parse_qsl (Py.join "&" (map Py.encode_pair d))
  = map (fun kv => (fst kv, Py.str_of (snd kv))) (Py.nonblank d).
Proof.
  unfold Py.parse_qsl.
  induction d as [| [k v] d IH]; [reflexivity |].
  destruct (split_without "&" _ (encode_pair_without_amp (k, v))) as [H1 H2].
  assert (Hhead : forall rest : list (string * string),
            (Py.parse_field (Py.encode_pair (k, v)) ++ rest)%list
            = (map (fun kv => (fst kv, Py.str_of (snd kv)))
                   (Py.nonblank [(k, v)]) ++ rest)%list).
  { intros rest. rewrite parse_field_encode_pair.
    unfold Py.nonblank. cbn [List.filter snd].
    destruct (String.eqb (Py.str_of v) ""); reflexivity. }
  assert (Hcons : Py.nonblank ((k, v) :: d)
                  = (Py.nonblank [(k, v)] ++ Py.nonblank d)%list).
  { unfold Py.nonblank. cbn [List.filter snd].
    destruct (negb (String.eqb (Py.str_of v) "")); reflexivity. }
  rewrite Hcons, map_app.
  destruct d as [| kv' d'].
  - cbn [map Py.join]. rewrite H1. cbn [flat_map]. apply Hhead.
  - change (Py.join "&" (map Py.encode_pair ((k, v) :: kv' :: d')))
      with (Py.encode_pair (k, v)
              +:+ String "&" (Py.join "&" (map Py.encode_pair (kv' :: d')))).
    rewrite H2. cbn [flat_map]. rewrite IH. apply Hhead.
Qed.

Lemma nonblank_keys (d : list (string * value)) :
  NoDup (map fst d) -> NoDup (map fst (Py.nonblank d)).
Proof.
  unfold Py.nonblank.
  induction d as [| [k v] d IH]; intros Hnd; [exact Hnd |].
  cbn [map fst] in Hnd. apply NoDup_cons in Hnd as [Hk Hd].
  cbn [List.filter snd].
  destruct (negb (String.eqb (Py.str_of v) "")); [| apply IH, Hd].
  cbn [map fst]. apply NoDup_cons. split; [| apply IH, Hd].
  intros Hin. apply Hk.
  apply list_elem_of_In in Hin. apply list_elem_of_In.
  apply in_map_iff in Hin as ([k' v'] & Hk' & Hin). cbn [fst] in Hk'. subst k'.
  apply filter_In in Hin as [Hin _].
  apply in_map_iff. exists (k, v'). split; [reflexivity | exact Hin].
Qed.

Lemma query_round_trip (d : list (string * value)) :
  NoDup (map fst d) ->
  exists q, Py.urlencode (VDict d) = Some q
            /\ Py.dict_of_query q = VDict (Py.as_text (Py.nonblank d)).
Proof.
  intros Hnd. eexists. split; [reflexivity |].
  unfold Py.dict_of_query. rewrite (parse_qsl_urlencode d).
  unfold Py.text_items, Py.as_text. rewrite map_map. cbn [fst snd].
  rewrite dict_of_pairs_distinct; [reflexivity |].
  rewrite map_map. cbn [fst]. apply nonblank_keys, Hnd.
Qed.

(** ** Parameters by verb *)




(** * Further properties of the client *)

(** ** The dispatcher on the wire *)

Section DispatcherRuns.
Context {L : Lib} (N : Net).

(** Past its guards, [_operation] is its network part run on one request. *)
Lemma operation_network (interface : string) (params : value) (method : string)
    (version : option string) (w : World) (query : string) (body : option bytes) :
  is_None (_access_token (self w)) = false ->
  scoped (self w) || contains "profiles" interface = true ->
  shaped method params query body ->
  exists req,
    req_url req = "https://" +:+ endpoint (self w) +:+ version_segment version
                    +:+ "/" +:+ interface +:+ query
    /\ req_data req = body
    /\ req_method req = Some method
    /\ carries_operation_headers (self w) req
    /\ _operation N interface params method version w
       = try_HTTPError
           (f ← urlopen N req;
            c ← attr_code f;
            raw ← read f;
            text ← lift UnicodeDecodeError (utf8_decode raw);
            mret (mkResult true c (VStr text)))
           on_HTTPError w.
Proof.
  intros Htok Hguard Hshape.
  unfold _operation. run. rewrite Htok.
  fold (version_segment version).
  set (hs0 := if sandbox (self w) then _ else _).
  assert (Hh0 :
    hs0 !! "Authorization" = Some ("Bearer " +:+ str_of (_access_token (self w)))
    /\ hs0 !! "Amazon-Advertising-API-ClientId" = Some (client_id (self w))
    /\ hs0 !! "Content-Type" = Some "application/json"
    /\ hs0 !! "User-Agent" = Some (user_agent (self w))
    /\ hs0 !! "BIDDING_CONTROLS_ON" = (if sandbox (self w) then Some "true" else None)
    /\ hs0 !! "Amazon-Advertising-API-Scope" = None).
  { subst hs0. destruct (sandbox (self w));
      repeat split; simplify_map_eq; reflexivity. }
  set (step := match profile_id (self w) with Some _ => _ | None => _ end).
  assert (Hstep : exists hs, step = inr hs /\
            carries_operation_headers (self w) (mkRequest "" hs None None)).
  { subst step. unfold carries_operation_headers, scoped in *. cbn [req_headers].
    destruct Hh0 as (Ha0 & Hc0 & Ht0 & Hu0 & Hb0 & Hs0).
    destruct (profile_id (self w)) as [p |].
    - destruct (negb (String.eqb p "")).
      + eexists; split; [reflexivity |].
        repeat split;
          first [ rewrite lookup_insert_eq; reflexivity
                | rewrite lookup_insert_ne by done; assumption ].
      + cbn [orb] in Hguard. rewrite Hguard. cbn [negb].
        eexists; split; [reflexivity |]. repeat split; assumption.
    - cbn [orb] in Hguard. rewrite Hguard. cbn [negb].
      eexists; split; [reflexivity |]. repeat split; assumption. }
  destruct Hstep as (hs & -> & Hcarry).
  clearbody hs0. clear Hh0 hs0.
  unfold carries_operation_headers in *. cbn [req_headers] in *.
  destruct Hshape as [| params q Hp Hq | method Hm | method params s Hm Hp Hs'].
  - cbn [String.eqb Ascii.eqb Bool.eqb is_None negb]. run.
    rewrite Request_init_https. cbn [req_url req_headers req_data].
    eexists (mkRequest _ hs None (Some "GET")). cbn [req_url req_data req_method req_headers].
    repeat split; try reflexivity; apply Hcarry.
  - cbn [String.eqb Ascii.eqb Bool.eqb]. rewrite Hp. cbn [negb]. run.
    rewrite Hq. run. rewrite Request_init_https. cbn [req_url req_headers req_data].
    eexists (mkRequest _ hs None (Some "GET")). cbn [req_url req_data req_method req_headers].
    repeat split; try reflexivity; apply Hcarry.
  - rewrite (string_eqb_false _ _ Hm). cbn [is_None negb]. run.
    rewrite Request_init_https. cbn [req_url req_headers req_data].
    eexists (mkRequest _ hs None (Some method)).
    cbn [req_url req_data req_method req_headers].
    rewrite append_nil_r. repeat split; try reflexivity; apply Hcarry.
  - rewrite (string_eqb_false _ _ Hm). rewrite Hp. cbn [negb]. run.
    rewrite Hs'. run. rewrite Request_init_https. cbn [req_url req_headers req_data].
    eexists (mkRequest _ hs (Some (utf8_encode s)) (Some method)).
    cbn [req_url req_data req_method req_headers].
    rewrite append_nil_r. repeat split; try reflexivity; apply Hcarry.
Qed.


(** Whatever its arguments, [_operation] ends in the world it started in, or
    in that world after one request carrying its verb. *)
Lemma operation_world (interface : string) (params : value) (method : string)
    (version : option string) (w : World) :
  snd (_operation N interface params method version w) = w
  \/ exists req,
       snd (_operation N interface params method version w) = after_request w req
       /\ req_method req = Some method.
Proof.
  unfold _operation. run.
  destruct (is_None (_access_token (self w))); [left; reflexivity |].
  match goal with
  | |- context [match ?step with inl _ => _ | inr _ => _ end] =>
      destruct step as [early | hs]
  end; [left; reflexivity |].
  destruct (String.eqb method "GET").
  - destruct (negb (is_None params)); run.
    + destruct (urlencode params) as [q |]; run; [| left; reflexivity].
      rewrite Request_init_https. cbn [req_url req_headers req_data].
      match goal with
      | |- context [try_HTTPError _ _ w] =>
          match goal with
          | |- context [urlopen N ?r] => destruct (operation_tail N r w) as [out E]
          end
      end.
      right. eexists. rewrite E. split; reflexivity.
    + rewrite Request_init_https. cbn [req_url req_headers req_data].
      match goal with
      | |- context [urlopen N ?r] => destruct (operation_tail N r w) as [out E]
      end.
      right. eexists. rewrite E. split; reflexivity.
  - destruct (negb (is_None params)); run.
    + destruct (json_dumps params) as [s |]; run; [| left; reflexivity].
      rewrite Request_init_https. cbn [req_url req_headers req_data].
      match goal with
      | |- context [urlopen N ?r] => destruct (operation_tail N r w) as [out E]
      end.
      right. eexists. rewrite E. split; reflexivity.
    + rewrite Request_init_https. cbn [req_url req_headers req_data].
      match goal with
      | |- context [urlopen N ?r] => destruct (operation_tail N r w) as [out E]
      end.
      right. eexists. rewrite E. split; reflexivity.
Qed.

End DispatcherRuns.

(** ** What [urlopen] hands back *)

Section Urlopen.
Context {L : Lib} (N : Net).

Lemma urlopen_2xx (req : Request) (w : World) (r : HTTPResponse) :
  wire N (wire_log w) req = Return r ->
  200 <= h_code r < 300 ->
  urlopen N req w = (Return (RespObj r), after_request w req).
Proof.
  intros Hw Hc.
  unfold urlopen, http_response, HTTPErrorProcessor_http_response, after_request.
  rewrite Hw.
  assert (E307 : (h_code r =? 307) = false) by lia.
  assert (E2xx : (200 <=? h_code r) && (h_code r <? 300) = true).
  { apply andb_true_intro. split; lia. }
  rewrite E307, E2xx. destruct (opener w); reflexivity.
Qed.

Lemma urlopen_error (req : Request) (w : World) (r : HTTPResponse) :
  wire N (wire_log w) req = Return r ->
  ~ (200 <= h_code r < 300) ->
  opener w = StockOpener \/ h_code r <> 307 ->
  urlopen N req w
  = (parent_error N (opener w) (wire_log w) req r, after_request w req).
Proof.
  intros Hw Hc Ho.
  unfold urlopen, http_response, HTTPErrorProcessor_http_response, after_request.
  rewrite Hw.
  assert (E2xx : (200 <=? h_code r) && (h_code r <? 300) = false).
  { apply andb_false_iff. destruct (Z_lt_le_dec (h_code r) 200); [left | right]; lia. }
  rewrite E2xx. destruct Ho as [-> | Hne]; [reflexivity |].
  assert (E307 : (h_code r =? 307) = false) by lia.
  rewrite E307. destruct (opener w); reflexivity.
Qed.

Lemma urlopen_raise (req : Request) (w : World) (e : exn) :
  wire N (wire_log w) req = Raise e ->
  urlopen N req w = (Raise e, after_request w req).
Proof. intros Hw. unfold urlopen. rewrite Hw. reflexivity. Qed.

Lemma urlopen_307 (req : Request) (w : World) (r : HTTPResponse) :
  wire N (wire_log w) req = Return r ->
  opener w = NoRedirectOpener ->
  h_code r = 307 ->
  exists c l, urlopen N req w = (Return (RespDict c l), after_request w req).
Proof.
  intros Hw Ho Hc. unfold urlopen, http_response, after_request.
  rewrite Hw, Ho, Hc.
  cbn [Z.eqb Pos.eqb]. destruct (header_mem "Location" (h_headers r));
    eexists _, _; reflexivity.
Qed.

End Urlopen.

(** ** Outcomes of the dispatcher *)

(** X1.  One call of [_operation] is at most one call of [urlopen]: there is
    no retry.  The log of the requests handed to [urlopen] is left as it was
    or grows by exactly one request, which carries the verb of the call; the
    client object and the installed opener are never touched.  What [urllib]
    sends on its own when it follows a redirect inside that call is not
    counted. *)
Theorem operation_single_attempt {L : Lib} (N : Net) (interface : string)
    (params : value) (method : string) (version : option string) :
  opens_at_most 1 (_operation N interface params method version)
  /\ keeps_session (_operation N interface params method version)
  /\ keeps_opener (_operation N interface params method version)
  /\ forall w,
       wire_log (snd (_operation N interface params method version w)) = wire_log w
       \/ exists req,
            wire_log (snd (_operation N interface params method version w))
            = (wire_log w ++ [req])%list
            /\ get_method req = method.
Proof.
  repeat split.
  - intros w. destruct (operation_world N interface params method version w)
      as [-> | (req & -> & _)].
    + exists []. rewrite app_nil_r. split; [reflexivity | cbn; lia].
    + exists [req]. split; [reflexivity | cbn; lia].
  - intros w. destruct (operation_world N interface params method version w)
      as [-> | (req & -> & _)]; reflexivity.
  - intros w. destruct (operation_world N interface params method version w)
      as [-> | (req & -> & _)]; reflexivity.
  - intros w. destruct (operation_world N interface params method version w)
      as [-> | (req & -> & Hm)]; [left; reflexivity |].
    right. exists req. split; [reflexivity |]. unfold get_method. rewrite Hm.
    reflexivity.
Qed.

(** X2.  A reply in the 2xx range whose body is UTF-8 comes back as
    [{'success': True, 'code': <status>, 'response': <body text>}]: the body
    is handed over as text, not decoded as JSON; this holds under either
    opener. *)
Theorem operation_success {L : Lib} (N : Net) (interface : string)
    (params : value) (method : string) (version : option string) (w : World)
    (query : string) (body : option bytes) (r : HTTPResponse) (text : string) :
  _access_token (self w) <> VNone ->
  scoped (self w) || contains "profiles" interface = true ->
  shaped method params query body ->
  (forall req,
     req_url req = "https://" +:+ endpoint (self w) +:+ version_segment version
                     +:+ "/" +:+ interface +:+ query ->
     wire N (wire_log w) req = Return r) ->
  200 <= h_code r < 300 ->
  utf8_decode (h_body r) = Some text ->
  fst (_operation N interface params method version w)
  = Return (mkResult true (h_code r) (VStr text)).
Proof.
  intros Htok Hguard Hshape Hwire Hc Hutf.
  apply is_None_false in Htok.
  destruct (operation_network N interface params method version w query body)
    as (req & Hu & _ & _ & _ & E); auto.
  rewrite E. unfold try_HTTPError. rewrite run_bind.
  rewrite (urlopen_2xx N req w r (Hwire req Hu) Hc).
  cbn [attr_code read]. run. rewrite Hutf. run. reflexivity.
Qed.

Lemma operation_success_witness :
  fst (list_campaigns (L := Py.lib)
         (Sample.scripted
            [("https://advertising-api-test.amazon.com/v2/sp/campaigns",
              mkResponse 200 "OK" [] "[]")])
         VNone false Sample.ready)
  = Return (mkResult true 200 (VStr "[]")).
Proof.
  apply (operation_success (L := Py.lib)
           (Sample.scripted
              [("https://advertising-api-test.amazon.com/v2/sp/campaigns",
                mkResponse 200 "OK" [] "[]")])
           "sp/campaigns" VNone "GET" (Some "v2") Sample.ready "" None
           (mkResponse 200 "OK" [] "[]") "[]").
  - cbn. discriminate.
  - reflexivity.
  - constructor.
  - intros req Hreq. cbn [wire Sample.scripted]. rewrite Hreq. reflexivity.
  - cbn. lia.
  - reflexivity.
Defined.

(** X3.  A reply outside the 2xx range that the opener's error handlers turn
    into [HTTPError(code, msg, body)] comes back as
    [{'success': False, 'code': code, 'response': '<msg>: <repr of body>'}];
    the exception does not leave the call. *)
Theorem operation_http_error {L : Lib} (N : Net) (interface : string)
    (params : value) (method : string) (version : option string) (w : World)
    (query : string) (body : option bytes) (r : HTTPResponse)
    (c : Z) (msg : string) (b : bytes) :
  _access_token (self w) <> VNone ->
  scoped (self w) || contains "profiles" interface = true ->
  shaped method params query body ->
  (forall req,
     req_url req = "https://" +:+ endpoint (self w) +:+ version_segment version
                     +:+ "/" +:+ interface +:+ query ->
     wire N (wire_log w) req = Return r
     /\ parent_error N (opener w) (wire_log w) req r = Raise (HTTPError c msg b)) ->
  ~ (200 <= h_code r < 300) ->
  opener w = StockOpener \/ h_code r <> 307 ->
  fst (_operation N interface params method version w)
  = Return (mkResult false c (VStr (msg +:+ ": " +:+ repr_bytes b))).
Proof.
  intros Htok Hguard Hshape Hwire Hc Ho.
  apply is_None_false in Htok.
  destruct (operation_network N interface params method version w query body)
    as (req & Hu & _ & _ & _ & E); auto.
  destruct (Hwire req Hu) as [Hw Hp].
  rewrite E. unfold try_HTTPError. rewrite run_bind.
  rewrite (urlopen_error N req w r Hw Hc Ho), Hp. reflexivity.
Qed.

Lemma operation_http_error_witness :
  fst (archive_campaign (L := Py.lib) (Sample.scripted []) (VInt 42) Sample.ready)
  = Return (mkResult false 404 (VStr ("Not Found" +:+ ": " +:+ "b''"))).
Proof.
  apply (operation_http_error (L := Py.lib) (Sample.scripted [])
           "sp/campaigns/42" VNone "DELETE" (Some "v2") Sample.ready "" None
           (mkResponse 404 "Not Found" [] "") 404 "Not Found" "").
  - cbn. discriminate.
  - reflexivity.
  - constructor. discriminate.
  - intros req Hreq. split; reflexivity.
  - cbn. lia.
  - left. reflexivity.
Defined.

(** X4.  Only [HTTPError] is caught.  When the transport raises anything
    else, a [URLError] for a host that cannot be reached say, [_operation]
    raises it, after the request went on the wire. *)
Theorem operation_propagates {L : Lib} (N : Net) (interface : string)
    (params : value) (method : string) (version : option string) (w : World)
    (query : string) (body : option bytes) (e : exn) :
  _access_token (self w) <> VNone ->
  scoped (self w) || contains "profiles" interface = true ->
  shaped method params query body ->
  (forall req,
     req_url req = "https://" +:+ endpoint (self w) +:+ version_segment version
                     +:+ "/" +:+ interface +:+ query ->
     wire N (wire_log w) req = Raise e) ->
  (forall c msg b, e <> HTTPError c msg b) ->
  exists req,
    _operation N interface params method version w = (Raise e, after_request w req).
Proof.
  intros Htok Hguard Hshape Hwire He.
  apply is_None_false in Htok.
  destruct (operation_network N interface params method version w query body)
    as (req & Hu & _ & _ & _ & E); auto.
  exists req. rewrite E. unfold try_HTTPError. rewrite run_bind.
  rewrite (urlopen_raise N req w e (Hwire req Hu)).
  destruct e; try reflexivity. exfalso. eapply He. reflexivity.
Qed.

Lemma operation_propagates_witness :
  exists req,
    update_campaigns (L := Py.lib) Scene.unreachable
      (VList [VDict [("campaignId", VInt 7); ("state", VStr "paused")]])
      Sample.ready
    = (Raise (URLError "Name or service not known"),
       after_request Sample.ready req).
Proof.
  apply (operation_propagates (L := Py.lib) Scene.unreachable "sp/campaigns"
           (VList [VDict [("campaignId", VInt 7); ("state", VStr "paused")]])
           "PUT" (Some "v2") Sample.ready ""
           (Some (@utf8_encode Py.lib
                    (Py.dumps (VList [VDict [("campaignId", VInt 7);
                                             ("state", VStr "paused")]]))))).
  - cbn. discriminate.
  - reflexivity.
  - apply (shaped_body_json (L := Py.lib)); [discriminate | reflexivity | reflexivity].
  - intros req _. reflexivity.
  - intros c msg b. discriminate.
Defined.

(** ** [HTTPError] stays inside *)

Section Containment.
Context {L : Lib} (N : Net).

Lemma contains_ret {A : Type} (a : A) : contains_HTTPError (mret a : M A).
Proof. intros w c msg b. cbn. discriminate. Qed.

Lemma contains_raise {A : Type} (e : exn) :
  (forall c msg b, e <> HTTPError c msg b) -> contains_HTTPError (raise e : M A).
Proof. intros He w c msg b H. cbn in H. inversion H. eapply He. eassumption. Qed.

Lemma contains_bind {A B : Type} (m : M A) (k : A -> M B) :
  contains_HTTPError m -> (forall a, contains_HTTPError (k a)) ->
  contains_HTTPError (m ≫= k).
Proof.
  intros Hm Hk w c msg b. rewrite run_bind.
  specialize (Hm w c msg b).
  destruct (m w) as [[a | e] w1]; cbn [fst] in *.
  - apply Hk.
  - intros H. apply Hm. inversion H. reflexivity.
Qed.

Lemma contains_try (body : M Result) :
  contains_HTTPError (try_HTTPError body on_HTTPError).
Proof.
  intros w c msg b. unfold try_HTTPError.
  destruct (body w) as [[r | e] w1]; [cbn; discriminate |].
  destruct e; cbn; discriminate.
Qed.

Lemma contains_lift {A : Type} (e : exn) (o : option A) :
  (forall c msg b, e <> HTTPError c msg b) -> contains_HTTPError (lift e o).
Proof.
  intros He. destruct o; [apply contains_ret | apply contains_raise, He].
Qed.

Lemma contains_state {A : Type} (f : World -> A * World) :
  contains_HTTPError (fun w => (Return (fst (f w)), snd (f w))).
Proof. intros w c msg b. cbn. discriminate. Qed.

End Containment.

Ltac contained :=
  repeat first
    [ apply contains_try
    | apply contains_ret
    | apply contains_raise; intros; discriminate
    | apply contains_lift; intros; discriminate
    | apply contains_bind; [| intros ?]
    | match goal with
      | |- contains_HTTPError get_self => intros ? ? ? ?; cbn; discriminate
      | |- contains_HTTPError (set_access_token _) => intros ? ? ? ?; cbn; discriminate
      | |- contains_HTTPError (set_refresh_token _) => intros ? ? ? ?; cbn; discriminate
      | |- contains_HTTPError (install_opener _) => intros ? ? ? ?; cbn; discriminate
      | |- contains_HTTPError (Request_init _ _ _) => unfold Request_init; cbv zeta
      | |- contains_HTTPError (getitem _ _) => unfold getitem
      | |- contains_HTTPError (py_json_loads _) => unfold py_json_loads
      | |- contains_HTTPError (py_unquote _) => unfold py_unquote
      | |- contains_HTTPError (if ?b then _ else _) => destruct b
      | |- contains_HTTPError (match ?x with _ => _ end) => destruct x
      | |- contains_HTTPError (let '(_, _) := ?x in _) => destruct x
      end ].

(** X5.  No [HTTPError] leaves the network methods: the dispatcher, the token
    refresh, the downloader and the report and snapshot calls turn every one
    into a result. *)
Theorem HTTPError_is_contained {L : Lib} (N : Net) :
  (forall interface params method version,
     contains_HTTPError (_operation N interface params method version))
  /\ contains_HTTPError (do_refresh_token N)
  /\ (forall location, contains_HTTPError (_download N location))
  /\ (forall report_id, contains_HTTPError (get_report N report_id))
  /\ (forall snapshot_id, contains_HTTPError (get_snapshot N snapshot_id))
  /\ (forall record_type report_id data campaign_type,
        contains_HTTPError (request_report N record_type report_id data campaign_type))
  /\ (forall record_type snapshot_id data campaign_type,
        contains_HTTPError
          (request_snapshot N record_type snapshot_id data campaign_type)).
Proof.
  assert (Hop : forall interface params method version,
            contains_HTTPError (_operation N interface params method version)).
  { intros. unfold _operation. cbv zeta. contained. }
  assert (Hdl : forall location, contains_HTTPError (_download N location)).
  { intros. unfold _download. cbv zeta. contained. }
  repeat split.
  - exact Hop.
  - unfold do_refresh_token. cbv zeta. contained.
  - exact Hdl.
  - intros. unfold get_report. cbv zeta. apply contains_bind; [apply Hop |].
    intros res. contained; apply Hdl.
  - intros. unfold get_snapshot. cbv zeta. apply contains_bind; [apply Hop |].
    intros res. contained; apply Hdl.
  - intros. unfold request_report. cbv zeta.
    destruct record_type; [apply Hop |]. destruct report_id; [apply Hop |].
    apply contains_ret.
  - intros. unfold request_snapshot. cbv zeta.
    destruct record_type; [apply Hop |]. destruct snapshot_id; [apply Hop |].
    apply contains_ret.
Qed.

(** ** Sessions *)

(** X6.  A region of the table gives a session on its sandbox host when
    [sandbox] is set and on its production host otherwise, with the region's
    token URL; every request the dispatcher then sends goes to that host, and
    carries the [BIDDING_CONTROLS_ON] marker exactly in a sandbox session.  A
    region code outside the table raises [KeyError]. *)
Theorem session_host {L : Lib} (N : Net) (regions : gmap string Region)
    (versions : Versions) (client_id client_secret region : string)
    (profile_id : option string) (access_token : value)
    (refresh_token : option string) (sandbox : bool) :
  (forall r, regions !! region = Some r ->
     exists me,
       __init__ regions versions client_id client_secret region profile_id
                access_token refresh_token sandbox = Return me
       /\ endpoint me = (if sandbox then sandbox_host r else prod r)
       /\ token_url me = region_token_url r
       /\ forall interface params method version o log query body,
            access_token <> VNone ->
            scoped me || contains "profiles" interface = true ->
            shaped method params query body ->
            exists req out,
              _operation N interface params method version (mkWorld me o log)
              = (out, after_request (mkWorld me o log) req)
              /\ req_url req
                 = "https://" +:+ (if sandbox then sandbox_host r else prod r)
                     +:+ version_segment version +:+ "/" +:+ interface +:+ query
              /\ req_headers req !! "BIDDING_CONTROLS_ON"
                 = (if sandbox then Some "true" else None))
  /\ (regions !! region = None ->
      __init__ regions versions client_id client_secret region profile_id
               access_token refresh_token sandbox
      = Raise (KeyError ("Region " +:+ region +:+ " not found in regions."))).
Proof.
  split.
  - intros r Hr. unfold __init__. rewrite Hr. eexists. split; [reflexivity |].
    split; [reflexivity |]. split; [reflexivity |].
    intros interface params method version o log query body Htok Hguard Hshape.
    match goal with
    | |- context [_operation N _ _ _ _ ?w] =>
        destruct (operation_sends N interface params method version w query body)
          as (req & out & E & Hu & _ & _ & Hh)
    end.
    + apply is_None_false. exact Htok.
    + exact Hguard.
    + exact Hshape.
    + exists req, out. split; [exact E |]. split; [exact Hu |].
      destruct Hh as (_ & _ & _ & _ & Hb & _). exact Hb.
  - intros Hr. unfold __init__. rewrite Hr. reflexivity.
Qed.

Lemma session_host_witness :
  exists me,
    __init__ Sample.regions Sample.versions "id" "secret" "NA" (Some "P1")
             (VStr "T") None false = Return me
    /\ endpoint me = "advertising-api.amazon.com"
    /\ token_url me = "api.amazon.com/auth/o2/token".
Proof.
  destruct (session_host (L := Py.lib) (Sample.scripted []) Sample.regions
              Sample.versions "id" "secret" "NA" (Some "P1") (VStr "T") None false)
    as [H _].
  destruct (H (mkRegion "advertising-api.amazon.com"
                        "advertising-api-test.amazon.com"
                        "api.amazon.com/auth/o2/token"))
    as (me & E & He & Ht & _).
  - reflexivity.
  - exists me. repeat split; assumption.
Defined.

(** ** The token refresh on the wire *)

Section RefreshRuns.
Context {L : Lib} (N : Net).

(** Past its guard and its unquoting step, [do_refresh_token] is its network
    part run on the token request. *)
Lemma refresh_network (w : World) (rt data : string) :
  refresh_token (self w) = Some rt ->
  (exists s, _access_token (self w) = VStr s)
  \/ truthy (_access_token (self w)) = false ->
  urlencode (VDict [("grant_type", VStr "refresh_token");
                    ("refresh_token", VStr (unquote rt));
                    ("client_id", VStr (client_id (self w)));
                    ("client_secret", VStr (client_secret (self w)))])
  = Some data ->
  exists w1,
    _access_token (self w1) = unquoted_token (_access_token (self w))
    /\ refresh_token (self w1) = Some (unquote rt)
    /\ profile_id (self w1) = profile_id (self w)
    /\ client_id (self w1) = client_id (self w)
    /\ user_agent (self w1) = user_agent (self w)
    /\ sandbox (self w1) = sandbox (self w)
    /\ endpoint (self w1) = endpoint (self w)
    /\ opener w1 = opener w
    /\ wire_log w1 = wire_log w
    /\ do_refresh_token N w
       = try_HTTPError
           (f ← urlopen N (mkRequest ("https://" +:+ token_url (self w)) ∅
                                     (Some (utf8_encode data)) None);
            raw ← read f;
            response ← lift UnicodeDecodeError (utf8_decode raw);
            if contains "access_token" response then
              json_data ← py_json_loads (VStr response);
              tok ← getitem json_data "access_token";
              set_access_token tok;;
              c ← attr_code f;
              me ← get_self;
              mret (mkResult true c (_access_token me))
            else
              c ← attr_code f;
              mret (mkResult false c (VStr "access_token not in response.")))
           on_HTTPError w1.
Proof.
  intros Hrt Htok Hdata. unfold do_refresh_token. run. rewrite Hrt. run.
  assert (Hpre : exists w0,
            (if truthy (_access_token (self w))
             then t ← py_unquote (_access_token (self w)); set_access_token t
             else mret tt) w = (Return tt, w0)
            /\ _access_token (self w0) = unquoted_token (_access_token (self w))
            /\ refresh_token (self w0) = refresh_token (self w)
            /\ profile_id (self w0) = profile_id (self w)
            /\ client_id (self w0) = client_id (self w)
            /\ client_secret (self w0) = client_secret (self w)
            /\ token_url (self w0) = token_url (self w)
            /\ user_agent (self w0) = user_agent (self w)
            /\ sandbox (self w0) = sandbox (self w)
            /\ endpoint (self w0) = endpoint (self w)
            /\ opener w0 = opener w /\ wire_log w0 = wire_log w).
  { unfold unquoted_token. destruct Htok as [[s Hs] | Hf].
    - rewrite Hs. destruct (truthy (VStr s)) eqn:Ht.
      + cbn [py_unquote]. run. eexists. split; [reflexivity |].
        cbn. repeat split; reflexivity.
      + run. eexists. split; [reflexivity |].
        repeat split; first [reflexivity | exact Hs].
    - rewrite Hf. run. eexists. split; [reflexivity |].
      repeat split; try reflexivity.
      destruct (_access_token (self w)) as [| | | s | |]; reflexivity. }
  destruct Hpre as (w0 & -> & Ht0 & Hr0 & Hp0 & Hc0 & Hs0 & Hu0 & Ha0 & Hb0 & He0
                      & Ho0 & Hl0).
  exists (mkWorld (with_refresh_token (Some (unquote rt)) (self w0))
                  (opener w0) (wire_log w0)).
  do 9 (split; [cbn; first [assumption | reflexivity] |]).
  run. cbn [with_refresh_token refresh_token client_id client_secret token_url].
  rewrite Hc0, Hs0, Hu0, Hdata. run. rewrite Request_init_https. reflexivity.
Qed.

(** The network part of the refresh logs exactly its request, and touches
    nothing of the client but the access token. *)
Lemma refresh_tail_world (req : Request) (w : World) :
  let w' := snd (try_HTTPError
                   (f ← urlopen N req;
                    raw ← read f;
                    response ← lift UnicodeDecodeError (utf8_decode raw);
                    if contains "access_token" response then
                      json_data ← py_json_loads (VStr response);
                      tok ← getitem json_data "access_token";
                      set_access_token tok;;
                      c ← attr_code f;
                      me ← get_self;
                      mret (mkResult true c (_access_token me))
                    else
                      c ← attr_code f;
                      mret (mkResult false c (VStr "access_token not in response.")))
                   on_HTTPError w) in
  wire_log w' = (wire_log w ++ [req])%list
  /\ opener w' = opener w
  /\ refresh_token (self w') = refresh_token (self w)
  /\ profile_id (self w') = profile_id (self w).
Proof.
  cbv zeta. unfold try_HTTPError. rewrite run_bind.
  pose proof (urlopen_world N req w) as Hw.
  destruct (urlopen N req w) as [o w1]. cbn [snd] in Hw. subst w1.
  destruct o as [f | e].
  2:{ destruct e; cbn; repeat split; reflexivity. }
  destruct f as [r | c l]; cbn [read]; run.
  2:{ cbn. repeat split; reflexivity. }
  destruct (utf8_decode (h_body r)) as [text |]; run.
  2:{ cbn. repeat split; reflexivity. }
  destruct (contains "access_token" text); run; cbn [attr_code py_json_loads]; run.
  2:{ cbn. repeat split; reflexivity. }
  destruct (json_loads text) as [j |]; run.
  2:{ cbn. repeat split; reflexivity. }
  unfold getitem.
  destruct j; run; try (cbn; repeat split; reflexivity).
  destruct (dict_get "access_token" d) as [tok |]; run; cbn; repeat split; reflexivity.
Qed.

End RefreshRuns.



(** X8.  [do_refresh_token] rewrites the stored refresh token too: once past
    the [None] guard and the unquoting of the access token, the session holds
    the unquoted refresh token, whether or not the refresh succeeds. *)
Theorem refresh_token_unquoted {L : Lib} (N : Net) (w : World) (rt : string) :
  refresh_token (self w) = Some rt ->
  (exists s, _access_token (self w) = VStr s)
  \/ truthy (_access_token (self w)) = false ->
  refresh_token (self (snd (do_refresh_token N w))) = Some (unquote rt).
Proof.
  intros Hrt Htok.
  destruct (urlencode (VDict [("grant_type", VStr "refresh_token");
                              ("refresh_token", VStr (unquote rt));
                              ("client_id", VStr (client_id (self w)));
                              ("client_secret", VStr (client_secret (self w)))]))
    as [data |] eqn:Hdata.
  - destruct (refresh_network N w rt data Hrt Htok Hdata)
      as (w1 & _ & Hr & _ & _ & _ & _ & _ & _ & _ & E).
    rewrite E.
    match goal with
    | |- context [urlopen N ?r] =>
        destruct (refresh_tail_world N r w1) as (_ & _ & Hr' & _)
    end.
    rewrite Hr'. exact Hr.
  - unfold do_refresh_token. run. rewrite Hrt. run.
    destruct Htok as [[s Hs] | Hf].
    + rewrite Hs. destruct (truthy (VStr s)); cbn [py_unquote]; run;
        cbn [with_refresh_token with_access_token refresh_token client_id
             client_secret];
        rewrite Hdata; reflexivity.
    + rewrite Hf. run.
      cbn [with_refresh_token refresh_token client_id client_secret].
      rewrite Hdata. reflexivity.
Qed.

Lemma refresh_token_unquoted_witness :
  refresh_token
    (self (snd (do_refresh_token (L := Py.lib) (Sample.scripted [])
                  Sample.encoded_token)))
  = Some "Atzr|refresh".
Proof.
  apply (refresh_token_unquoted (L := Py.lib) (Sample.scripted [])
           Sample.encoded_token "Atzr%7Crefresh").
  - reflexivity.
  - left. eexists. reflexivity.
Defined.



(** X10.  The test for the new token is a test on the text of the reply.  A
    2xx reply whose text does not contain [access_token] gives
    [{'success': False, 'code': <status>,
      'response': 'access_token not in response.'}];
    a reply whose text contains [access_token] and whose JSON object has no
    such key is indexed all the same, and the [KeyError] leaves the call. *)
Theorem refresh_without_token {L : Lib} (N : Net) (w : World) (rt data : string)
    (r : HTTPResponse) (text : string) :
  refresh_token (self w) = Some rt ->
  (exists s, _access_token (self w) = VStr s)
  \/ truthy (_access_token (self w)) = false ->
  urlencode (VDict [("grant_type", VStr "refresh_token");
                    ("refresh_token", VStr (unquote rt));
                    ("client_id", VStr (client_id (self w)));
                    ("client_secret", VStr (client_secret (self w)))])
  = Some data ->
  (forall req, req_url req = "https://" +:+ token_url (self w) ->
               wire N (wire_log w) req = Return r) ->
  200 <= h_code r < 300 ->
  utf8_decode (h_body r) = Some text ->
  (contains "access_token" text = false ->
   fst (do_refresh_token N w)
   = Return (mkResult false (h_code r) (VStr "access_token not in response.")))
  /\ (forall d, contains "access_token" text = true ->
                json_loads text = Some (VDict d) ->
                dict_get "access_token" d = None ->
                fst (do_refresh_token N w) = Raise (KeyError "access_token")).
Proof.
  intros Hrt Htok Hdata Hwire Hc Hutf.
  destruct (refresh_network N w rt data Hrt Htok Hdata)
    as (w1 & _ & _ & _ & _ & _ & _ & _ & _ & Hl & E).
  rewrite E. unfold try_HTTPError. rewrite run_bind.
  rewrite (urlopen_2xx N _ w1 r); [| rewrite Hl; apply Hwire; reflexivity | exact Hc].
  cbn [read]. run. rewrite Hutf. run. split.
  - intros ->. cbn [attr_code]. run. reflexivity.
  - intros d -> Hj Hd. cbn [py_json_loads]. rewrite Hj. run. cbn [getitem].
    rewrite Hd. reflexivity.
Qed.

Lemma refresh_without_token_witness :
  fst (do_refresh_token (L := Py.lib) Scene.token_expired Sample.encoded_token)
  = Raise (KeyError "access_token").
Proof.
  destruct (refresh_without_token (L := Py.lib) Scene.token_expired
              Sample.encoded_token "Atzr%7Crefresh" Scene.token_form
              (mkResponse 200 "OK" []
                 (Py.dumps (VDict [("error_description",
                                    VStr "access_token expired")])))
              (Py.dumps (VDict [("error_description",
                                 VStr "access_token expired")])))
    as [_ H].
  - reflexivity.
  - left. eexists. reflexivity.
  - vm_compute. reflexivity.
  - intros req Hreq. cbn [wire Scene.token_expired Sample.scripted].
    rewrite Hreq. reflexivity.
  - cbn. lia.
  - vm_compute. reflexivity.
  - apply (H [("error_description", VStr "access_token expired")]);
      vm_compute; reflexivity.
Defined.

(** ** The downloader on the wire *)

Section DownloadRuns.
Context {L : Lib} (N : Net).

(** With a profile and a location that [Request] accepts, [_download] is its
    network part run, under the no-redirect opener, on the first-hop request. *)
Lemma download_network (location : value) (w : World) (p : string) :
  profile_id (self w) = Some p ->
  url_ok (str_of location) = true ->
  exists hs,
    hs !! "Authorization" = Some ("Bearer " +:+ str_of (_access_token (self w)))
    /\ hs !! "Content-Type" = Some "application/json"
    /\ hs !! "User-Agent" = Some (user_agent (self w))
    /\ hs !! "Amazon-Advertising-API-Scope" = Some p
    /\ hs !! "Amazon-Advertising-API-ClientId" = None
    /\ hs !! "BIDDING_CONTROLS_ON" = None
    /\ _download N location w
       = try_HTTPError
           (response ← urlopen N (mkRequest (str_of location) hs None None);
            if has_location response then
              loc ← item_location response;
              match loc with
              | Some l =>
                  req ← Request_init (VStr l) ∅ None;
                  res ← urlopen N req;
                  res_data ← read res;
                  data ← lift BadGzipFile (gunzip res_data);
                  c ← attr_code res;
                  text ← lift UnicodeDecodeError (utf8_decode data);
                  j ← py_json_loads (VStr text);
                  mret (mkResult true c j)
              | None =>
                  c ← attr_code response;
                  mret (mkResult false c (VStr "Location is empty."))
              end
            else
              c ← attr_code response;
              mret (mkResult false c (VStr "Location not found.")))
           on_HTTPError (mkWorld (self w) NoRedirectOpener (wire_log w)).
Proof.
  intros Hp Hok. unfold _download. run. rewrite Hp. run.
  unfold Request_init at 1. rewrite Hok. run.
  eexists. repeat split; cycle -1; [reflexivity | ..]; simplify_map_eq; reflexivity.
Qed.

(** Where a run of [_download] leaves the world. *)
Lemma download_world (location : value) (w : World) :
  snd (_download N location w) = w /\ profile_id (self w) = None
  \/ exists l : list Request,
       snd (_download N location w)
       = mkWorld (self w) NoRedirectOpener (wire_log w ++ l)
       /\ (length l <= 2)%nat
       /\ profile_id (self w) <> None.
Proof.
  unfold _download. run.
  destruct (profile_id (self w)) as [p |]; [right | left; split; reflexivity].
  run. unfold Request_init at 1.
  destruct (url_ok (str_of location)); run.
  2:{ exists []. rewrite app_nil_r. repeat split; [cbn; lia | discriminate]. }
  unfold try_HTTPError. rewrite run_bind.
  match goal with
  | |- context [urlopen N ?r ?w0] =>
      pose proof (urlopen_world N r w0) as Hw; set (req1 := r) in *;
      destruct (urlopen N req1 w0) as [o w1]
  end.
  cbn [snd] in Hw. subst w1. unfold after_request. cbn [self opener wire_log].
  destruct o as [f | e].
  2:{ exists [req1]. destruct e; cbn; repeat split; try lia; discriminate. }
  destruct f as [r | c l]; cbn [has_location item_location attr_code]; run.
  { exists [req1]. repeat split; [cbn; lia | discriminate]. }
  destruct l as [l |]; run.
  2:{ exists [req1]. repeat split; [cbn; lia | discriminate]. }
  unfold Request_init. destruct (url_ok (str_of (VStr l))); run.
  2:{ exists [req1]. repeat split; [cbn; lia | discriminate]. }
  match goal with
  | |- context [urlopen N ?r ?w0] =>
      pose proof (urlopen_world N r w0) as Hw; set (req2 := r) in *;
      destruct (urlopen N req2 w0) as [o w2]
  end.
  cbn [snd] in Hw. subst w2. unfold after_request. cbn [self opener wire_log].
  assert (Hlog : exists l0 : list Request,
            mkWorld (self w) NoRedirectOpener ((wire_log w ++ [req1]) ++ [req2])
            = mkWorld (self w) NoRedirectOpener (wire_log w ++ l0)
            /\ (length l0 <= 2)%nat /\ Some p <> None).
  { exists [req1; req2]. rewrite <- app_assoc.
    repeat split; [cbn; lia | discriminate]. }
  destruct o as [f | e].
  2:{ destruct e; unfold on_HTTPError; run; cbn [snd]; exact Hlog. }
  destruct f as [r2 | c2 l2]; cbn [read attr_code]; run; [| exact Hlog].
  destruct (gunzip (h_body r2)); run; [| exact Hlog].
  destruct (utf8_decode b); run; [| exact Hlog].
  cbn [py_json_loads]. destruct (json_loads s); run; exact Hlog.
Qed.

(** The network part of [_download] logs its first-hop request, and after it
    at most one more, which is bare: no header, no body. *)
Lemma download_tail_world (req1 : Request) (w0 : World) :
  exists l : list Request,
    snd (try_HTTPError
           (response ← urlopen N req1;
            if has_location response then
              loc ← item_location response;
              match loc with
              | Some l =>
                  req ← Request_init (VStr l) ∅ None;
                  res ← urlopen N req;
                  res_data ← read res;
                  data ← lift BadGzipFile (gunzip res_data);
                  c ← attr_code res;
                  text ← lift UnicodeDecodeError (utf8_decode data);
                  j ← py_json_loads (VStr text);
                  mret (mkResult true c j)
              | None =>
                  c ← attr_code response;
                  mret (mkResult false c (VStr "Location is empty."))
              end
            else
              c ← attr_code response;
              mret (mkResult false c (VStr "Location not found.")))
           on_HTTPError w0)
    = mkWorld (self w0) (opener w0) (wire_log w0 ++ req1 :: l)
    /\ (length l <= 1)%nat
    /\ Forall (fun req2 => req_headers req2 = ∅ /\ req_data req2 = None
                           /\ get_method req2 = "GET") l.
Proof.
  unfold try_HTTPError. rewrite run_bind.
  pose proof (urlopen_world N req1 w0) as Hw.
  destruct (urlopen N req1 w0) as [o w1]. cbn [snd] in Hw. subst w1.
  unfold after_request.
  assert (H1 : exists l : list Request,
            mkWorld (self w0) (opener w0) (wire_log w0 ++ [req1])
            = mkWorld (self w0) (opener w0) (wire_log w0 ++ req1 :: l)
            /\ (length l <= 1)%nat
            /\ Forall (fun req2 => req_headers req2 = ∅ /\ req_data req2 = None
                                   /\ get_method req2 = "GET") l).
  { exists []. repeat split; [cbn; lia | constructor]. }
  destruct o as [f | e].
  2:{ destruct e; unfold on_HTTPError; run; cbn [snd]; exact H1. }
  destruct f as [r | c l]; cbn [has_location item_location attr_code]; run;
    [exact H1 |].
  destruct l as [l |]; run; [| exact H1].
  unfold Request_init. destruct (url_ok (str_of (VStr l))); run; [| exact H1].
  match goal with
  | |- context [urlopen N ?r ?w1] =>
      pose proof (urlopen_world N r w1) as Hw; set (req2 := r) in *;
      destruct (urlopen N req2 w1) as [o w2]
  end.
  cbn [snd] in Hw. subst w2. unfold after_request. cbn [self opener wire_log].
  assert (H2 : exists l0 : list Request,
            mkWorld (self w0) (opener w0) ((wire_log w0 ++ [req1]) ++ [req2])
            = mkWorld (self w0) (opener w0) (wire_log w0 ++ req1 :: l0)
            /\ (length l0 <= 1)%nat
            /\ Forall (fun req2 => req_headers req2 = ∅ /\ req_data req2 = None
                                   /\ get_method req2 = "GET") l0).
  { exists [req2]. rewrite <- app_assoc. repeat split; [cbn; lia |].
    constructor; [| constructor]. repeat split. }
  destruct o as [f | e].
  2:{ destruct e; unfold on_HTTPError; run; cbn [snd]; exact H2. }
  destruct f as [r2 | c2 l2]; cbn [read attr_code]; run; [| exact H2].
  destruct (gunzip (h_body r2)); run; [| exact H2].
  destruct (utf8_decode b); run; [| exact H2].
  cbn [py_json_loads]. destruct (json_loads s); run; exact H2.
Qed.

End DownloadRuns.

(** X11.  The downloader's guard is unlike the dispatcher's.  Without a
    profile id ([None]) [_download] raises [ValueError] where the dispatcher
    returns a result, and it does so before it installs its opener or sends
    anything.  A profile id that is the empty text passes: the first hop goes
    out with an empty scope header. *)
Theorem download_profile_guard {L : Lib} (N : Net) (location : value) (w : World) :
  (profile_id (self w) = None ->
   _download N location w = (Raise (ValueError "Invalid profile Id."), w))
  /\ (profile_id (self w) = Some "" ->
      url_ok (str_of location) = true ->
      exists req1 l,
        wire_log (snd (_download N location w)) = (wire_log w ++ req1 :: l)%list
        /\ req_url req1 = str_of location
        /\ req_headers req1 !! "Amazon-Advertising-API-Scope" = Some "").
Proof.
  split.
  - intros Hp. unfold _download. run. rewrite Hp. reflexivity.
  - intros Hp Hok.
    destruct (download_network N location w "" Hp Hok)
      as (hs & _ & _ & _ & Hs & _ & _ & E).
    rewrite E.
    destruct (download_tail_world N (mkRequest (str_of location) hs None None)
                (mkWorld (self w) NoRedirectOpener (wire_log w)))
      as (l & -> & _).
    eexists _, l. split; [reflexivity |]. split; [reflexivity | exact Hs].
Qed.

Lemma download_profile_guard_witness :
  _download (L := Py.lib) Sample.artifact_server (VStr Sample.report_url)
            (Sample.fresh (Sample.client (VStr "T") None None))
  = (Raise (ValueError "Invalid profile Id."),
     Sample.fresh (Sample.client (VStr "T") None None)).
Proof.
  destruct (download_profile_guard (L := Py.lib) Sample.artifact_server
              (VStr Sample.report_url)
              (Sample.fresh (Sample.client (VStr "T") None None))) as [H _].
  apply H. reflexivity.
Defined.

(** X12.  One download is at most two calls of [urlopen] and never touches
    the client object; with a profile id set it leaves the no-redirect opener
    installed for every later [urlopen] of the process, whatever its own
    outcome.  What [urllib] sends on its own when it follows a redirect
    inside one of the two calls is not counted. *)
Theorem download_footprint {L : Lib} (N : Net) (location : value) :
  opens_at_most 2 (_download N location)
  /\ keeps_session (_download N location)
  /\ forall w, profile_id (self w) <> None ->
               opener (snd (_download N location w)) = NoRedirectOpener.
Proof.
  repeat split.
  - intros w. destruct (download_world N location w) as [[-> _] | (l & -> & Hl & _)].
    + exists []. rewrite app_nil_r. split; [reflexivity | cbn; lia].
    + exists l. split; [reflexivity | exact Hl].
  - intros w. destruct (download_world N location w) as [[-> _] | (l & -> & _)];
      reflexivity.
  - intros w Hp. destruct (download_world N location w) as [[_ Hn] | (l & -> & _)];
      [contradiction | reflexivity].
Qed.

Lemma download_footprint_witness :
  opener (snd (_download (L := Py.lib) Sample.lost_redirect
                 (VStr Sample.report_url) Sample.ready))
  = NoRedirectOpener.
Proof.
  destruct (download_footprint (L := Py.lib) Sample.lost_redirect
              (VStr Sample.report_url)) as (_ & _ & H).
  apply H. cbn. discriminate.
Defined.

(** X13.  The requests a download builds.  The first request handed to
    [urlopen] is a GET to the location, without body, with the bearer token,
    the JSON content type, the user agent and the profile scope, and without
    the client id header that the dispatcher sends.  A second request, when
    the downloader builds one, is bare: a GET with no header and no body, so
    the downloader itself passes no credential on.  (A first hop that is
    answered 301, 302 or 303 is followed by [urllib] inside the first
    [urlopen], with the headers of the first request; those requests are not
    built by the downloader and this statement says nothing of them.) *)
Theorem download_requests {L : Lib} (N : Net) (location : value) (w : World)
    (p : string) :
  profile_id (self w) = Some p ->
  url_ok (str_of location) = true ->
  exists req1 l,
    wire_log (snd (_download N location w)) = (wire_log w ++ req1 :: l)%list
    /\ req_url req1 = str_of location
    /\ get_method req1 = "GET"
    /\ req_data req1 = None
    /\ req_headers req1 !! "Authorization"
       = Some ("Bearer " +:+ str_of (_access_token (self w)))
    /\ req_headers req1 !! "Content-Type" = Some "application/json"
    /\ req_headers req1 !! "User-Agent" = Some (user_agent (self w))
    /\ req_headers req1 !! "Amazon-Advertising-API-Scope" = Some p
    /\ req_headers req1 !! "Amazon-Advertising-API-ClientId" = None
    /\ (length l <= 1)%nat
    /\ Forall (fun req2 => req_headers req2 = ∅ /\ req_data req2 = None
                           /\ get_method req2 = "GET") l.
Proof.
  intros Hp Hok.
  destruct (download_network N location w p Hp Hok)
    as (hs & Ha & Hc & Hu & Hs & Hi & _ & E).
  rewrite E.
  destruct (download_tail_world N (mkRequest (str_of location) hs None None)
              (mkWorld (self w) NoRedirectOpener (wire_log w)))
    as (l & -> & Hl & Hall).
  eexists _, l. cbn [wire_log req_url req_data req_headers].
  repeat split; try assumption; reflexivity.
Qed.

Lemma download_requests_witness :
  exists req1 l,
    wire_log (snd (_download (L := Py.lib) Sample.artifact_server
                     (VStr Sample.report_url) Sample.ready))
    = req1 :: l
    /\ req_headers req1 !! "Amazon-Advertising-API-Scope" = Some "P1"
    /\ req_headers req1 !! "Amazon-Advertising-API-ClientId" = None
    /\ Forall (fun req2 => req_headers req2 = ∅ /\ req_data req2 = None
                           /\ get_method req2 = "GET") l.
Proof.
  destruct (download_requests (L := Py.lib) Sample.artifact_server
              (VStr Sample.report_url) Sample.ready "P1")
    as (req1 & l & Hlog & _ & _ & _ & _ & _ & _ & Hs & Hi & _ & Hall).
  - reflexivity.
  - reflexivity.
  - exists req1, l. repeat split; assumption.
Defined.

(** X14.  Transport errors of a download become results, on either hop: when
    the opener's error handlers turn the reply to the first hop, or the reply
    of the storage host to the second, into [HTTPError(code, msg, body)], the
    call returns
    [{'success': False, 'code': code, 'response': '<msg>: <repr of body>'}]. *)
Theorem download_http_error {L : Lib} (N : Net) (location : value) (w : World)
    (p : string) (r1 : HTTPResponse) (c : Z) (msg : string) (b : bytes) :
  profile_id (self w) = Some p ->
  url_ok (str_of location) = true ->
  (forall hist req, req_url req = str_of location -> wire N hist req = Return r1) ->
  (~ (200 <= h_code r1 < 300) -> h_code r1 <> 307 ->
   (forall hist req,
      parent_error N NoRedirectOpener hist req r1 = Raise (HTTPError c msg b)) ->
   fst (_download N location w)
   = Return (mkResult false c (VStr (msg +:+ ": " +:+ repr_bytes b))))
  /\ (forall l r2,
        h_code r1 = 307 -> header_get "Location" (h_headers r1) = Some l ->
        url_ok l = true ->
        (forall hist req, req_url req = l -> wire N hist req = Return r2) ->
        ~ (200 <= h_code r2 < 300) -> h_code r2 <> 307 ->
        (forall hist req,
           parent_error N NoRedirectOpener hist req r2
           = Raise (HTTPError c msg b)) ->
        fst (_download N location w)
        = Return (mkResult false c (VStr (msg +:+ ": " +:+ repr_bytes b)))).
Proof.
  intros Hp Hok H1.
  destruct (download_network N location w p Hp Hok) as (hs & _ & _ & _ & _ & _ & _ & E).
  rewrite E. clear E. unfold try_HTTPError. rewrite run_bind. split.
  - intros Hc Hne Herr.
    rewrite (urlopen_error N _ _ r1); [| apply H1; reflexivity | exact Hc | right; exact Hne].
    rewrite Herr. reflexivity.
  - intros l r2 Hc1 Hl Hokl H2 Hc2 Hne2 Herr.
    unfold urlopen at 1. cbn [self opener wire_log].
    rewrite H1 by reflexivity.
    unfold http_response at 1. rewrite Hc1. cbn [Z.eqb Pos.eqb].
    rewrite (header_get_mem _ _ _ Hl), Hl.
    cbn [has_location item_location]. run.
    unfold Request_init. rewrite str_of_VStr, Hokl. run.
    rewrite (urlopen_error N _ _ r2);
      [| apply H2; reflexivity | exact Hc2 | right; exact Hne2].
    rewrite Herr. reflexivity.
Qed.

Lemma download_http_error_witness :
  fst (_download (L := Py.lib) (Sample.scripted [])
                 (VStr Sample.report_url) Sample.ready)
  = Return (mkResult false 404 (VStr ("Not Found" +:+ ": " +:+ "b''"))).
Proof.
  destruct (download_http_error (L := Py.lib) (Sample.scripted [])
              (VStr Sample.report_url) Sample.ready "P1"
              (mkResponse 404 "Not Found" [] "") 404 "Not Found" "")
    as [H _].
  - reflexivity.
  - reflexivity.
  - intros hist req _. reflexivity.
  - apply H.
    + cbn. lia.
    + cbn. lia.
    + intros hist req. reflexivity.
Defined.

(** X15.  Only transport errors become results.  When both hops answer and
    the artifact is not what is expected, the exception leaves the call: a
    body that is not gzip raises [BadGzipFile], decompressed bytes that are
    not UTF-8 raise [UnicodeDecodeError], text that is not JSON raises
    [JSONDecodeError]. *)
Theorem download_bad_artifact {L : Lib} (N : Net) (location : value) (w : World)
    (p l : string) (r1 r2 : HTTPResponse) :
  profile_id (self w) = Some p ->
  url_ok (str_of location) = true ->
  (forall hist req, req_url req = str_of location -> wire N hist req = Return r1) ->
  h_code r1 = 307 ->
  header_get "Location" (h_headers r1) = Some l ->
  url_ok l = true ->
  (forall hist req, req_url req = l -> wire N hist req = Return r2) ->
  200 <= h_code r2 < 300 ->
  (gunzip (h_body r2) = None -> fst (_download N location w) = Raise BadGzipFile)
  /\ (forall d, gunzip (h_body r2) = Some d -> utf8_decode d = None ->
                fst (_download N location w) = Raise UnicodeDecodeError)
  /\ (forall d text, gunzip (h_body r2) = Some d -> utf8_decode d = Some text ->
                     json_loads text = None ->
                     fst (_download N location w) = Raise JSONDecodeError).
Proof.
  intros Hp Hok H1 Hc1 Hl Hokl H2 Hc2.
  destruct (download_network N location w p Hp Hok) as (hs & _ & _ & _ & _ & _ & _ & E).
  rewrite E. clear E.
  split; [| split]; [intros Hg | intros d Hg Hu | intros d text Hg Hu Hj];
    unfold try_HTTPError; rewrite run_bind;
    unfold urlopen at 1; cbn [self opener wire_log];
    rewrite H1 by reflexivity;
    unfold http_response at 1; rewrite Hc1; cbn [Z.eqb Pos.eqb];
    rewrite (header_get_mem _ _ _ Hl), Hl;
    cbn [has_location item_location]; run;
    unfold Request_init; rewrite str_of_VStr, Hokl; run;
    (rewrite (urlopen_2xx N _ _ r2); [| apply H2; reflexivity | exact Hc2]);
    cbn [read attr_code]; run; rewrite Hg; run.
  - reflexivity.
  - rewrite Hu. reflexivity.
  - rewrite Hu. run. cbn [py_json_loads]. rewrite Hj. reflexivity.
Qed.

Lemma download_bad_artifact_witness :
  fst (_download (L := Py.lib) Scene.plain_artifact (VStr Sample.report_url)
                 Sample.ready)
  = Raise BadGzipFile.
Proof.
  destruct (download_bad_artifact (L := Py.lib) Scene.plain_artifact
              (VStr Sample.report_url) Sample.ready "P1" Sample.storage_url
              (mkResponse 307 "Temporary Redirect"
                          [("Location", Sample.storage_url)] "")
              (mkResponse 200 "OK" [] Sample.report_text))
    as [H _].
  - reflexivity.
  - reflexivity.
  - intros hist req Hreq. cbn [wire Scene.plain_artifact Sample.scripted].
    rewrite Hreq. reflexivity.
  - reflexivity.
  - reflexivity.
  - reflexivity.
  - intros hist req Hreq. cbn [wire Scene.plain_artifact Sample.scripted].
    rewrite Hreq. reflexivity.
  - cbn. lia.
  - apply H. vm_compute. reflexivity.
Defined.

(** X16.  A download changes how the dispatcher treats redirects.  In the
    world a download leaves (profile id set), a 307 reply to [_operation] is
    intercepted by the no-redirect opener and handed back as a plain mapping;
    reading its [code] raises [AttributeError], so the call neither follows
    the redirect nor returns a result. *)
Theorem operation_after_download {L : Lib} (N : Net) (location : value)
    (w : World) (interface : string) (params : value) (method : string)
    (version : option string) (query : string) (body : option bytes)
    (r : HTTPResponse) :
  profile_id (self w) <> None ->
  _access_token (self w) <> VNone ->
  scoped (self w) || contains "profiles" interface = true ->
  shaped method params query body ->
  (forall hist req,
     req_url req = "https://" +:+ endpoint (self w) +:+ version_segment version
                     +:+ "/" +:+ interface +:+ query ->
     wire N hist req = Return r) ->
  h_code r = 307 ->
  fst (_operation N interface params method version (snd (_download N location w)))
  = Raise AttributeError.
Proof.
  intros Hp Htok Hguard Hshape Hwire Hc.
  destruct (download_world N location w) as [[_ Hn] | (l & E & _ & _)];
    [contradiction |].
  rewrite E. clear E. set (w1 := mkWorld (self w) NoRedirectOpener (wire_log w ++ l)).
  apply is_None_false in Htok.
  destruct (operation_network N interface params method version w1 query body)
    as (req & Hu & _ & _ & _ & E); auto.
  rewrite E. unfold try_HTTPError. rewrite run_bind.
  destruct (urlopen_307 N req w1 r) as (c & loc & Eo);
    [apply Hwire; exact Hu | reflexivity | exact Hc |].
  rewrite Eo. reflexivity.
Qed.

Lemma operation_after_download_witness :
  fst (list_campaigns (L := Py.lib)
         (Sample.scripted
            [("https://advertising-api-test.amazon.com/v2/sp/campaigns",
              mkResponse 307 "Temporary Redirect"
                         [("Location", "https://elsewhere.example/")] "")])
         VNone false
         (snd (_download (L := Py.lib)
                 (Sample.scripted
                    [("https://advertising-api-test.amazon.com/v2/sp/campaigns",
                      mkResponse 307 "Temporary Redirect"
                                 [("Location", "https://elsewhere.example/")] "")])
                 (VStr Sample.report_url) Sample.ready)))
  = Raise AttributeError.
Proof.
  apply (operation_after_download (L := Py.lib) _ (VStr Sample.report_url)
           Sample.ready "sp/campaigns" VNone "GET" (Some "v2") "" None
           (mkResponse 307 "Temporary Redirect"
                       [("Location", "https://elsewhere.example/")] "")).
  - cbn. discriminate.
  - cbn. discriminate.
  - reflexivity.
  - constructor.
  - intros hist req Hreq. cbn [wire Sample.scripted]. rewrite Hreq. reflexivity.
  - reflexivity.
Defined.

(** ** Reports and snapshots, end to end *)

Section StatusRuns.
Context {L : Lib} (N : Net).

(** A 2xx reply to a bare GET of the dispatcher under version [v2]. *)
Lemma status_fetch (interface : string) (w : World) (r : HTTPResponse)
    (text : string) :
  _access_token (self w) <> VNone ->
  scoped (self w) = true ->
  (forall req,
     req_url req = "https://" +:+ endpoint (self w) +:+ "/v2/" +:+ interface ->
     wire N (wire_log w) req = Return r) ->
  200 <= h_code r < 300 ->
  utf8_decode (h_body r) = Some text ->
  exists req,
    req_url req = "https://" +:+ endpoint (self w) +:+ "/v2/" +:+ interface
    /\ get_method req = "GET"
    /\ req_data req = None
    /\ carries_operation_headers (self w) req
    /\ _operation N interface VNone "GET" (Some "v2") w
       = (Return (mkResult true (h_code r) (VStr text)), after_request w req).
Proof.
  intros Htok Hsc Hwire Hc Hutf.
  apply is_None_false in Htok.
  destruct (operation_network N interface VNone "GET" (Some "v2") w "" None)
    as (req & Hu & Hd & Hm & Hh & E); [assumption | | constructor |].
  { rewrite Hsc. reflexivity. }
  rewrite append_nil_r in Hu.
  change (version_segment (Some "v2") +:+ "/" +:+ interface)
    with ("/v2/" +:+ interface) in Hu.
  exists req. split; [exact Hu |]. split; [| split; [exact Hd |]; split; [exact Hh |]].
  - unfold get_method. rewrite Hm. reflexivity.
  - rewrite E. unfold try_HTTPError. rewrite run_bind.
    rewrite (urlopen_2xx N req w r (Hwire req Hu) Hc).
    cbn [attr_code read]. run. rewrite Hutf. run. reflexivity.
Qed.

(** A download that goes through, as a run. *)
Lemma download_delivers (location : value) (w : World) (p l : string)
    (r1 r2 : HTTPResponse) (data : bytes) (text : string) (j : value) :
  profile_id (self w) = Some p ->
  url_ok (str_of location) = true ->
  (forall hist req, req_url req = str_of location -> wire N hist req = Return r1) ->
  h_code r1 = 307 ->
  header_get "Location" (h_headers r1) = Some l ->
  url_ok l = true ->
  (forall hist req, req_url req = l -> wire N hist req = Return r2) ->
  200 <= h_code r2 < 300 ->
  gunzip (h_body r2) = Some data ->
  utf8_decode data = Some text ->
  json_loads text = Some j ->
  exists req1,
    req_url req1 = str_of location
    /\ req_headers req1 !! "Amazon-Advertising-API-Scope" = Some p
    /\ _download N location w
       = (Return (mkResult true (h_code r2) j),
          mkWorld (self w) NoRedirectOpener
                  (wire_log w ++ [req1; mkRequest l ∅ None None])).
Proof.
  intros Hp Hok H1 Hc1 Hl Hokl H2 Hc2 Hgz Hutf Hj.
  destruct (download_network N location w p Hp Hok)
    as (hs & _ & _ & _ & Hs & _ & _ & E).
  exists (mkRequest (str_of location) hs None None).
  split; [reflexivity |]. split; [exact Hs |].
  rewrite E. clear E.
  unfold try_HTTPError. rewrite run_bind.
  unfold urlopen at 1. cbn [self opener wire_log].
  rewrite H1 by reflexivity.
  unfold http_response at 1. rewrite Hc1. cbn [Z.eqb Pos.eqb].
  rewrite (header_get_mem _ _ _ Hl), Hl.
  cbn [has_location item_location]. run.
  unfold Request_init. rewrite str_of_VStr, Hokl. run.
  rewrite (urlopen_2xx N _ _ r2); [| apply H2; reflexivity | exact Hc2].
  cbn [read attr_code]. run. rewrite Hgz. run. rewrite Hutf. run.
  cbn [py_json_loads]. rewrite Hj. run.
  unfold after_request. cbn [self opener wire_log].
  rewrite <- app_assoc. reflexivity.
Qed.

End StatusRuns.

(** X17.  Polling a report that is not ready is one status call and nothing
    more.  When the status endpoint answers in the 2xx range with another
    code than 200, or with 200 and a document whose [status] is not
    [SUCCESS], [get_report] returns the status result as it is, with the
    document as text; one GET went out and the opener is untouched.  A reply
    with another code than 200 is not even decoded. *)
Theorem get_report_pending {L : Lib} (N : Net) (report_id : string) (w : World)
    (r : HTTPResponse) (text : string) :
  _access_token (self w) <> VNone ->
  scoped (self w) = true ->
  (forall req,
     req_url req = "https://" +:+ endpoint (self w) +:+ "/v2/reports/" +:+ report_id ->
     wire N (wire_log w) req = Return r) ->
  200 <= h_code r < 300 ->
  utf8_decode (h_body r) = Some text ->
  h_code r <> 200
  \/ (exists d st, json_loads text = Some (VDict d)
                   /\ dict_get "status" d = Some st
                   /\ eq_str st "SUCCESS" = false) ->
  exists req,
    get_report N report_id w
    = (Return (mkResult true (h_code r) (VStr text)), after_request w req)
    /\ req_url req
       = "https://" +:+ endpoint (self w) +:+ "/v2/reports/" +:+ report_id
    /\ get_method req = "GET"
    /\ req_data req = None.
Proof.
  intros Htok Hsc Hwire Hc Hutf Hcase.
  destruct (status_fetch N ("reports/" +:+ report_id) w r text Htok Hsc Hwire Hc Hutf)
    as (req & Hu & Hm & Hd & _ & E).
  exists req. repeat split; try assumption.
  destruct (get_report_runs N report_id w _ _ E) as [Hne Heq].
  destruct Hcase as [Hn | (d & st & Hj & Hst & Hs)].
  - apply Hne. exact Hn.
  - destruct (Z.eq_dec (h_code r) 200) as [H200 | Hn]; [| apply Hne; exact Hn].
    destruct (Heq text d st H200 eq_refl Hj Hst) as [Hpend _].
    apply Hpend. exact Hs.
Qed.

Lemma get_report_pending_witness :
  exists req,
    get_report (L := Py.lib) Scene.report_pending "R1" Sample.ready
    = (Return (mkResult true 200 (VStr (Scene.status_doc "IN_PROGRESS" []))),
       after_request Sample.ready req)
    /\ req_url req = Scene.report_status_url
    /\ get_method req = "GET"
    /\ req_data req = None.
Proof.
  apply (get_report_pending (L := Py.lib) Scene.report_pending "R1" Sample.ready
           (mkResponse 200 "OK" [] (Scene.status_doc "IN_PROGRESS" []))
           (Scene.status_doc "IN_PROGRESS" [])).
  - cbn. discriminate.
  - reflexivity.
  - intros req Hreq. cbn [wire Scene.report_pending Sample.scripted].
    rewrite Hreq. reflexivity.
  - cbn. lia.
  - reflexivity.
  - right. exists [("status", VStr "IN_PROGRESS")], (VStr "IN_PROGRESS").
    repeat split; vm_compute; reflexivity.
Defined.

(** X18.  A ready report, end to end.  When the status endpoint answers 200
    with a document whose [status] is [SUCCESS] and whose [location] is
    served with a 307 to a storage URL holding a gzip-compressed JSON
    artifact, [get_report] returns
    [{'success': True, 'code': <status of the storage reply>,
      'response': <decoded artifact>}]
    after exactly three requests, in this order: the status GET with the
    dispatcher's headers, the GET to the location with the profile scope, and
    a bare GET to the storage URL.  The no-redirect opener stays installed. *)
Theorem get_report_delivers {L : Lib} (N : Net) (report_id : string) (w : World)
    (p l : string) (r r1 r2 : HTTPResponse) (text : string)
    (d : list (string * value)) (st loc : value)
    (data : bytes) (artifact : string) (j : value) :
  _access_token (self w) <> VNone ->
  profile_id (self w) = Some p ->
  p <> "" ->
  (forall hist req,
     req_url req = "https://" +:+ endpoint (self w) +:+ "/v2/reports/" +:+ report_id ->
     wire N hist req = Return r) ->
  h_code r = 200 ->
  utf8_decode (h_body r) = Some text ->
  json_loads text = Some (VDict d) ->
  dict_get "status" d = Some st ->
  eq_str st "SUCCESS" = true ->
  dict_get "location" d = Some loc ->
  url_ok (str_of loc) = true ->
  (forall hist req, req_url req = str_of loc -> wire N hist req = Return r1) ->
  h_code r1 = 307 ->
  header_get "Location" (h_headers r1) = Some l ->
  url_ok l = true ->
  (forall hist req, req_url req = l -> wire N hist req = Return r2) ->
  200 <= h_code r2 < 300 ->
  gunzip (h_body r2) = Some data ->
  utf8_decode data = Some artifact ->
  json_loads artifact = Some j ->
  exists req0 req1,
    get_report N report_id w
    = (Return (mkResult true (h_code r2) j),
       mkWorld (self w) NoRedirectOpener
               (wire_log w ++ [req0; req1; mkRequest l ∅ None None]))
    /\ req_url req0
       = "https://" +:+ endpoint (self w) +:+ "/v2/reports/" +:+ report_id
    /\ carries_operation_headers (self w) req0
    /\ req_url req1 = str_of loc
    /\ req_headers req1 !! "Amazon-Advertising-API-Scope" = Some p.
Proof.
  intros Htok Hp Hpne Hwire Hc Hutf Hj Hst Hs Hloc Hok H1 Hc1 Hl Hokl H2 Hc2
         Hgz Hutf2 Hj2.
  assert (Hsc : scoped (self w) = true).
  { unfold scoped. rewrite Hp. rewrite (string_eqb_false _ _ Hpne). reflexivity. }
  assert (Hc' : 200 <= h_code r < 300) by lia.
  destruct (status_fetch N ("reports/" +:+ report_id) w r text Htok Hsc
              (fun req Hreq => Hwire (wire_log w) req Hreq) Hc' Hutf)
    as (req0 & Hu & _ & _ & Hh & E).
  destruct (get_report_runs N report_id w _ _ E) as [_ Heq].
  destruct (Heq text d st Hc eq_refl Hj Hst) as [_ Hready].
  specialize (Hready loc Hs Hloc).
  destruct (download_delivers N loc (after_request w req0) p l r1 r2 data artifact j)
    as (req1 & Hu1 & Hs1 & E1); try assumption.
  exists req0, req1. rewrite Hready, E1.
  unfold after_request. cbn [self opener wire_log]. rewrite <- app_assoc.
  split; [reflexivity |]. split; [exact Hu |]. split; [exact Hh |].
  split; assumption.
Qed.

Lemma get_report_delivers_witness :
  exists req0 req1,
    get_report (L := Py.lib) Scene.report_desk "R1" Sample.ready
    = (Return (mkResult true 200 (VDict [("rows", VList [VInt 1; VInt 2])])),
       mkWorld (self Sample.ready) NoRedirectOpener
               (wire_log Sample.ready
                  ++ [req0; req1; mkRequest Sample.storage_url ∅ None None]))
    /\ req_url req0 = Scene.report_status_url
    /\ carries_operation_headers (L := Py.lib) (self Sample.ready) req0
    /\ req_url req1 = Sample.report_url
    /\ req_headers req1 !! "Amazon-Advertising-API-Scope" = Some "P1".
Proof.
  apply (get_report_delivers (L := Py.lib) Scene.report_desk "R1" Sample.ready
           "P1" Sample.storage_url
           (mkResponse 200 "OK" []
              (Scene.status_doc "SUCCESS" [("location", VStr Sample.report_url)]))
           (mkResponse 307 "Temporary Redirect"
              [("Location", Sample.storage_url)] "")
           (mkResponse 200 "OK" [] Sample.report_gz)
           (Scene.status_doc "SUCCESS" [("location", VStr Sample.report_url)])
           [("status", VStr "SUCCESS"); ("location", VStr Sample.report_url)]
           (VStr "SUCCESS") (VStr Sample.report_url)
           Sample.report_text Sample.report_text
           (VDict [("rows", VList [VInt 1; VInt 2])])).
  - cbn. discriminate.
  - reflexivity.
  - discriminate.
  - intros hist req Hreq. cbn [wire Scene.report_desk Sample.scripted].
    rewrite Hreq. reflexivity.
  - reflexivity.
  - reflexivity.
  - vm_compute. reflexivity.
  - reflexivity.
  - reflexivity.
  - reflexivity.
  - reflexivity.
  - intros hist req Hreq. cbn [wire Scene.report_desk Sample.scripted].
    rewrite Hreq. reflexivity.
  - reflexivity.
  - reflexivity.
  - reflexivity.
  - intros hist req Hreq. cbn [wire Scene.report_desk Sample.scripted].
    rewrite Hreq. reflexivity.
  - cbn. lia.
  - vm_compute. reflexivity.
  - vm_compute. reflexivity.
  - vm_compute. reflexivity.
Defined.

(** X19.  A status reply that is not what [get_report] expects.  At code 200
    the document is decoded outside any handler: text that is not JSON raises
    [JSONDecodeError], a document without [status] raises [KeyError], and a
    document that says [SUCCESS] and names no [location] raises [KeyError]
    too.  Each time the status request went out and nothing else. *)
Theorem get_report_malformed_status {L : Lib} (N : Net) (report_id : string)
    (w : World) (r : HTTPResponse) (text : string) :
  _access_token (self w) <> VNone ->
  scoped (self w) = true ->
  (forall req,
     req_url req = "https://" +:+ endpoint (self w) +:+ "/v2/reports/" +:+ report_id ->
     wire N (wire_log w) req = Return r) ->
  h_code r = 200 ->
  utf8_decode (h_body r) = Some text ->
  exists req,
    (json_loads text = None ->
     get_report N report_id w = (Raise JSONDecodeError, after_request w req))
    /\ (forall d, json_loads text = Some (VDict d) ->
                  dict_get "status" d = None ->
                  get_report N report_id w
                  = (Raise (KeyError "status"), after_request w req))
    /\ (forall d st, json_loads text = Some (VDict d) ->
                     dict_get "status" d = Some st ->
                     eq_str st "SUCCESS" = true ->
                     dict_get "location" d = None ->
                     get_report N report_id w
                     = (Raise (KeyError "location"), after_request w req)).
Proof.
  intros Htok Hsc Hwire Hc Hutf.
  assert (Hc' : 200 <= h_code r < 300) by lia.
  destruct (status_fetch N ("reports/" +:+ report_id) w r text Htok Hsc Hwire Hc' Hutf)
    as (req & _ & _ & _ & _ & E).
  exists req. unfold get_report. rewrite run_bind, E.
  cbn [code response]. rewrite Hc. cbn [Z.eqb Pos.eqb py_json_loads].
  split; [| split].
  - intros ->. reflexivity.
  - intros d -> Hst. run. cbn [getitem]. rewrite Hst. reflexivity.
  - intros d st -> Hst Hs Hloc. run. cbn [getitem]. rewrite Hst. run.
    rewrite Hs. run. cbn [getitem]. rewrite Hloc. reflexivity.
Qed.

Lemma get_report_malformed_status_witness :
  exists req,
    get_report (L := Py.lib) Scene.report_garbled "R1" Sample.ready
    = (Raise JSONDecodeError, after_request Sample.ready req).
Proof.
  destruct (get_report_malformed_status (L := Py.lib) Scene.report_garbled "R1"
              Sample.ready (mkResponse 200 "OK" [] "<html>maintenance</html>")
              "<html>maintenance</html>") as (req & Hjson & _).
  - cbn. discriminate.
  - reflexivity.
  - intros req Hreq. cbn [wire Scene.report_garbled Sample.scripted].
    rewrite Hreq. reflexivity.
  - reflexivity.
  - reflexivity.
  - exists req. apply Hjson. vm_compute. reflexivity.
Defined.

(** X20.  [get_snapshot] on a status reply in the 2xx range.  The document is
    decoded whatever the code: a [status] other than [SUCCESS] gives the
    status result back unchanged, and [SUCCESS] hands the [location] to the
    downloader in the world the status call left, also when the code is not
    200. *)
Theorem get_snapshot_flow {L : Lib} (N : Net) (snapshot_id : string) (w : World)
    (r : HTTPResponse) (text : string) (d : list (string * value)) (st : value) :
  _access_token (self w) <> VNone ->
  scoped (self w) = true ->
  (forall req,
     req_url req
     = "https://" +:+ endpoint (self w) +:+ "/v2/snapshots/" +:+ snapshot_id ->
     wire N (wire_log w) req = Return r) ->
  200 <= h_code r < 300 ->
  utf8_decode (h_body r) = Some text ->
  json_loads text = Some (VDict d) ->
  dict_get "status" d = Some st ->
  exists req,
    req_url req
    = "https://" +:+ endpoint (self w) +:+ "/v2/snapshots/" +:+ snapshot_id
    /\ get_method req = "GET"
    /\ (eq_str st "SUCCESS" = false ->
        get_snapshot N snapshot_id w
        = (Return (mkResult true (h_code r) (VStr text)), after_request w req))
    /\ (forall loc, eq_str st "SUCCESS" = true ->
                    dict_get "location" d = Some loc ->
                    get_snapshot N snapshot_id w
                    = _download N loc (after_request w req)).
Proof.
  intros Htok Hsc Hwire Hc Hutf Hj Hst.
  destruct (status_fetch N ("snapshots/" +:+ snapshot_id) w r text Htok Hsc Hwire
              Hc Hutf) as (req & Hu & Hm & _ & _ & E).
  exists req. split; [exact Hu |]. split; [exact Hm |].
  destruct (get_snapshot_runs N snapshot_id w _ _ E) as [_ Heq].
  destruct (Heq text d st eq_refl Hj Hst) as [Hpend Hready].
  split; assumption.
Qed.

Lemma get_snapshot_flow_witness :
  exists req,
    req_url req = Scene.snapshot_status_url
    /\ get_snapshot (L := Py.lib) Scene.snapshot_desk "S1" Sample.ready
       = _download (L := Py.lib) Scene.snapshot_desk (VStr Sample.report_url)
           (after_request Sample.ready req).
Proof.
  destruct (get_snapshot_flow (L := Py.lib) Scene.snapshot_desk "S1" Sample.ready
              (mkResponse 202 "Accepted" []
                 (Scene.status_doc "SUCCESS" [("location", VStr Sample.report_url)]))
              (Scene.status_doc "SUCCESS" [("location", VStr Sample.report_url)])
              [("status", VStr "SUCCESS"); ("location", VStr Sample.report_url)]
              (VStr "SUCCESS")) as (req & Hu & _ & _ & Hready).
  - cbn. discriminate.
  - reflexivity.
  - intros req Hreq. cbn [wire Scene.snapshot_desk Sample.scripted].
    rewrite Hreq. reflexivity.
  - cbn. lia.
  - reflexivity.
  - vm_compute. reflexivity.
  - reflexivity.
  - exists req. split; [exact Hu |]. apply Hready; reflexivity.
Defined.

(** ** Footprints *)

Section Footprints.
Context {L : Lib} (N : Net).

Lemma opens_weaken {A : Type} (n n' : nat) (m : M A) :
  (n <= n')%nat -> opens_at_most n m -> opens_at_most n' m.
Proof.
  intros Hle Hm w. destruct (Hm w) as (l & E & Hl). exists l. split; [exact E | lia].
Qed.

Lemma opens_bind {A B : Type} (a b : nat) (m : M A) (k : A -> M B) :
  opens_at_most a m -> (forall x, opens_at_most b (k x)) ->
  opens_at_most (a + b) (m ≫= k).
Proof.
  intros Hm Hk w. rewrite run_bind.
  destruct (Hm w) as (l1 & E1 & H1).
  destruct (m w) as [[x | e] w1]; cbn [snd] in E1.
  - destruct (Hk x w1) as (l2 & E2 & H2).
    exists (l1 ++ l2)%list. rewrite E2, E1, <- app_assoc, length_app.
    split; [reflexivity | lia].
  - exists l1. cbn [snd]. split; [exact E1 | lia].
Qed.

Lemma opens_quiet {A : Type} (n : nat) (m : M A) :
  (forall w, wire_log (snd (m w)) = wire_log w) -> opens_at_most n m.
Proof.
  intros H w. exists []. rewrite app_nil_r. split; [apply H | cbn; lia].
Qed.

Lemma keeps_bind {A B : Type} (m : M A) (k : A -> M B) :
  keeps_session m -> (forall x, keeps_session (k x)) -> keeps_session (m ≫= k).
Proof.
  intros Hm Hk w. rewrite run_bind. specialize (Hm w).
  destruct (m w) as [[x | e] w1]; cbn [snd] in *.
  - rewrite Hk. exact Hm.
  - exact Hm.
Qed.

Lemma loads_still (v : value) (w : World) : snd (py_json_loads v w) = w.
Proof. destruct v; cbn; try reflexivity. destruct (json_loads s); reflexivity. Qed.

Lemma getitem_still (v : value) (k : string) (w : World) : snd (getitem v k w) = w.
Proof. destruct v; cbn; try reflexivity. destruct (dict_get k d); reflexivity. Qed.

Lemma opens_operation (interface : string) (params : value) (method : string)
    (version : option string) :
  opens_at_most 1 (_operation N interface params method version).
Proof.
  intros w. destruct (operation_world N interface params method version w)
    as [-> | (req & -> & _)].
  - exists []. rewrite app_nil_r. split; [reflexivity | cbn; lia].
  - exists [req]. split; [reflexivity | cbn; lia].
Qed.

Lemma keeps_operation (interface : string) (params : value) (method : string)
    (version : option string) :
  keeps_session (_operation N interface params method version)
  /\ keeps_opener (_operation N interface params method version).
Proof.
  split; intros w;
    destruct (operation_world N interface params method version w)
      as [-> | (req & -> & _)]; reflexivity.
Qed.

Lemma opens_download (location : value) : opens_at_most 2 (_download N location).
Proof.
  intros w. destruct (download_world N location w) as [[-> _] | (l & -> & Hl & _)].
  - exists []. rewrite app_nil_r. split; [reflexivity | cbn; lia].
  - exists l. split; [reflexivity | exact Hl].
Qed.

Lemma keeps_download (location : value) : keeps_session (_download N location).
Proof.
  intros w. destruct (download_world N location w) as [[-> _] | (l & -> & _)];
    reflexivity.
Qed.

(** What follows the status call in [get_report] and [get_snapshot]. *)
Lemma opens_hand_over (res : Result) (ready : bool) :
  opens_at_most 2
    (if ready
     then j ← py_json_loads (response res); loc ← getitem j "location";
          _download N loc
     else mret res).
Proof.
  destruct ready; [| apply opens_quiet; reflexivity].
  apply (opens_bind 0 2); [apply opens_quiet; intros w; now rewrite loads_still |].
  intros j.
  apply (opens_bind 0 2); [apply opens_quiet; intros w; now rewrite getitem_still |].
  intros loc. apply opens_download.
Qed.

Lemma keeps_hand_over (res : Result) (ready : bool) :
  keeps_session
    (if ready
     then j ← py_json_loads (response res); loc ← getitem j "location";
          _download N loc
     else mret res).
Proof.
  destruct ready; [| intros w; reflexivity].
  apply keeps_bind; [intros w; now rewrite loads_still |]. intros j.
  apply keeps_bind; [intros w; now rewrite getitem_still |]. intros loc.
  apply keeps_download.
Qed.

End Footprints.

(** X21.  What the report and snapshot calls can do to the process.
    [get_report] and [get_snapshot] call [urlopen] at most three times,
    [request_report] and [request_snapshot] at most once, whatever the
    replies and whether the call returns or raises; none of them touches the
    client object (tokens, profile, host), and the two request calls leave
    the installed opener alone.  What [urllib] sends on its own when it
    follows a redirect inside a call of [urlopen] is not counted. *)
Theorem reporting_footprint {L : Lib} (N : Net) :
  (forall report_id,
     opens_at_most 3 (get_report N report_id)
     /\ keeps_session (get_report N report_id))
  /\ (forall snapshot_id,
        opens_at_most 3 (get_snapshot N snapshot_id)
        /\ keeps_session (get_snapshot N snapshot_id))
  /\ (forall record_type report_id data campaign_type,
        opens_at_most 1 (request_report N record_type report_id data campaign_type)
        /\ keeps_session (request_report N record_type report_id data campaign_type)
        /\ keeps_opener (request_report N record_type report_id data campaign_type))
  /\ (forall record_type snapshot_id data campaign_type,
        opens_at_most 1
          (request_snapshot N record_type snapshot_id data campaign_type)
        /\ keeps_session
             (request_snapshot N record_type snapshot_id data campaign_type)
        /\ keeps_opener
             (request_snapshot N record_type snapshot_id data campaign_type)).
Proof.
  split; [| split; [| split]].
  - intros report_id. unfold get_report. cbv zeta. split.
    + apply (opens_bind 1 2); [apply opens_operation |]. intros res.
      apply (opens_bind 0 2); [| intros ready; apply opens_hand_over].
      apply opens_quiet. intros w. destruct (code res =? 200); [| reflexivity].
      rewrite run_bind. pose proof (loads_still (response res) w) as H1.
      destruct (py_json_loads (response res) w) as [[j | e] w1];
        cbn [snd] in H1; subst w1; [| reflexivity].
      rewrite run_bind. pose proof (getitem_still j "status" w) as H2.
      destruct (getitem j "status" w) as [[st | e] w1];
        cbn [snd] in H2; subst w1; reflexivity.
    + apply keeps_bind; [apply keeps_operation |]. intros res.
      apply keeps_bind; [| intros ready; apply keeps_hand_over].
      intros w. destruct (code res =? 200); [| reflexivity].
      rewrite run_bind. pose proof (loads_still (response res) w) as H1.
      destruct (py_json_loads (response res) w) as [[j | e] w1];
        cbn [snd] in H1; subst w1; [| reflexivity].
      rewrite run_bind. pose proof (getitem_still j "status" w) as H2.
      destruct (getitem j "status" w) as [[st | e] w1];
        cbn [snd] in H2; subst w1; reflexivity.
  - intros snapshot_id. unfold get_snapshot. cbv zeta. split.
    + apply (opens_bind 1 2); [apply opens_operation |]. intros res.
      apply (opens_bind 0 2);
        [apply opens_quiet; intros w; now rewrite loads_still |]. intros j.
      apply (opens_bind 0 2);
        [apply opens_quiet; intros w; now rewrite getitem_still |]. intros st.
      apply opens_hand_over.
    + apply keeps_bind; [apply keeps_operation |]. intros res.
      apply keeps_bind; [intros w; now rewrite loads_still |]. intros j.
      apply keeps_bind; [intros w; now rewrite getitem_still |]. intros st.
      apply keeps_hand_over.
  - intros record_type report_id data campaign_type. unfold request_report.
    destruct record_type as [rt |]; [| destruct report_id as [rid |]];
      cbv zeta;
      first [ split; [apply opens_operation | apply keeps_operation]
            | split; [apply opens_quiet; reflexivity |];
              split; intros w; reflexivity ].
  - intros record_type snapshot_id data campaign_type. unfold request_snapshot.
    cbv zeta.
    destruct record_type as [rt |]; [| destruct snapshot_id as [sid |]];
      first [ split; [apply opens_operation | apply keeps_operation]
            | split; [apply opens_quiet; reflexivity |];
              split; intros w; reflexivity ].
Qed.

(** ** Asking for reports and snapshots *)

(** X22.  [request_report] looks at [record_type] first.  With a record type
    it POSTs to [{campaign_type}/{record_type}/report], the data as a JSON
    body (no body for [data=None]), whatever [report_id] is; without one and
    with a report id it sends a bare GET to [reports/{report_id}] and the
    data is not sent at all. *)
Theorem request_report_routes {L : Lib} (N : Net) (w : World)
    (campaign_type : string) :
  _access_token (self w) <> VNone ->
  scoped (self w) = true ->
  (forall rt report_id data s,
     data <> VNone -> json_dumps data = Some s ->
     exists req out,
       request_report N (Some rt) report_id data campaign_type w
       = (out, after_request w req)
       /\ req_url req = "https://" +:+ endpoint (self w) +:+ "/v2/"
                          +:+ campaign_type +:+ "/" +:+ rt +:+ "/report"
       /\ get_method req = "POST"
       /\ req_data req = Some (utf8_encode s))
  /\ (forall rt report_id,
        exists req out,
          request_report N (Some rt) report_id VNone campaign_type w
          = (out, after_request w req)
          /\ req_url req = "https://" +:+ endpoint (self w) +:+ "/v2/"
                             +:+ campaign_type +:+ "/" +:+ rt +:+ "/report"
          /\ get_method req = "POST"
          /\ req_data req = None)
  /\ (forall rid data,
        exists req out,
          request_report N None (Some rid) data campaign_type w
          = (out, after_request w req)
          /\ req_url req = "https://" +:+ endpoint (self w) +:+ "/v2/reports/" +:+ rid
          /\ get_method req = "GET"
          /\ req_data req = None).
Proof.
  intros Htok Hsc. apply is_None_false in Htok.
  assert (Hguard : forall i, scoped (self w) || contains "profiles" i = true).
  { intros i. rewrite Hsc. reflexivity. }
  split; [| split].
  - intros rt report_id data s Hd Hs. unfold request_report. cbv zeta.
    destruct (operation_sends N (campaign_type +:+ "/" +:+ rt +:+ "/report") data
                "POST" (Some "v2") w "" (Some (utf8_encode s)))
      as (req & out & E & Hu & Hb & Hm & _); [assumption | apply Hguard | |].
    { apply shaped_body_json; [discriminate | apply is_None_false, Hd | exact Hs]. }
    exists req, out. rewrite append_nil_r in Hu.
    split; [exact E |]. split; [exact Hu |].
    split; [unfold get_method; rewrite Hm; reflexivity | exact Hb].
  - intros rt report_id. unfold request_report. cbv zeta.
    destruct (operation_sends N (campaign_type +:+ "/" +:+ rt +:+ "/report") VNone
                "POST" (Some "v2") w "" None)
      as (req & out & E & Hu & Hb & Hm & _); [assumption | apply Hguard | |].
    { apply shaped_body_bare. discriminate. }
    exists req, out. rewrite append_nil_r in Hu.
    split; [exact E |]. split; [exact Hu |].
    split; [unfold get_method; rewrite Hm; reflexivity | exact Hb].
  - intros rid data. unfold request_report. cbv zeta.
    destruct (operation_sends N ("reports/" +:+ rid) VNone "GET" (Some "v2") w "" None)
      as (req & out & E & Hu & Hb & Hm & _); [assumption | apply Hguard | |].
    { constructor. }
    exists req, out. rewrite append_nil_r in Hu.
    split; [exact E |]. split; [exact Hu |].
    split; [unfold get_method; rewrite Hm; reflexivity | exact Hb].
Qed.

Lemma request_report_routes_witness :
  exists req out,
    request_report (L := Py.lib) (Sample.scripted []) (Some "campaigns") (Some "R1")
      (VDict [("reportDate", VStr "20201101"); ("metrics", VStr "impressions,clicks")])
      "sp" Sample.ready
    = (out, after_request Sample.ready req)
    /\ req_url req = "https://advertising-api-test.amazon.com/v2/sp/campaigns/report"
    /\ get_method req = "POST"
    /\ req_data req
       = Some (@utf8_encode Py.lib
                 (Py.dumps (VDict [("reportDate", VStr "20201101");
                                   ("metrics", VStr "impressions,clicks")]))).
Proof.
  destruct (request_report_routes (L := Py.lib) (Sample.scripted []) Sample.ready "sp")
    as (Hpost & _ & _).
  - cbn. discriminate.
  - reflexivity.
  - apply (Hpost "campaigns" (Some "R1")
             (VDict [("reportDate", VStr "20201101");
                     ("metrics", VStr "impressions,clicks")])).
    + discriminate.
    + reflexivity.
Defined.

(** X23.  [request_snapshot] replaces missing data by an empty mapping, and
    that mapping is sent: any falsy [data] ([None], an empty mapping or list)
    makes the POST carry the JSON of [{}] as its body rather than no body,
    and makes the GET by snapshot id end in [?] followed by the encoding of
    the empty mapping.  Unlike [request_report], the GET by id sends the data
    it is given, as a query string. *)
Theorem request_snapshot_defaults {L : Lib} (N : Net) (w : World)
    (campaign_type : string) :
  _access_token (self w) <> VNone ->
  scoped (self w) = true ->
  (forall rt snapshot_id data s,
     truthy data = false -> json_dumps (VDict []) = Some s ->
     exists req out,
       request_snapshot N (Some rt) snapshot_id data campaign_type w
       = (out, after_request w req)
       /\ req_url req = "https://" +:+ endpoint (self w) +:+ "/v2/"
                          +:+ campaign_type +:+ "/" +:+ rt +:+ "/snapshot"
       /\ get_method req = "POST"
       /\ req_data req = Some (utf8_encode s))
  /\ (forall sid data q,
        truthy data = false -> urlencode (VDict []) = Some q ->
        exists req out,
          request_snapshot N None (Some sid) data campaign_type w
          = (out, after_request w req)
          /\ req_url req = "https://" +:+ endpoint (self w) +:+ "/v2/snapshots/"
                             +:+ sid +:+ "?" +:+ q
          /\ get_method req = "GET"
          /\ req_data req = None)
  /\ (forall sid data q,
        truthy data = true -> urlencode data = Some q ->
        exists req out,
          request_snapshot N None (Some sid) data campaign_type w
          = (out, after_request w req)
          /\ req_url req = "https://" +:+ endpoint (self w) +:+ "/v2/snapshots/"
                             +:+ sid +:+ "?" +:+ q
          /\ get_method req = "GET"
          /\ req_data req = None).
Proof.
  intros Htok Hsc. apply is_None_false in Htok.
  assert (Hguard : forall i, scoped (self w) || contains "profiles" i = true).
  { intros i. rewrite Hsc. reflexivity. }
  split; [| split].
  - intros rt snapshot_id data s Hd Hs. unfold request_snapshot. rewrite Hd.
    cbn [negb]. cbv zeta.
    destruct (operation_sends N (campaign_type +:+ "/" +:+ rt +:+ "/snapshot")
                (VDict []) "POST" (Some "v2") w "" (Some (utf8_encode s)))
      as (req & out & E & Hu & Hb & Hm & _); [assumption | apply Hguard | |].
    { apply shaped_body_json; [discriminate | reflexivity | exact Hs]. }
    exists req, out. rewrite append_nil_r in Hu.
    split; [exact E |]. split; [exact Hu |].
    split; [unfold get_method; rewrite Hm; reflexivity | exact Hb].
  - intros sid data q Hd Hq. unfold request_snapshot. rewrite Hd.
    cbn [negb]. cbv zeta.
    destruct (operation_sends N ("snapshots/" +:+ sid) (VDict []) "GET" (Some "v2")
                w ("?" +:+ q) None)
      as (req & out & E & Hu & Hb & Hm & _); [assumption | apply Hguard | |].
    { apply shaped_get_query; [reflexivity | exact Hq]. }
    exists req, out. rewrite append_assoc in Hu.
    split; [exact E |]. split; [exact Hu |].
    split; [unfold get_method; rewrite Hm; reflexivity | exact Hb].
  - intros sid data q Hd Hq. unfold request_snapshot. rewrite Hd.
    cbn [negb]. cbv zeta.
    destruct (operation_sends N ("snapshots/" +:+ sid) data "GET" (Some "v2")
                w ("?" +:+ q) None)
      as (req & out & E & Hu & Hb & Hm & _); [assumption | apply Hguard | |].
    { apply shaped_get_query; [| exact Hq]. destruct data; try reflexivity.
      discriminate. }
    exists req, out. rewrite append_assoc in Hu.
    split; [exact E |]. split; [exact Hu |].
    split; [unfold get_method; rewrite Hm; reflexivity | exact Hb].
Qed.

Lemma request_snapshot_defaults_witness :
  exists req out,
    request_snapshot (L := Py.lib) (Sample.scripted []) None (Some "S1") VNone "sp"
      Sample.ready
    = (out, after_request Sample.ready req)
    /\ req_url req = "https://advertising-api-test.amazon.com/v2/snapshots/S1?"
    /\ get_method req = "GET"
    /\ req_data req = None.
Proof.
  destruct (request_snapshot_defaults (L := Py.lib) (Sample.scripted [])
              Sample.ready "sp") as (_ & Hget & _).
  - cbn. discriminate.
  - reflexivity.
  - apply (Hget "S1" VNone ""); reflexivity.
Defined.

(** ** The endpoint catalog *)

Section CatalogRuns.
Context {L : Lib} (N : Net).

Lemma contains_operation (interface : string) (params : value) (method : string)
    (version : option string) :
  contains_HTTPError (_operation N interface params method version).
Proof. unfold _operation. cbv zeta. contained. Qed.

(** The network part of [_operation] returns text. *)
Lemma operation_tail_text (req : Request) :
  returns_text
    (try_HTTPError
       (f ← urlopen N req;
        c ← attr_code f;
        raw ← read f;
        text ← lift UnicodeDecodeError (utf8_decode raw);
        mret (mkResult true c (VStr text)))
       on_HTTPError).
Proof.
  intros w r. unfold try_HTTPError. rewrite run_bind.
  destruct (urlopen N req w) as [[f | e] w1].
  - destruct f as [r' | c l]; cbn [attr_code read]; run.
    + destruct (utf8_decode (h_body r')); run; cbn [fst]; intros H;
        inversion H. eexists. reflexivity.
    + cbn [fst]. discriminate.
  - destruct e; cbn [fst]; try discriminate.
    unfold on_HTTPError. run. cbn [fst]. intros H. inversion H.
    eexists. reflexivity.
Qed.

Lemma operation_returns_text (interface : string) (params : value)
    (method : string) (version : option string) :
  returns_text (_operation N interface params method version).
Proof.
  intros w r. unfold _operation. run.
  destruct (is_None (_access_token (self w)));
    [cbn [fst]; intros H; inversion H; eexists; reflexivity |].
  match goal with
  | |- context [match ?step with inl _ => _ | inr _ => _ end] =>
      destruct step as [early | hs] eqn:Hstep
  end.
  { revert Hstep. destruct (profile_id (self w)) as [p |].
    - destruct (negb (String.eqb p "")); [discriminate |].
      destruct (negb (contains "profiles" interface)); [| discriminate].
      intros Hs. inversion Hs. cbn [fst]. intros H. inversion H.
      eexists. reflexivity.
    - destruct (negb (contains "profiles" interface)); [| discriminate].
      intros Hs. inversion Hs. cbn [fst]. intros H. inversion H.
      eexists. reflexivity. }
  destruct (String.eqb method "GET").
  - destruct (negb (is_None params)); run.
    + destruct (urlencode params) as [q |]; run; [| cbn [fst]; discriminate].
      rewrite Request_init_https. cbn [req_url req_headers req_data].
      apply operation_tail_text.
    + rewrite Request_init_https. cbn [req_url req_headers req_data].
      apply operation_tail_text.
  - destruct (negb (is_None params)); run.
    + destruct (json_dumps params) as [s |]; run; [| cbn [fst]; discriminate].
      rewrite Request_init_https. cbn [req_url req_headers req_data].
      apply operation_tail_text.
    + rewrite Request_init_https. cbn [req_url req_headers req_data].
      apply operation_tail_text.
Qed.

End CatalogRuns.

(** X24.  The endpoint catalog.  Each of the methods that are one call of
    the dispatcher, on every session and against every remote side, calls
    [urlopen] at most once (redirects that [urllib] follows inside that call
    are not counted), leaves the client object and the installed opener as
    they were, lets no [HTTPError] out, and returns, when it returns, a
    result whose [response] is text: the reply is never decoded for the
    caller.  The three methods left cannot run: [archive_target] and
    [archive_negative_target] take [ad_group_id] and format [target_id],
    [get_negative_target] takes [target_id] and formats [ad_group_id], so for
    every argument the call stops at the unbound name and the dispatcher is
    not reached. *)
Theorem catalog_contract {L : Lib} (N : Net) (id data : value) (extended : bool) :
  Forall (fun call : M Result =>
            opens_at_most 1 call
            /\ keeps_session call
            /\ keeps_opener call
            /\ contains_HTTPError call
            /\ returns_text call)
         (catalog N id data extended)
  /\ archive_target N id = NameError "target_id"
  /\ get_negative_target N id extended = NameError "ad_group_id"
  /\ archive_negative_target N id = NameError "target_id".
Proof.
  assert (H : forall interface params method version,
            opens_at_most 1 (_operation N interface params method version)
            /\ keeps_session (_operation N interface params method version)
            /\ keeps_opener (_operation N interface params method version)
            /\ contains_HTTPError (_operation N interface params method version)
            /\ returns_text (_operation N interface params method version)).
  { intros. split; [apply opens_operation |].
    split; [apply keeps_operation |]. split; [apply keeps_operation |].
    split; [apply contains_operation | apply operation_returns_text]. }
  split; [| repeat split].
  unfold catalog.
  repeat (apply List.Forall_cons; [apply H |]). apply List.Forall_nil.
Qed.

(** X25.  Finding a profile needs no profile.  On a session with an access
    token and no profile id, the four profile methods pass the dispatcher's
    guard: [list_profiles] and [get_profile] send a GET, [register_profile]
    a PUT whose body is the JSON of [{'countryCode': country_code}] and
    [update_profiles] a PUT with the data, each to its path under
    [/v2/profiles] and without the scope header. *)
Theorem profile_calls_unscoped {L : Lib} (N : Net) (w : World) :
  _access_token (self w) <> VNone ->
  scoped (self w) = false ->
  (exists req out,
     list_profiles N w = (out, after_request w req)
     /\ req_url req = "https://" +:+ endpoint (self w) +:+ "/v2/profiles"
     /\ get_method req = "GET"
     /\ req_data req = None
     /\ req_headers req !! "Amazon-Advertising-API-Scope" = None)
  /\ (forall profile_id,
        exists req out,
          get_profile N profile_id w = (out, after_request w req)
          /\ req_url req = "https://" +:+ endpoint (self w) +:+ "/v2/profiles/"
                             +:+ str_of profile_id
          /\ get_method req = "GET"
          /\ req_data req = None
          /\ req_headers req !! "Amazon-Advertising-API-Scope" = None)
  /\ (forall country_code s,
        json_dumps (VDict [("countryCode", country_code)]) = Some s ->
        exists req out,
          register_profile N country_code w = (out, after_request w req)
          /\ req_url req = "https://" +:+ endpoint (self w) +:+ "/v2/profiles/register"
          /\ get_method req = "PUT"
          /\ req_data req = Some (utf8_encode s)
          /\ req_headers req !! "Amazon-Advertising-API-Scope" = None)
  /\ (forall data s,
        data <> VNone -> json_dumps data = Some s ->
        exists req out,
          update_profiles N data w = (out, after_request w req)
          /\ req_url req = "https://" +:+ endpoint (self w) +:+ "/v2/profiles"
          /\ get_method req = "PUT"
          /\ req_data req = Some (utf8_encode s)
          /\ req_headers req !! "Amazon-Advertising-API-Scope" = None).
Proof.
  intros Htok Hsc. apply is_None_false in Htok.
  assert (Hscope : forall req, carries_operation_headers (self w) req ->
                     req_headers req !! "Amazon-Advertising-API-Scope" = None).
  { intros req (_ & _ & _ & _ & _ & H). rewrite Hsc in H. exact H. }
  split; [| split; [| split]].
  - destruct (operation_sends N "profiles" VNone "GET" (Some "v2") w "" None)
      as (req & out & E & Hu & Hb & Hm & Hh);
      [assumption | rewrite Hsc; reflexivity | constructor |].
    exists req, out. split; [exact E |]. split; [exact Hu |].
    split; [unfold get_method; rewrite Hm; reflexivity |].
    split; [exact Hb | apply Hscope, Hh].
  - intros profile_id.
    destruct (operation_sends N ("profiles/" +:+ str_of profile_id) VNone "GET"
                (Some "v2") w "" None)
      as (req & out & E & Hu & Hb & Hm & Hh);
      [assumption | rewrite Hsc; reflexivity | constructor |].
    exists req, out. rewrite append_nil_r in Hu.
    split; [exact E |]. split; [exact Hu |].
    split; [unfold get_method; rewrite Hm; reflexivity |].
    split; [exact Hb | apply Hscope, Hh].
  - intros country_code s Hs.
    destruct (operation_sends N "profiles/register"
                (VDict [("countryCode", country_code)]) "PUT" (Some "v2") w ""
                (Some (utf8_encode s)))
      as (req & out & E & Hu & Hb & Hm & Hh);
      [assumption | rewrite Hsc; reflexivity | |].
    { apply shaped_body_json; [discriminate | reflexivity | exact Hs]. }
    exists req, out. split; [exact E |]. split; [exact Hu |].
    split; [unfold get_method; rewrite Hm; reflexivity |].
    split; [exact Hb | apply Hscope, Hh].
  - intros data s Hd Hs.
    destruct (operation_sends N "profiles" data "PUT" (Some "v2") w ""
                (Some (utf8_encode s)))
      as (req & out & E & Hu & Hb & Hm & Hh);
      [assumption | rewrite Hsc; reflexivity | |].
    { apply shaped_body_json; [discriminate | apply is_None_false, Hd | exact Hs]. }
    exists req, out. split; [exact E |]. split; [exact Hu |].
    split; [unfold get_method; rewrite Hm; reflexivity |].
    split; [exact Hb | apply Hscope, Hh].
Qed.

Lemma profile_calls_unscoped_witness :
  exists req out,
    register_profile (L := Py.lib) (Sample.scripted []) (VStr "US")
      (Sample.fresh (Sample.client (VStr "T") None None))
    = (out, after_request (Sample.fresh (Sample.client (VStr "T") None None)) req)
    /\ req_url req = "https://advertising-api-test.amazon.com/v2/profiles/register"
    /\ get_method req = "PUT"
    /\ req_data req
       = Some (@utf8_encode Py.lib (Py.dumps (VDict [("countryCode", VStr "US")])))
    /\ req_headers req !! "Amazon-Advertising-API-Scope" = None.
Proof.
  destruct (profile_calls_unscoped (L := Py.lib) (Sample.scripted [])
              (Sample.fresh (Sample.client (VStr "T") None None)))
    as (_ & _ & Hreg & _).
  - cbn. discriminate.
  - reflexivity.
  - apply (Hreg (VStr "US")). reflexivity.
Defined.

(** ** The redirect handler *)

Lemma append_cons (a : ascii) (s t : string) :
  String a s +:+ t = String a (s +:+ t).
Proof. reflexivity. Qed.

(** The text of the error handler has a colon; ['Location is empty.'] has
    none. *)
Lemma rendered_error_text (msg x : string) :
  msg +:+ ": " +:+ x <> "Location is empty.".
Proof.
  intros H.
  do 18 (destruct msg as [| ? msg];
         [change (": " +:+ x) with (String ":" (String " " x)) in H;
          discriminate H
         | rewrite append_cons in H; injection H as _ H]).
  destruct msg as [| ? msg]; discriminate H.
Qed.

(** X26.  The ['Location is empty.'] branch of the downloader is dead.  For
    every session, location and remote side, [_download] never returns
    [{'success': False, 'code': .., 'response': 'Location is empty.'}].  A
    307 reply without a [Location] header does reach that branch, as the
    mapping the handler built, and reading [response.code] off the mapping
    raises [AttributeError]; a [Location] that [Request] refuses, the empty
    text for one, is not [None] and raises [ValueError] in the second
    [Request]. *)
Theorem download_dead_branch {L : Lib} (N : Net) (location : value) (w : World) :
  (forall c,
     fst (_download N location w)
     <> Return (mkResult false c (VStr "Location is empty.")))
  /\ (forall p r1,
        profile_id (self w) = Some p ->
        url_ok (str_of location) = true ->
        (forall req, req_url req = str_of location ->
                     wire N (wire_log w) req = Return r1) ->
        h_code r1 = 307 ->
        (header_get "Location" (h_headers r1) = None ->
         fst (_download N location w) = Raise AttributeError)
        /\ (forall l, header_get "Location" (h_headers r1) = Some l ->
                      url_ok l = false ->
                      fst (_download N location w)
                      = Raise (ValueError "unknown url type"))).
Proof.
  split.
  - intros c. unfold _download. run.
    destruct (profile_id (self w)) as [p |]; [| discriminate]. run.
    unfold Request_init at 1.
    destruct (url_ok (str_of location)); run; [| discriminate].
    unfold try_HTTPError. rewrite run_bind.
    match goal with
    | |- context [urlopen N ?r ?w0] => destruct (urlopen N r w0) as [[f | e] w1]
    end.
    2:{ destruct e; try discriminate. unfold on_HTTPError. run. cbn [fst].
        intros H. inversion H. eapply rendered_error_text. eassumption. }
    destruct f as [r | c1 l]; cbn [has_location item_location attr_code]; run;
      [discriminate |].
    destruct l as [l |]; run; [| discriminate].
    unfold Request_init. destruct (url_ok (str_of (VStr l))); run; [| discriminate].
    match goal with
    | |- context [urlopen N ?r ?w0] => destruct (urlopen N r w0) as [[f | e] w2]
    end.
    2:{ destruct e; try discriminate. unfold on_HTTPError. run. cbn [fst].
        intros H. inversion H. eapply rendered_error_text. eassumption. }
    destruct f as [r2 | c2 l2]; cbn [read attr_code]; run; [| discriminate].
    destruct (gunzip (h_body r2)); run; [| discriminate].
    destruct (utf8_decode b); run; [| discriminate].
    cbn [py_json_loads]. destruct (json_loads s); run; discriminate.
  - intros p r1 Hp Hok H1 Hc1.
    destruct (download_network N location w p Hp Hok)
      as (hs & _ & _ & _ & _ & _ & _ & E).
    rewrite E. clear E.
    split; [intros Hl | intros l Hl Hbad];
      unfold try_HTTPError; rewrite run_bind;
      unfold urlopen at 1; cbn [self opener wire_log];
      rewrite H1 by reflexivity;
      unfold http_response at 1; rewrite Hc1; cbn [Z.eqb Pos.eqb];
      unfold header_mem; rewrite Hl;
      cbn [has_location item_location attr_code]; run.
    + reflexivity.
    + unfold Request_init. rewrite str_of_VStr, Hbad. run. reflexivity.
Qed.

Lemma download_dead_branch_witness :
  fst (_download (L := Py.lib) Sample.lost_redirect (VStr Sample.report_url)
                 Sample.ready)
  = Raise AttributeError.
Proof.
  destruct (download_dead_branch (L := Py.lib) Sample.lost_redirect
              (VStr Sample.report_url) Sample.ready) as [_ H307].
  destruct (H307 "P1" (mkResponse 307 "Temporary Redirect" [] "")) as [Hlost _].
  - reflexivity.
  - reflexivity.
  - intros req Hreq. cbn [wire Sample.lost_redirect Sample.scripted].
    rewrite Hreq. reflexivity.
  - reflexivity.
  - apply Hlost. reflexivity.
Defined.



(** ** The request class of the Python 2 path *)

(** X28.  [MethodRequest] carries its verb.  Built with a [method] keyword it
    answers [get_method] with that verb, body or no body; built without one,
    or with [method=None], it answers as [urllib.request.Request] does: POST
    with a body, GET without.  Construction fails only where [Request]'s
    does. *)
Theorem MethodRequest_verb {L : Lib} (url : value) (headers : gmap string string)
    (data : option bytes) (w : World) :
  (url_ok (str_of url) = true ->
   (forall m, exists r,
      MethodRequest_init url headers data (Some (Some m)) w = (Return r, w)
      /\ MethodRequest_get_method r = m
      /\ req_url (mr_request r) = str_of url
      /\ req_data (mr_request r) = data)
   /\ (forall kw, kw = None \/ kw = Some None ->
       exists r,
         MethodRequest_init url headers data kw w = (Return r, w)
         /\ MethodRequest_get_method r
            = match data with Some _ => "POST" | None => "GET" end))
  /\ (url_ok (str_of url) = false ->
      forall kw,
        MethodRequest_init url headers data kw w
        = (Raise (ValueError "unknown url type"), w)).
Proof.
  split.
  - intros Hok. split.
    + intros m. unfold MethodRequest_init, Request_init. cbv zeta.
      rewrite Hok. run. eexists. repeat split.
    + intros kw [-> | ->]; unfold MethodRequest_init, Request_init; cbv zeta;
        rewrite Hok; run; eexists; (split; [reflexivity |]);
        unfold MethodRequest_get_method, get_method; cbn; reflexivity.
  - intros Hbad kw. unfold MethodRequest_init, Request_init. cbv zeta.
    rewrite Hbad. run. reflexivity.
Qed.

Lemma MethodRequest_verb_witness :
  exists r,
    MethodRequest_init (L := Py.lib)
      (VStr "https://advertising-api-test.amazon.com/v2/sp/campaigns") ∅ None
      (Some (Some "DELETE")) Sample.ready
    = (Return r, Sample.ready)
    /\ MethodRequest_get_method r = "DELETE"
    /\ req_url (mr_request r)
       = @str_of Py.lib
           (VStr "https://advertising-api-test.amazon.com/v2/sp/campaigns")
    /\ req_data (mr_request r) = None.
Proof.
  destruct (MethodRequest_verb (L := Py.lib)
              (VStr "https://advertising-api-test.amazon.com/v2/sp/campaigns")
              ∅ None Sample.ready) as [Hok _].
  destruct Hok as [Hverb _]; [reflexivity |].
  apply (Hverb "DELETE").
Defined.

(** ** The token property *)

(** X29.  The [access_token] property and the dispatcher.  Reading the
    property after setting it gives the value back, and setting it changes
    nothing else.  After it is set to [None] every call of the dispatcher is
    refused without a request; after it is set to anything else, the empty
    text included, the dispatcher sends that value as the bearer token. *)
Theorem access_token_property {L : Lib} (N : Net) (v : value) (w : World) :
  (access_token_setter v;; access_token) w
  = (Return v, mkWorld (with_access_token v (self w)) (opener w) (wire_log w))
  /\ (v = VNone ->
      forall interface params method version,
        (access_token_setter v;; _operation N interface params method version) w
        = (Return (mkResult false 0 (VStr "access_token is empty.")),
           mkWorld (with_access_token v (self w)) (opener w) (wire_log w)))
  /\ (v <> VNone ->
      forall interface params method version query body,
        scoped (self w) || contains "profiles" interface = true ->
        shaped method params query body ->
        exists req out,
          (access_token_setter v;; _operation N interface params method version) w
          = (out, mkWorld (with_access_token v (self w)) (opener w)
                          (wire_log w ++ [req]))
          /\ req_headers req !! "Authorization" = Some ("Bearer " +:+ str_of v)).
Proof.
  split; [reflexivity |]. split.
  - intros -> interface params method version.
    unfold access_token_setter. run. unfold _operation. run. reflexivity.
  - intros Hv interface params method version query body Hguard Hshape.
    unfold access_token_setter. run.
    destruct (operation_sends N interface params method version
                (mkWorld (with_access_token v (self w)) (opener w) (wire_log w))
                query body)
      as (req & out & E & _ & _ & _ & Hh);
      [apply is_None_false, Hv | exact Hguard | exact Hshape |].
    exists req, out. split; [exact E |]. apply Hh.
Qed.

Lemma access_token_property_witness :
  exists req out,
    (access_token_setter (VStr "");; list_campaigns (L := Py.lib)
                                       (Sample.scripted []) VNone false)
      Sample.no_token
    = (out, mkWorld (with_access_token (VStr "") (self Sample.no_token))
                    (opener Sample.no_token) (wire_log Sample.no_token ++ [req]))
    /\ req_headers req !! "Authorization"
       = Some ("Bearer " +:+ @str_of Py.lib (VStr "")).
Proof.
  destruct (access_token_property (L := Py.lib) (Sample.scripted []) (VStr "")
              Sample.no_token) as (_ & _ & Hsend).
  apply (Hsend ltac:(discriminate) "sp/campaigns" VNone "GET" (Some "v2") "" None).
  - reflexivity.
  - constructor.
Defined.

(** ** What a refresh can change *)

Section RefreshFrame.
Context {L : Lib} (N : Net).

Lemma same_but_tokens_refl (me : Client) : same_but_tokens me me.
Proof. repeat split. Qed.

Lemma same_but_tokens_trans (a b c : Client) :
  same_but_tokens a b -> same_but_tokens b c -> same_but_tokens a c.
Proof.
  unfold same_but_tokens.
  intros (A1 & A2 & A3 & A4 & A5 & A6 & A7 & A8) (B1 & B2 & B3 & B4 & B5 & B6 & B7 & B8).
  repeat split; congruence.
Qed.

Lemma refresh_tail_frame (req : Request) (w : World) :
  let w' := snd (try_HTTPError
                   (f ← urlopen N req;
                    raw ← read f;
                    response ← lift UnicodeDecodeError (utf8_decode raw);
                    if contains "access_token" response then
                      json_data ← py_json_loads (VStr response);
                      tok ← getitem json_data "access_token";
                      set_access_token tok;;
                      c ← attr_code f;
                      me ← get_self;
                      mret (mkResult true c (_access_token me))
                    else
                      c ← attr_code f;
                      mret (mkResult false c (VStr "access_token not in response.")))
                   on_HTTPError w) in
  wire_log w' = (wire_log w ++ [req])%list
  /\ opener w' = opener w
  /\ same_but_tokens (self w') (self w).
Proof.
  cbv zeta. unfold try_HTTPError. rewrite run_bind.
  pose proof (urlopen_world N req w) as Hw.
  destruct (urlopen N req w) as [o w1]. cbn [snd] in Hw. subst w1.
  destruct o as [f | e].
  2:{ destruct e; cbn; repeat split; reflexivity. }
  destruct f as [r | c l]; cbn [read]; run.
  2:{ cbn. repeat split; reflexivity. }
  destruct (utf8_decode (h_body r)) as [text |]; run.
  2:{ cbn. repeat split; reflexivity. }
  destruct (contains "access_token" text); run; cbn [attr_code py_json_loads]; run.
  2:{ cbn. repeat split; reflexivity. }
  destruct (json_loads text) as [j |]; run.
  2:{ cbn. repeat split; reflexivity. }
  unfold getitem.
  destruct j; run; try (cbn; repeat split; reflexivity).
  destruct (dict_get "access_token" d) as [tok |]; run; cbn; repeat split; reflexivity.
Qed.

Lemma refresh_frame (w : World) :
  exists l : list Request,
    wire_log (snd (do_refresh_token N w)) = (wire_log w ++ l)%list
    /\ (length l <= 1)%nat
    /\ opener (snd (do_refresh_token N w)) = opener w
    /\ same_but_tokens (self (snd (do_refresh_token N w))) (self w).
Proof.
  assert (Hstill : forall w0 : World,
            w0 = w ->
            exists l : list Request,
              wire_log w0 = (wire_log w ++ l)%list /\ (length l <= 1)%nat
              /\ opener w0 = opener w /\ same_but_tokens (self w0) (self w)).
  { intros w0 ->. exists []. rewrite app_nil_r.
    repeat split; cbn; lia. }
  unfold do_refresh_token. run.
  destruct (refresh_token (self w)) as [rt |]; [| apply Hstill; reflexivity].
  run.
  assert (Hpre : exists o me1,
            (if truthy (_access_token (self w))
             then t ← py_unquote (_access_token (self w)); set_access_token t
             else mret tt) w = (o, mkWorld me1 (opener w) (wire_log w))
            /\ same_but_tokens me1 (self w)).
  { destruct w as [me o log]. cbn [self opener wire_log].
    destruct (truthy (_access_token me));
      [| eexists _, me; split; [reflexivity | apply same_but_tokens_refl]].
    rewrite run_bind.
    destruct (_access_token me) as [| b | n | s | l | d]; cbn [py_unquote];
      try (eexists _, me; split; [reflexivity | apply same_but_tokens_refl]).
    - eexists _, _. split; [reflexivity |]. repeat split.
    - destruct (existsb (fun x => eq_str x "%") l);
        eexists _, me; (split; [reflexivity | apply same_but_tokens_refl]).
    - destruct (dict_get "%" d);
        eexists _, me; (split; [reflexivity | apply same_but_tokens_refl]). }
  destruct Hpre as (o & me1 & -> & Hme1).
  destruct o as [[] | e].
  2:{ exists []. rewrite app_nil_r. cbn [snd self opener wire_log].
      repeat split; [cbn; lia | apply Hme1..]. }
  run.
  match goal with
  | |- context [lift TypeError ?o] => destruct o as [data |]
  end; run.
  2:{ exists []. rewrite app_nil_r. cbn [snd self opener wire_log].
      split; [reflexivity |]. split; [cbn; lia |]. split; [reflexivity |].
      eapply same_but_tokens_trans; [| exact Hme1]. repeat split. }
  rewrite Request_init_https.
  match goal with
  | |- context [try_HTTPError _ on_HTTPError ?w0] =>
      match goal with
      | |- context [urlopen N ?r] =>
          destruct (refresh_tail_frame r w0) as (Hlog & Hop & Hself)
      end
  end.
  cbn [self opener wire_log] in Hlog, Hop, Hself.
  eexists [_]. split; [exact Hlog |]. split; [cbn; lia |]. split; [exact Hop |].
  eapply same_but_tokens_trans; [exact Hself |].
  eapply same_but_tokens_trans; [| exact Hme1]. repeat split.
Qed.

End RefreshFrame.

(** X30.  A refresh touches the two tokens and nothing else.  Whatever the
    session and the remote side, and whether the call returns or raises,
    [do_refresh_token] calls [urlopen] at most once (a redirect that [urllib]
    follows inside that call is not counted), leaves the installed opener
    alone, and leaves client id, client secret, profile id, host, token URL,
    sandbox flag, API version and user agent as they were. *)
Theorem refresh_footprint {L : Lib} (N : Net) :
  opens_at_most 1 (do_refresh_token N)
  /\ keeps_opener (do_refresh_token N)
  /\ touches_only_tokens (do_refresh_token N).
Proof.
  split; [| split]; intros w;
    destruct (refresh_frame N w) as (l & Hlog & Hlen & Hop & Hself).
  - exists l. split; assumption.
  - exact Hop.
  - exact Hself.
Qed.
